(** * Verification of the decision procedures of ai-search-match-framework

    Shallow embedding of the Python sources:
    - [src/src/asmf/providers/provider_factory.py]  (provider fallback)
    - [src/src/aggregator/aggregator.py]             (deduplication)
    - [src/src/asmf/domain/expert.py], [config.py]   (temperature / yield checks)
    - [src/src/tracker/tracker.py]                   (tracked-item store)
    - [src/webhook_server.py]                        (GitHub webhook handler)
    - [src/src/asmf/llm/model_selector.py]           (VRAM tiers, model choice)

    Conventions.  A Python [str] is modelled by its UTF-8 encoding as a Rocq
    [string] (one [ascii] per byte), so [s.encode()] is the identity; where
    the code works on characters ([\d], [\s], [lower()], [repr()]) the
    code points are recovered with [Unicode.decode].
    Python integers are [Z]; hashes are computed by the real MD5 and SHA-256
    algorithms below, over lists of bytes given as [Z] in [0, 256). *)

From Stdlib Require Import ZArith List String Ascii Bool Lia QArith.
From Stdlib Require Import Numbers.DecimalString.
From Stdlib Require Import Floats.SpecFloat.
Import ListNotations.
Open Scope string_scope.

(* ================================================================= *)
(** ** Bytes, words and hexadecimal digests *)

Module Bytes.
Open Scope Z_scope.
Open Scope list_scope.

Definition bytes := list Z.

Fixpoint of_string (s : string) : bytes :=
  match s with
  | EmptyString => []
  | String c r => Z.of_nat (nat_of_ascii c) :: of_string r
  end.

Definition mask32 : Z := Z.ones 32.
Definition add32 (a b : Z) : Z := Z.land (a + b) mask32.
Definition rotl32 (x c : Z) : Z :=
  Z.land (Z.lor (Z.shiftl x c) (Z.shiftr x (32 - c))) mask32.
Definition rotr32 (x c : Z) : Z :=
  Z.land (Z.lor (Z.shiftr x c) (Z.shiftl x (32 - c))) mask32.
Definition not32 (x : Z) : Z := Z.lxor x mask32.

(** [n] bytes of [x], least significant first / most significant first. *)
Fixpoint le_bytes (n : nat) (x : Z) : bytes :=
  match n with
  | O => []
  | S k => Z.land x 255 :: le_bytes k (Z.shiftr x 8)
  end.
Definition be_bytes (n : nat) (x : Z) : bytes := rev (le_bytes n x).

Fixpoint le_word (bs : bytes) : Z :=
  match bs with
  | [] => 0
  | b :: r => b + 256 * le_word r
  end.
Definition be_word (bs : bytes) : Z := le_word (rev bs).

(** Split into groups of [n] (the last group may be shorter). *)
Fixpoint chunks_aux (fuel n : nat) (bs : bytes) : list bytes :=
  match fuel with
  | O => []
  | S f =>
      match bs with
      | [] => []
      | _ => firstn n bs :: chunks_aux f n (skipn n bs)
      end
  end.
Definition chunks (n : nat) (bs : bytes) : list bytes :=
  chunks_aux (List.length bs) n bs.

Definition hex_digit (d : Z) : ascii :=
  if d <? 10 then ascii_of_nat (Z.to_nat (48 + d))
  else ascii_of_nat (Z.to_nat (87 + d)).

(** [hexdigest]: two lowercase hex digits per byte. *)
Fixpoint hex (bs : bytes) : string :=
  match bs with
  | [] => EmptyString
  | b :: r => String (hex_digit (Z.shiftr b 4)) (String (hex_digit (Z.land b 15)) (hex r))
  end.

(** Message padding shared by MD5 and SHA-256: 0x80, zeros up to 56 mod 64,
    then the bit length on 8 bytes. *)
Definition pad (len_bytes : bytes -> bytes) (m : bytes) : bytes :=
  let l := Z.of_nat (List.length m) in
  let zeros := Z.to_nat ((55 - l) mod 64) in
  m ++ [128] ++ repeat 0 zeros ++ len_bytes m.

End Bytes.

(* ================================================================= *)
(** ** MD5 ([hashlib.md5]) *)

Module MD5.
Import Bytes.
Open Scope Z_scope.
Open Scope list_scope.

Definition K : list Z :=
  [0xd76aa478; 0xe8c7b756; 0x242070db; 0xc1bdceee; 0xf57c0faf; 0x4787c62a; 0xa8304613; 0xfd469501;
   0x698098d8; 0x8b44f7af; 0xffff5bb1; 0x895cd7be; 0x6b901122; 0xfd987193; 0xa679438e; 0x49b40821;
   0xf61e2562; 0xc040b340; 0x265e5a51; 0xe9b6c7aa; 0xd62f105d; 0x02441453; 0xd8a1e681; 0xe7d3fbc8;
   0x21e1cde6; 0xc33707d6; 0xf4d50d87; 0x455a14ed; 0xa9e3e905; 0xfcefa3f8; 0x676f02d9; 0x8d2a4c8a;
   0xfffa3942; 0x8771f681; 0x6d9d6122; 0xfde5380c; 0xa4beea44; 0x4bdecfa9; 0xf6bb4b60; 0xbebfbc70;
   0x289b7ec6; 0xeaa127fa; 0xd4ef3085; 0x04881d05; 0xd9d4d039; 0xe6db99e5; 0x1fa27cf8; 0xc4ac5665;
   0xf4292244; 0x432aff97; 0xab9423a7; 0xfc93a039; 0x655b59c3; 0x8f0ccc92; 0xffeff47d; 0x85845dd1;
   0x6fa87e4f; 0xfe2ce6e0; 0xa3014314; 0x4e0811a1; 0xf7537e82; 0xbd3af235; 0x2ad7d2bb; 0xeb86d391].

Definition shift_amount (i : Z) : Z :=
  let r := i / 16 in
  let j := i mod 4 in
  nth (Z.to_nat (4 * r + j))
      [7; 12; 17; 22; 5; 9; 14; 20; 4; 11; 16; 23; 6; 10; 15; 21] 0.

(** Round [i] on state (a, b, c, d) with message words [M]. *)
Definition round (M : list Z) (st : Z * Z * Z * Z) (i : Z) : Z * Z * Z * Z :=
  let '(a, b, c, d) := st in
  let '(f, g) :=
    if i <? 16 then (Z.lor (Z.land b c) (Z.land (not32 b) d), i)
    else if i <? 32 then (Z.lor (Z.land d b) (Z.land (not32 d) c), (5 * i + 1) mod 16)
    else if i <? 48 then (Z.lxor b (Z.lxor c d), (3 * i + 5) mod 16)
    else (Z.lxor c (Z.lor b (not32 d)), (7 * i) mod 16) in
  let f' := add32 (add32 (add32 f a) (nth (Z.to_nat i) K 0)) (nth (Z.to_nat g) M 0) in
  (d, add32 b (rotl32 f' (shift_amount i)), b, c).

Definition block (st : Z * Z * Z * Z) (blk : bytes) : Z * Z * Z * Z :=
  let M := map le_word (chunks 4 blk) in
  let '(a', b', c', d') :=
    fold_left (round M) (map Z.of_nat (seq 0 64)) st in
  let '(a, b, c, d) := st in
  (add32 a a', add32 b b', add32 c c', add32 d d').

Definition init : Z * Z * Z * Z := (0x67452301, 0xefcdab89, 0x98badcfe, 0x10325476).

Definition digest (m : bytes) : bytes :=
  let padded := pad (fun m => le_bytes 8 (8 * Z.of_nat (List.length m))) m in
  let '(a, b, c, d) := fold_left block (chunks 64 padded) init in
  le_bytes 4 a ++ le_bytes 4 b ++ le_bytes 4 c ++ le_bytes 4 d.

(** [hashlib.md5(s.encode()).hexdigest()] *)
Definition hexdigest (s : string) : string := hex (digest (of_string s)).

End MD5.


(* ================================================================= *)
(** ** SHA-256 and HMAC-SHA256 ([hmac.new(key, msg, hashlib.sha256)]) *)

Module SHA256.
Import Bytes.
Open Scope Z_scope.
Open Scope list_scope.

(** The round constants and the initial hash value, as FIPS 180-4 defines
    them: the first 32 fractional bits of the cube roots of the first 64
    primes, and of the square roots of the first 8 primes. *)
Definition is_prime (n : Z) : bool :=
  forallb (fun d => negb (Z.eqb (n mod d) 0)) (map Z.of_nat (seq 2 (Z.to_nat n - 2))).

Definition primes : list Z := firstn 64 (filter is_prime (map Z.of_nat (seq 2 310))).

(** Integer cube root by bisection, for [lo^3 <= n < hi^3]. *)
Fixpoint icbrt_search (fuel : nat) (lo hi n : Z) : Z :=
  match fuel with
  | O => lo
  | S f =>
      if hi - lo <=? 1 then lo
      else
        let mid := (lo + hi) / 2 in
        if mid * mid * mid <=? n then icbrt_search f mid hi n else icbrt_search f lo mid n
  end.

Definition frac32_cbrt (p : Z) : Z := Z.land (icbrt_search 64 0 (2 ^ 36) (p * 2 ^ 96)) (2 ^ 32 - 1).
Definition frac32_sqrt (p : Z) : Z := Z.land (Z.sqrt (p * 2 ^ 64)) (2 ^ 32 - 1).

Definition K : list Z := map frac32_cbrt primes.

Definition H0 : list Z := map frac32_sqrt (firstn 8 primes).

Definition ssig0 (x : Z) : Z := Z.lxor (rotr32 x 7) (Z.lxor (rotr32 x 18) (Z.shiftr x 3)).
Definition ssig1 (x : Z) : Z := Z.lxor (rotr32 x 17) (Z.lxor (rotr32 x 19) (Z.shiftr x 10)).
Definition bsig0 (x : Z) : Z := Z.lxor (rotr32 x 2) (Z.lxor (rotr32 x 13) (rotr32 x 22)).
Definition bsig1 (x : Z) : Z := Z.lxor (rotr32 x 6) (Z.lxor (rotr32 x 11) (rotr32 x 25)).
Definition ch (x y z : Z) : Z := Z.lxor (Z.land x y) (Z.land (not32 x) z).
Definition maj (x y z : Z) : Z := Z.lxor (Z.land x y) (Z.lxor (Z.land x z) (Z.land y z)).

(** Message schedule: extend the 16 words of a block to 64, oldest first. *)
Fixpoint schedule (fuel : nat) (w : list Z) : list Z :=
  match fuel with
  | O => w
  | S f =>
      let n := List.length w in
      let w16 := nth (n - 16) w 0 in
      let w15 := nth (n - 15) w 0 in
      let w7 := nth (n - 7) w 0 in
      let w2 := nth (n - 2) w 0 in
      schedule f (w ++ [add32 (add32 (ssig1 w2) w7) (add32 (ssig0 w15) w16)])
  end.

Definition round (W : list Z) (st : list Z) (i : nat) : list Z :=
  match st with
  | [a; b; c; d; e; f; g; h] =>
      let t1 := add32 (add32 (add32 h (bsig1 e)) (add32 (ch e f g) (nth i K 0))) (nth i W 0) in
      let t2 := add32 (bsig0 a) (maj a b c) in
      [add32 t1 t2; a; b; c; add32 d t1; e; f; g]
  | _ => st
  end.

Definition block (st : list Z) (blk : bytes) : list Z :=
  let W := schedule 48 (map be_word (chunks 4 blk)) in
  let st' := fold_left (round W) (seq 0 64) st in
  map (fun p => add32 (fst p) (snd p)) (combine st st').

Definition digest (m : bytes) : bytes :=
  let padded := pad (fun m => be_bytes 8 (8 * Z.of_nat (List.length m))) m in
  flat_map (be_bytes 4) (fold_left block (chunks 64 padded) H0).

(** HMAC with block size 64: keys longer than a block are hashed first,
    then zero padded; inner pad 0x36, outer pad 0x5c. *)
Definition hmac (key msg : bytes) : bytes :=
  let k := if (64 <? Z.of_nat (List.length key))%Z then digest key else key in
  let k0 := k ++ repeat 0 (64 - List.length k) in
  let ipad := map (Z.lxor 0x36) k0 in
  let opad := map (Z.lxor 0x5c) k0 in
  digest (opad ++ digest (ipad ++ msg)).

(** [hmac.new(key.encode(), msg=body, digestmod=hashlib.sha256).hexdigest()] *)
Definition hmac_hexdigest (key body : string) : string :=
  hex (hmac (of_string key) (of_string body)).

Definition hexdigest (s : string) : string := hex (digest (of_string s)).

End SHA256.

(* ================================================================= *)
(** ** Model selection ([src/src/asmf/llm/model_selector.py]) *)

Module ModelSelector.
Open Scope list_scope.

Inductive TaskType := CODE_REVIEW | CODE_GENERATION | DOCUMENT_ANALYSIS | GENERAL.

Definition TaskType_eqb (a b : TaskType) : bool :=
  match a, b with
  | CODE_REVIEW, CODE_REVIEW | CODE_GENERATION, CODE_GENERATION
  | DOCUMENT_ANALYSIS, DOCUMENT_ANALYSIS | GENERAL, GENERAL => true
  | _, _ => false
  end.

(** The [@dataclass ModelRecommendation]; [size_gb] is a float literal with
    one decimal, kept exactly as a rational. *)
Record ModelRecommendation := mkRec {
  name : string;
  size_gb : Q;
  quality : string;
  speed : string;
  description : string;
  task_optimized : bool
}.

(** Python dict lookup [d[k]]: [None] stands for the [KeyError]. *)
Fixpoint dict_get {K V} (eqb : K -> K -> bool) (d : list (K * V)) (k : K) : option V :=
  match d with
  | [] => None
  | (k', v) :: r => if eqb k k' then Some v else dict_get eqb r k
  end.

Definition RECOMMENDATIONS : list (string * list (TaskType * list ModelRecommendation)) := [
  ("high", [
    (CODE_REVIEW, [
      mkRec "qwen2.5-coder:32b" (21 # 1) "Excellent" "2-5 tok/s"
            "Best for thorough code review with deep analysis" true;
      mkRec "qwen2.5-coder:14b" (9 # 1) "Very Good" "5-10 tok/s"
            "Fast alternative for code review" true]);
    (CODE_GENERATION, [
      mkRec "qwen2.5-coder:32b" (21 # 1) "Excellent" "2-5 tok/s"
            "Best code generation with strong reasoning" true;
      mkRec "qwen2.5-coder:14b" (9 # 1) "Very Good" "5-10 tok/s"
            "Balanced code generation" true]);
    (DOCUMENT_ANALYSIS, [
      mkRec "qwen2.5:32b-q4" (20 # 1) "Excellent" "2-5 tok/s"
            "Best for complex document understanding" false;
      mkRec "qwen2.5:14b-q4" (9 # 1) "Very Good" "5-10 tok/s"
            "Good document analysis with faster inference" false]);
    (GENERAL, [
      mkRec "qwen2.5:32b-q4" (20 # 1) "Excellent" "2-5 tok/s"
            "Best general-purpose model" false;
      mkRec "qwen2.5:14b-q4" (9 # 1) "Very Good" "5-10 tok/s"
            "Fast general-purpose alternative" false])]);
  ("mid", [
    (CODE_REVIEW, [
      mkRec "qwen2.5-coder:14b" (9 # 1) "Very Good" "5-10 tok/s"
            "Best code review for mid-range GPUs" true;
      mkRec "qwen2.5-coder:7b" (9 # 2) "Good" "10-15 tok/s"
            "Faster code review" true]);
    (CODE_GENERATION, [
      mkRec "qwen2.5-coder:14b" (9 # 1) "Very Good" "5-10 tok/s"
            "Good code generation" true;
      mkRec "qwen2.5-coder:7b" (9 # 2) "Good" "10-15 tok/s"
            "Faster code generation" true]);
    (DOCUMENT_ANALYSIS, [
      mkRec "qwen2.5:14b-q4" (9 # 1) "Very Good" "5-10 tok/s"
            "Good document understanding" false;
      mkRec "llama3.2:3b" (2 # 1) "Good" "10-20 tok/s"
            "Fast basic analysis" false]);
    (GENERAL, [
      mkRec "qwen2.5:14b-q4" (9 # 1) "Very Good" "5-10 tok/s"
            "Best balance for general use" false;
      mkRec "mistral:7b-q4" (4 # 1) "Good" "8-15 tok/s"
            "Fast general-purpose" false])]);
  ("low", [
    (CODE_REVIEW, [
      mkRec "qwen2.5-coder:7b" (9 # 2) "Good" "5-10 tok/s (GPU), 1-2 tok/s (CPU)"
            "Best code review for limited hardware" true;
      mkRec "llama3.2:3b" (2 # 1) "Fair" "10-20 tok/s (GPU), 2-5 tok/s (CPU)"
            "Basic code review" false]);
    (CODE_GENERATION, [
      mkRec "qwen2.5-coder:7b" (9 # 2) "Good" "5-10 tok/s (GPU), 1-2 tok/s (CPU)"
            "Decent code generation" true;
      mkRec "llama3.2:3b" (2 # 1) "Fair" "10-20 tok/s (GPU), 2-5 tok/s (CPU)"
            "Basic code generation" false]);
    (DOCUMENT_ANALYSIS, [
      mkRec "llama3.2:3b" (2 # 1) "Good" "10-20 tok/s (GPU), 2-5 tok/s (CPU)"
            "Best for limited hardware" false;
      mkRec "qwen2.5:7b-q4" (4 # 1) "Good" "5-10 tok/s (GPU), 1-3 tok/s (CPU)"
            "Better quality, slower" false]);
    (GENERAL, [
      mkRec "llama3.2:3b" (2 # 1) "Good" "10-20 tok/s (GPU), 2-5 tok/s (CPU)"
            "Best for limited hardware" false;
      mkRec "phi3:mini" (2 # 1) "Good" "10-15 tok/s"
            "Efficient Microsoft model" false])])].


(** [_get_vram_tier] on the selector's [vram_gb]. *)
Definition get_vram_tier (vram_gb : Q) : string :=
  if Qle_bool 12 vram_gb then "high"
  else if Qle_bool 8 vram_gb then "mid"
  else "low".

(** [get_recommendations]: [RECOMMENDATIONS[tier][task_type]]. *)
Definition get_recommendations (vram_gb : Q) (task_type : TaskType)
  : option (list ModelRecommendation) :=
  match dict_get String.eqb RECOMMENDATIONS (get_vram_tier vram_gb) with
  | Some by_task => dict_get TaskType_eqb by_task task_type
  | None => None
  end.

(** [recommendations[0].name]; [None] is the [IndexError] on an empty list. *)
Definition first_name (recs : list ModelRecommendation) : option string :=
  match recs with
  | r :: _ => Some (name r)
  | [] => None
  end.

(** [select_model].  [available_models] is the result of
    [_list_available_models()] (the daemon's [/api/tags] listing, or [[]]
    when the request fails); it is only consulted when [check_availability]. *)
Definition select_model (vram_gb : Q) (task_type : TaskType) (check_availability : bool)
    (available_models : list string) : option string :=
  match get_recommendations vram_gb task_type with
  | None => None
  | Some recommendations =>
      if negb check_availability then first_name recommendations
      else
        match find (fun rec => existsb (String.eqb (name rec)) available_models)
                   recommendations with
        | Some rec => Some (name rec)
        | None => first_name recommendations
        end
  end.

End ModelSelector.

(* ================================================================= *)
(** ** Python string helpers *)

Module Py.
Open Scope list_scope.

(** [sub in s] for two [str]. *)
Fixpoint contains_b (s sub : string) : bool :=
  String.prefix sub s ||
  match s with
  | EmptyString => false
  | String _ r => contains_b r sub
  end.

(** The same relation, stated as a decomposition of [s]. *)
Definition contains (s sub : string) : Prop :=
  exists pre post, s = (pre ++ sub ++ post)%string.

(** [sep.join(parts)] *)
Definition join (sep : string) (parts : list string) : string :=
  String.concat sep parts.

(** [str(n)] for an [int]. *)
Definition str_of_Z (z : Z) : string :=
  NilEmpty.string_of_int (Z.to_int z).

End Py.

(* ================================================================= *)
(** ** Provider fallback ([src/src/asmf/providers/provider_factory.py]) *)

Module ProviderFactory.
Open Scope list_scope.

Inductive provider_class := GeminiProvider | OllamaProvider.

Definition provider_name (c : provider_class) : string :=
  match c with
  | GeminiProvider => "GeminiProvider"
  | OllamaProvider => "OllamaProvider"
  end.

(** What happens when the factory calls [provider_cls()] and then
    [provider.is_available()]: the constructor raises, [is_available] raises,
    or [is_available] returns a boolean.  The exception message is [str(e)]. *)
Inductive behaviour :=
  | CtorRaises (e : string)
  | IsAvailableRaises (e : string)
  | IsAvailable (b : bool).

Inductive result :=
  | Provider (c : provider_class)      (** the instance returned *)
  | RuntimeError (msg : string).      (** [raise RuntimeError(msg)] *)

Definition provider_classes (prefer_local : bool) : list provider_class :=
  if prefer_local then [OllamaProvider; GeminiProvider]
  else [GeminiProvider; OllamaProvider].

(** [errors[k] = v] on a [dict] kept as an insertion-ordered list. *)
Fixpoint dict_set (d : list (string * string)) (k v : string) : list (string * string) :=
  match d with
  | [] => [(k, v)]
  | (k', v') :: r => if String.eqb k k' then (k, v) :: r else (k', v') :: dict_set r k v
  end.

Fixpoint dict_get (d : list (string * string)) (k : string) : option string :=
  match d with
  | [] => None
  | (k', v) :: r => if String.eqb k k' then Some v else dict_get r k
  end.

Definition error_message (tried : list string) (errors : list (string * string)) : string :=
  let head := ["No AI providers available. Tried: " ++ Py.join ", " tried; ""; "Setup Instructions:"]%string in
  let ollama :=
    match dict_get errors "OllamaProvider" with
    | Some e =>
        [""; "For Ollama (local, free, private):";
         "  1. Install: https://ollama.ai/download";
         "  2. Pull model: ollama pull qwen2.5:14b-q4";
         "  3. Or run: python scripts/setup_ollama.py";
         "  Error: " ++ e]%string
    | None => []
    end in
  let gemini :=
    match dict_get errors "GeminiProvider" with
    | Some e =>
        [""; "For Gemini (cloud, requires API key):";
         "  1. Get API key: https://makersuite.google.com/app/apikey";
         "  2. Set: export GEMINI_API_KEY=your-key";
         "  3. Or add to .env: GEMINI_API_KEY=your-key";
         "  Error: " ++ e]%string
    | None => []
    end in
  Py.join (String (ascii_of_nat 10) EmptyString)
    (head ++ ollama ++ gemini ++ [""; "See docs/OLLAMA_SETUP.md for detailed setup guide."]).

Section Factory.
(** How each provider class behaves in the current environment. *)
Variable beh : provider_class -> behaviour.

(** The [for provider_cls in provider_classes] loop, with the lists
    [tried_providers] and [errors] threaded through. *)
Fixpoint try_providers (cands : list provider_class) (tried : list string)
    (errors : list (string * string)) : result :=
  match cands with
  | [] => RuntimeError (error_message tried errors)
  | cls :: rest =>
      let pname := provider_name cls in
      let tried' := tried ++ [pname] in
      match beh cls with
      | IsAvailable true => Provider cls
      | IsAvailable false =>
          try_providers rest tried'
            (dict_set errors pname (pname ++ " instantiated but not available")%string)
      | CtorRaises e | IsAvailableRaises e =>
          try_providers rest tried' (dict_set errors pname e)
      end
  end.

Definition create_provider (prefer_local : bool) : result :=
  try_providers (provider_classes prefer_local) [] [].

End Factory.

(** The failure reason recorded in [errors] for a class that was not selected. *)
Definition failure_reason (c : provider_class) (b : behaviour) : option string :=
  match b with
  | IsAvailable true => None
  | IsAvailable false => Some (provider_name c ++ " instantiated but not available")%string
  | CtorRaises e | IsAvailableRaises e => Some e
  end.

End ProviderFactory.

(* ================================================================= *)
(** ** Result deduplication ([src/src/aggregator/aggregator.py]) *)

Module Aggregator.
Open Scope list_scope.

(** A normalized result dict; a missing key reads as [""] through
    [item.get(key, "")], which is all [_deduplicate] does with it. *)
Record item := mkItem {
  id : string;
  title : string;
  description : string;
  link : string;
  source : string
}.

(** [x in s] for a [set] of [str] kept as a list. *)
Definition set_mem (x : string) (s : list string) : bool := existsb (String.eqb x) s.

(** [_hash_content]: [md5(f"{title}|{description}".encode()).hexdigest()]. *)
Definition hash_content (it : item) : string :=
  MD5.hexdigest (title it ++ "|" ++ description it)%string.

(** The loop of [_deduplicate], with [seen_urls] and [seen_hashes]. *)
Fixpoint dedup_loop (items : list item) (seen_urls seen_hashes : list string) : list item :=
  match items with
  | [] => []
  | it :: rest =>
      let url := link it in
      if negb (String.eqb url "") && set_mem url seen_urls then
        dedup_loop rest seen_urls seen_hashes
      else
        let content_hash := hash_content it in
        if set_mem content_hash seen_hashes then
          dedup_loop rest seen_urls seen_hashes
        else
          it :: dedup_loop rest (url :: seen_urls) (content_hash :: seen_hashes)
  end.

Definition deduplicate (items : list item) : list item := dedup_loop items [] [].

(** Whether [_deduplicate] drops [it] once the items in [kept] survived. *)
Definition is_duplicate (kept : list item) (it : item) : bool :=
  (negb (String.eqb (link it) "") && set_mem (link it) (map link kept))
  || set_mem (hash_content it) (map hash_content kept).

End Aggregator.

(* ================================================================= *)
(** ** Unicode character data of CPython 3.11 (Unicode 14.0.0) *)

(** A Python [str] is a sequence of code points.  The tables below are the
    parts of CPython's character database that [str.lower], [str.title],
    [str.isdecimal] / [re]'s [\d] and [str.isspace] / [re]'s [\s] read:
    the full lower-case and title-case mappings, the [Cased] and
    [Case_Ignorable] properties (for the final-sigma rule) and the decimal
    digits (category Nd, in runs of ten from digit zero). *)
Module Unicode.
Open Scope Z_scope.
Open Scope list_scope.

(** Runs [(lo, hi, step, delta)]: a code point [c] with [lo <= c <= hi] and
    [step] dividing [c - lo] maps to [c + delta]. *)
Definition lower_runs : list (Z * Z * Z * Z) := [
  (0x41, 0x5A, 1, 32); (0xC0, 0xD6, 1, 32); (0xD8, 0xDE, 1, 32); (0x100, 0x12E, 2, 1);
  (0x132, 0x136, 2, 1); (0x139, 0x147, 2, 1); (0x14A, 0x176, 2, 1); (0x178, 0x178, 1, -121);
  (0x179, 0x17D, 2, 1); (0x181, 0x181, 1, 210); (0x182, 0x184, 2, 1); (0x186, 0x186, 1, 206);
  (0x187, 0x187, 1, 1); (0x189, 0x18A, 1, 205); (0x18B, 0x18B, 1, 1); (0x18E, 0x18E, 1, 79);
  (0x18F, 0x18F, 1, 202); (0x190, 0x190, 1, 203); (0x191, 0x191, 1, 1); (0x193, 0x193, 1, 205);
  (0x194, 0x194, 1, 207); (0x196, 0x196, 1, 211); (0x197, 0x197, 1, 209); (0x198, 0x198, 1, 1);
  (0x19C, 0x19C, 1, 211); (0x19D, 0x19D, 1, 213); (0x19F, 0x19F, 1, 214); (0x1A0, 0x1A4, 2, 1);
  (0x1A6, 0x1A6, 1, 218); (0x1A7, 0x1A7, 1, 1); (0x1A9, 0x1A9, 1, 218); (0x1AC, 0x1AC, 1, 1);
  (0x1AE, 0x1AE, 1, 218); (0x1AF, 0x1AF, 1, 1); (0x1B1, 0x1B2, 1, 217); (0x1B3, 0x1B5, 2, 1);
  (0x1B7, 0x1B7, 1, 219); (0x1B8, 0x1B8, 1, 1); (0x1BC, 0x1BC, 1, 1); (0x1C4, 0x1C4, 1, 2);
  (0x1C5, 0x1C5, 1, 1); (0x1C7, 0x1C7, 1, 2); (0x1C8, 0x1C8, 1, 1); (0x1CA, 0x1CA, 1, 2);
  (0x1CB, 0x1DB, 2, 1); (0x1DE, 0x1EE, 2, 1); (0x1F1, 0x1F1, 1, 2); (0x1F2, 0x1F4, 2, 1);
  (0x1F6, 0x1F6, 1, -97); (0x1F7, 0x1F7, 1, -56); (0x1F8, 0x21E, 2, 1); (0x220, 0x220, 1, -130);
  (0x222, 0x232, 2, 1); (0x23A, 0x23A, 1, 10795); (0x23B, 0x23B, 1, 1); (0x23D, 0x23D, 1, -163);
  (0x23E, 0x23E, 1, 10792); (0x241, 0x241, 1, 1); (0x243, 0x243, 1, -195); (0x244, 0x244, 1, 69);
  (0x245, 0x245, 1, 71); (0x246, 0x24E, 2, 1); (0x370, 0x372, 2, 1); (0x376, 0x376, 1, 1);
  (0x37F, 0x37F, 1, 116); (0x386, 0x386, 1, 38); (0x388, 0x38A, 1, 37); (0x38C, 0x38C, 1, 64);
  (0x38E, 0x38F, 1, 63); (0x391, 0x3A1, 1, 32); (0x3A3, 0x3AB, 1, 32); (0x3CF, 0x3CF, 1, 8);
  (0x3D8, 0x3EE, 2, 1); (0x3F4, 0x3F4, 1, -60); (0x3F7, 0x3F7, 1, 1); (0x3F9, 0x3F9, 1, -7);
  (0x3FA, 0x3FA, 1, 1); (0x3FD, 0x3FF, 1, -130); (0x400, 0x40F, 1, 80); (0x410, 0x42F, 1, 32);
  (0x460, 0x480, 2, 1); (0x48A, 0x4BE, 2, 1); (0x4C0, 0x4C0, 1, 15); (0x4C1, 0x4CD, 2, 1);
  (0x4D0, 0x52E, 2, 1); (0x531, 0x556, 1, 48); (0x10A0, 0x10C5, 1, 7264); (0x10C7, 0x10C7, 1, 7264);
  (0x10CD, 0x10CD, 1, 7264); (0x13A0, 0x13EF, 1, 38864); (0x13F0, 0x13F5, 1, 8); (0x1C90, 0x1CBA, 1, -3008);
  (0x1CBD, 0x1CBF, 1, -3008); (0x1E00, 0x1E94, 2, 1); (0x1E9E, 0x1E9E, 1, -7615); (0x1EA0, 0x1EFE, 2, 1);
  (0x1F08, 0x1F0F, 1, -8); (0x1F18, 0x1F1D, 1, -8); (0x1F28, 0x1F2F, 1, -8); (0x1F38, 0x1F3F, 1, -8);
  (0x1F48, 0x1F4D, 1, -8); (0x1F59, 0x1F5F, 2, -8); (0x1F68, 0x1F6F, 1, -8); (0x1F88, 0x1F8F, 1, -8);
  (0x1F98, 0x1F9F, 1, -8); (0x1FA8, 0x1FAF, 1, -8); (0x1FB8, 0x1FB9, 1, -8); (0x1FBA, 0x1FBB, 1, -74);
  (0x1FBC, 0x1FBC, 1, -9); (0x1FC8, 0x1FCB, 1, -86); (0x1FCC, 0x1FCC, 1, -9); (0x1FD8, 0x1FD9, 1, -8);
  (0x1FDA, 0x1FDB, 1, -100); (0x1FE8, 0x1FE9, 1, -8); (0x1FEA, 0x1FEB, 1, -112); (0x1FEC, 0x1FEC, 1, -7);
  (0x1FF8, 0x1FF9, 1, -128); (0x1FFA, 0x1FFB, 1, -126); (0x1FFC, 0x1FFC, 1, -9); (0x2126, 0x2126, 1, -7517);
  (0x212A, 0x212A, 1, -8383); (0x212B, 0x212B, 1, -8262); (0x2132, 0x2132, 1, 28); (0x2160, 0x216F, 1, 16);
  (0x2183, 0x2183, 1, 1); (0x24B6, 0x24CF, 1, 26); (0x2C00, 0x2C2F, 1, 48); (0x2C60, 0x2C60, 1, 1);
  (0x2C62, 0x2C62, 1, -10743); (0x2C63, 0x2C63, 1, -3814); (0x2C64, 0x2C64, 1, -10727); (0x2C67, 0x2C6B, 2, 1);
  (0x2C6D, 0x2C6D, 1, -10780); (0x2C6E, 0x2C6E, 1, -10749); (0x2C6F, 0x2C6F, 1, -10783); (0x2C70, 0x2C70, 1, -10782);
  (0x2C72, 0x2C72, 1, 1); (0x2C75, 0x2C75, 1, 1); (0x2C7E, 0x2C7F, 1, -10815); (0x2C80, 0x2CE2, 2, 1);
  (0x2CEB, 0x2CED, 2, 1); (0x2CF2, 0x2CF2, 1, 1); (0xA640, 0xA66C, 2, 1); (0xA680, 0xA69A, 2, 1);
  (0xA722, 0xA72E, 2, 1); (0xA732, 0xA76E, 2, 1); (0xA779, 0xA77B, 2, 1); (0xA77D, 0xA77D, 1, -35332);
  (0xA77E, 0xA786, 2, 1); (0xA78B, 0xA78B, 1, 1); (0xA78D, 0xA78D, 1, -42280); (0xA790, 0xA792, 2, 1);
  (0xA796, 0xA7A8, 2, 1); (0xA7AA, 0xA7AA, 1, -42308); (0xA7AB, 0xA7AB, 1, -42319); (0xA7AC, 0xA7AC, 1, -42315);
  (0xA7AD, 0xA7AD, 1, -42305); (0xA7AE, 0xA7AE, 1, -42308); (0xA7B0, 0xA7B0, 1, -42258); (0xA7B1, 0xA7B1, 1, -42282);
  (0xA7B2, 0xA7B2, 1, -42261); (0xA7B3, 0xA7B3, 1, 928); (0xA7B4, 0xA7C2, 2, 1); (0xA7C4, 0xA7C4, 1, -48);
  (0xA7C5, 0xA7C5, 1, -42307); (0xA7C6, 0xA7C6, 1, -35384); (0xA7C7, 0xA7C9, 2, 1); (0xA7D0, 0xA7D0, 1, 1);
  (0xA7D6, 0xA7D8, 2, 1); (0xA7F5, 0xA7F5, 1, 1); (0xFF21, 0xFF3A, 1, 32); (0x10400, 0x10427, 1, 40);
  (0x104B0, 0x104D3, 1, 40); (0x10570, 0x1057A, 1, 39); (0x1057C, 0x1058A, 1, 39); (0x1058C, 0x10592, 1, 39);
  (0x10594, 0x10595, 1, 39); (0x10C80, 0x10CB2, 1, 64); (0x118A0, 0x118BF, 1, 32); (0x16E40, 0x16E5F, 1, 32);
  (0x1E900, 0x1E921, 1, 34)
].

Definition lower_special : list (Z * list Z) := [
  (0x130, [0x69; 0x307])
].

Definition title_runs : list (Z * Z * Z * Z) := [
  (0x61, 0x7A, 1, -32); (0xB5, 0xB5, 1, 743); (0xE0, 0xF6, 1, -32); (0xF8, 0xFE, 1, -32);
  (0xFF, 0xFF, 1, 121); (0x101, 0x12F, 2, -1); (0x131, 0x131, 1, -232); (0x133, 0x137, 2, -1);
  (0x13A, 0x148, 2, -1); (0x14B, 0x177, 2, -1); (0x17A, 0x17E, 2, -1); (0x17F, 0x17F, 1, -300);
  (0x180, 0x180, 1, 195); (0x183, 0x185, 2, -1); (0x188, 0x188, 1, -1); (0x18C, 0x18C, 1, -1);
  (0x192, 0x192, 1, -1); (0x195, 0x195, 1, 97); (0x199, 0x199, 1, -1); (0x19A, 0x19A, 1, 163);
  (0x19E, 0x19E, 1, 130); (0x1A1, 0x1A5, 2, -1); (0x1A8, 0x1A8, 1, -1); (0x1AD, 0x1AD, 1, -1);
  (0x1B0, 0x1B0, 1, -1); (0x1B4, 0x1B6, 2, -1); (0x1B9, 0x1B9, 1, -1); (0x1BD, 0x1BD, 1, -1);
  (0x1BF, 0x1BF, 1, 56); (0x1C4, 0x1C4, 1, 1); (0x1C6, 0x1C6, 1, -1); (0x1C7, 0x1C7, 1, 1);
  (0x1C9, 0x1C9, 1, -1); (0x1CA, 0x1CA, 1, 1); (0x1CC, 0x1DC, 2, -1); (0x1DD, 0x1DD, 1, -79);
  (0x1DF, 0x1EF, 2, -1); (0x1F1, 0x1F1, 1, 1); (0x1F3, 0x1F5, 2, -1); (0x1F9, 0x21F, 2, -1);
  (0x223, 0x233, 2, -1); (0x23C, 0x23C, 1, -1); (0x23F, 0x240, 1, 10815); (0x242, 0x242, 1, -1);
  (0x247, 0x24F, 2, -1); (0x250, 0x250, 1, 10783); (0x251, 0x251, 1, 10780); (0x252, 0x252, 1, 10782);
  (0x253, 0x253, 1, -210); (0x254, 0x254, 1, -206); (0x256, 0x257, 1, -205); (0x259, 0x259, 1, -202);
  (0x25B, 0x25B, 1, -203); (0x25C, 0x25C, 1, 42319); (0x260, 0x260, 1, -205); (0x261, 0x261, 1, 42315);
  (0x263, 0x263, 1, -207); (0x265, 0x265, 1, 42280); (0x266, 0x266, 1, 42308); (0x268, 0x268, 1, -209);
  (0x269, 0x269, 1, -211); (0x26A, 0x26A, 1, 42308); (0x26B, 0x26B, 1, 10743); (0x26C, 0x26C, 1, 42305);
  (0x26F, 0x26F, 1, -211); (0x271, 0x271, 1, 10749); (0x272, 0x272, 1, -213); (0x275, 0x275, 1, -214);
  (0x27D, 0x27D, 1, 10727); (0x280, 0x280, 1, -218); (0x282, 0x282, 1, 42307); (0x283, 0x283, 1, -218);
  (0x287, 0x287, 1, 42282); (0x288, 0x288, 1, -218); (0x289, 0x289, 1, -69); (0x28A, 0x28B, 1, -217);
  (0x28C, 0x28C, 1, -71); (0x292, 0x292, 1, -219); (0x29D, 0x29D, 1, 42261); (0x29E, 0x29E, 1, 42258);
  (0x345, 0x345, 1, 84); (0x371, 0x373, 2, -1); (0x377, 0x377, 1, -1); (0x37B, 0x37D, 1, 130);
  (0x3AC, 0x3AC, 1, -38); (0x3AD, 0x3AF, 1, -37); (0x3B1, 0x3C1, 1, -32); (0x3C2, 0x3C2, 1, -31);
  (0x3C3, 0x3CB, 1, -32); (0x3CC, 0x3CC, 1, -64); (0x3CD, 0x3CE, 1, -63); (0x3D0, 0x3D0, 1, -62);
  (0x3D1, 0x3D1, 1, -57); (0x3D5, 0x3D5, 1, -47); (0x3D6, 0x3D6, 1, -54); (0x3D7, 0x3D7, 1, -8);
  (0x3D9, 0x3EF, 2, -1); (0x3F0, 0x3F0, 1, -86); (0x3F1, 0x3F1, 1, -80); (0x3F2, 0x3F2, 1, 7);
  (0x3F3, 0x3F3, 1, -116); (0x3F5, 0x3F5, 1, -96); (0x3F8, 0x3F8, 1, -1); (0x3FB, 0x3FB, 1, -1);
  (0x430, 0x44F, 1, -32); (0x450, 0x45F, 1, -80); (0x461, 0x481, 2, -1); (0x48B, 0x4BF, 2, -1);
  (0x4C2, 0x4CE, 2, -1); (0x4CF, 0x4CF, 1, -15); (0x4D1, 0x52F, 2, -1); (0x561, 0x586, 1, -48);
  (0x13F8, 0x13FD, 1, -8); (0x1C80, 0x1C80, 1, -6254); (0x1C81, 0x1C81, 1, -6253); (0x1C82, 0x1C82, 1, -6244);
  (0x1C83, 0x1C84, 1, -6242); (0x1C85, 0x1C85, 1, -6243); (0x1C86, 0x1C86, 1, -6236); (0x1C87, 0x1C87, 1, -6181);
  (0x1C88, 0x1C88, 1, 35266); (0x1D79, 0x1D79, 1, 35332); (0x1D7D, 0x1D7D, 1, 3814); (0x1D8E, 0x1D8E, 1, 35384);
  (0x1E01, 0x1E95, 2, -1); (0x1E9B, 0x1E9B, 1, -59); (0x1EA1, 0x1EFF, 2, -1); (0x1F00, 0x1F07, 1, 8);
  (0x1F10, 0x1F15, 1, 8); (0x1F20, 0x1F27, 1, 8); (0x1F30, 0x1F37, 1, 8); (0x1F40, 0x1F45, 1, 8);
  (0x1F51, 0x1F57, 2, 8); (0x1F60, 0x1F67, 1, 8); (0x1F70, 0x1F71, 1, 74); (0x1F72, 0x1F75, 1, 86);
  (0x1F76, 0x1F77, 1, 100); (0x1F78, 0x1F79, 1, 128); (0x1F7A, 0x1F7B, 1, 112); (0x1F7C, 0x1F7D, 1, 126);
  (0x1F80, 0x1F87, 1, 8); (0x1F90, 0x1F97, 1, 8); (0x1FA0, 0x1FA7, 1, 8); (0x1FB0, 0x1FB1, 1, 8);
  (0x1FB3, 0x1FB3, 1, 9); (0x1FBE, 0x1FBE, 1, -7205); (0x1FC3, 0x1FC3, 1, 9); (0x1FD0, 0x1FD1, 1, 8);
  (0x1FE0, 0x1FE1, 1, 8); (0x1FE5, 0x1FE5, 1, 7); (0x1FF3, 0x1FF3, 1, 9); (0x214E, 0x214E, 1, -28);
  (0x2170, 0x217F, 1, -16); (0x2184, 0x2184, 1, -1); (0x24D0, 0x24E9, 1, -26); (0x2C30, 0x2C5F, 1, -48);
  (0x2C61, 0x2C61, 1, -1); (0x2C65, 0x2C65, 1, -10795); (0x2C66, 0x2C66, 1, -10792); (0x2C68, 0x2C6C, 2, -1);
  (0x2C73, 0x2C73, 1, -1); (0x2C76, 0x2C76, 1, -1); (0x2C81, 0x2CE3, 2, -1); (0x2CEC, 0x2CEE, 2, -1);
  (0x2CF3, 0x2CF3, 1, -1); (0x2D00, 0x2D25, 1, -7264); (0x2D27, 0x2D27, 1, -7264); (0x2D2D, 0x2D2D, 1, -7264);
  (0xA641, 0xA66D, 2, -1); (0xA681, 0xA69B, 2, -1); (0xA723, 0xA72F, 2, -1); (0xA733, 0xA76F, 2, -1);
  (0xA77A, 0xA77C, 2, -1); (0xA77F, 0xA787, 2, -1); (0xA78C, 0xA78C, 1, -1); (0xA791, 0xA793, 2, -1);
  (0xA794, 0xA794, 1, 48); (0xA797, 0xA7A9, 2, -1); (0xA7B5, 0xA7C3, 2, -1); (0xA7C8, 0xA7CA, 2, -1);
  (0xA7D1, 0xA7D1, 1, -1); (0xA7D7, 0xA7D9, 2, -1); (0xA7F6, 0xA7F6, 1, -1); (0xAB53, 0xAB53, 1, -928);
  (0xAB70, 0xABBF, 1, -38864); (0xFF41, 0xFF5A, 1, -32); (0x10428, 0x1044F, 1, -40); (0x104D8, 0x104FB, 1, -40);
  (0x10597, 0x105A1, 1, -39); (0x105A3, 0x105B1, 1, -39); (0x105B3, 0x105B9, 1, -39); (0x105BB, 0x105BC, 1, -39);
  (0x10CC0, 0x10CF2, 1, -64); (0x118C0, 0x118DF, 1, -32); (0x16E60, 0x16E7F, 1, -32); (0x1E922, 0x1E943, 1, -34)
].

Definition title_special : list (Z * list Z) := [
  (0xDF, [0x53; 0x73]); (0x149, [0x2BC; 0x4E]); (0x1F0, [0x4A; 0x30C]);
  (0x390, [0x399; 0x308; 0x301]); (0x3B0, [0x3A5; 0x308; 0x301]); (0x587, [0x535; 0x582]);
  (0x1E96, [0x48; 0x331]); (0x1E97, [0x54; 0x308]); (0x1E98, [0x57; 0x30A]);
  (0x1E99, [0x59; 0x30A]); (0x1E9A, [0x41; 0x2BE]); (0x1F50, [0x3A5; 0x313]);
  (0x1F52, [0x3A5; 0x313; 0x300]); (0x1F54, [0x3A5; 0x313; 0x301]); (0x1F56, [0x3A5; 0x313; 0x342]);
  (0x1FB2, [0x1FBA; 0x345]); (0x1FB4, [0x386; 0x345]); (0x1FB6, [0x391; 0x342]);
  (0x1FB7, [0x391; 0x342; 0x345]); (0x1FC2, [0x1FCA; 0x345]); (0x1FC4, [0x389; 0x345]);
  (0x1FC6, [0x397; 0x342]); (0x1FC7, [0x397; 0x342; 0x345]); (0x1FD2, [0x399; 0x308; 0x300]);
  (0x1FD3, [0x399; 0x308; 0x301]); (0x1FD6, [0x399; 0x342]); (0x1FD7, [0x399; 0x308; 0x342]);
  (0x1FE2, [0x3A5; 0x308; 0x300]); (0x1FE3, [0x3A5; 0x308; 0x301]); (0x1FE4, [0x3A1; 0x313]);
  (0x1FE6, [0x3A5; 0x342]); (0x1FE7, [0x3A5; 0x308; 0x342]); (0x1FF2, [0x1FFA; 0x345]);
  (0x1FF4, [0x38F; 0x345]); (0x1FF6, [0x3A9; 0x342]); (0x1FF7, [0x3A9; 0x342; 0x345]);
  (0xFB00, [0x46; 0x66]); (0xFB01, [0x46; 0x69]); (0xFB02, [0x46; 0x6C]);
  (0xFB03, [0x46; 0x66; 0x69]); (0xFB04, [0x46; 0x66; 0x6C]); (0xFB05, [0x53; 0x74]);
  (0xFB06, [0x53; 0x74]); (0xFB13, [0x544; 0x576]); (0xFB14, [0x544; 0x565]);
  (0xFB15, [0x544; 0x56B]); (0xFB16, [0x54E; 0x576]); (0xFB17, [0x544; 0x56D])
].

Definition cased_ranges : list (Z * Z) := [
  (0x41, 0x5A); (0x61, 0x7A); (0xAA, 0xAA); (0xB5, 0xB5); (0xBA, 0xBA); (0xC0, 0xD6);
  (0xD8, 0xF6); (0xF8, 0x1BA); (0x1BC, 0x1BF); (0x1C4, 0x293); (0x295, 0x2B8); (0x2C0, 0x2C1);
  (0x2E0, 0x2E4); (0x345, 0x345); (0x370, 0x373); (0x376, 0x377); (0x37A, 0x37D); (0x37F, 0x37F);
  (0x386, 0x386); (0x388, 0x38A); (0x38C, 0x38C); (0x38E, 0x3A1); (0x3A3, 0x3F5); (0x3F7, 0x481);
  (0x48A, 0x52F); (0x531, 0x556); (0x560, 0x588); (0x10A0, 0x10C5); (0x10C7, 0x10C7); (0x10CD, 0x10CD);
  (0x10D0, 0x10FA); (0x10FD, 0x10FF); (0x13A0, 0x13F5); (0x13F8, 0x13FD); (0x1C80, 0x1C88); (0x1C90, 0x1CBA);
  (0x1CBD, 0x1CBF); (0x1D00, 0x1DBF); (0x1E00, 0x1F15); (0x1F18, 0x1F1D); (0x1F20, 0x1F45); (0x1F48, 0x1F4D);
  (0x1F50, 0x1F57); (0x1F59, 0x1F59); (0x1F5B, 0x1F5B); (0x1F5D, 0x1F5D); (0x1F5F, 0x1F7D); (0x1F80, 0x1FB4);
  (0x1FB6, 0x1FBC); (0x1FBE, 0x1FBE); (0x1FC2, 0x1FC4); (0x1FC6, 0x1FCC); (0x1FD0, 0x1FD3); (0x1FD6, 0x1FDB);
  (0x1FE0, 0x1FEC); (0x1FF2, 0x1FF4); (0x1FF6, 0x1FFC); (0x2071, 0x2071); (0x207F, 0x207F); (0x2090, 0x209C);
  (0x2102, 0x2102); (0x2107, 0x2107); (0x210A, 0x2113); (0x2115, 0x2115); (0x2119, 0x211D); (0x2124, 0x2124);
  (0x2126, 0x2126); (0x2128, 0x2128); (0x212A, 0x212D); (0x212F, 0x2134); (0x2139, 0x2139); (0x213C, 0x213F);
  (0x2145, 0x2149); (0x214E, 0x214E); (0x2160, 0x217F); (0x2183, 0x2184); (0x24B6, 0x24E9); (0x2C00, 0x2CE4);
  (0x2CEB, 0x2CEE); (0x2CF2, 0x2CF3); (0x2D00, 0x2D25); (0x2D27, 0x2D27); (0x2D2D, 0x2D2D); (0xA640, 0xA66D);
  (0xA680, 0xA69D); (0xA722, 0xA787); (0xA78B, 0xA78E); (0xA790, 0xA7CA); (0xA7D0, 0xA7D1); (0xA7D3, 0xA7D3);
  (0xA7D5, 0xA7D9); (0xA7F5, 0xA7F6); (0xA7F8, 0xA7FA); (0xAB30, 0xAB5A); (0xAB5C, 0xAB68); (0xAB70, 0xABBF);
  (0xFB00, 0xFB06); (0xFB13, 0xFB17); (0xFF21, 0xFF3A); (0xFF41, 0xFF5A); (0x10400, 0x1044F); (0x104B0, 0x104D3);
  (0x104D8, 0x104FB); (0x10570, 0x1057A); (0x1057C, 0x1058A); (0x1058C, 0x10592); (0x10594, 0x10595); (0x10597, 0x105A1);
  (0x105A3, 0x105B1); (0x105B3, 0x105B9); (0x105BB, 0x105BC); (0x10780, 0x10780); (0x10783, 0x10785); (0x10787, 0x107B0);
  (0x107B2, 0x107BA); (0x10C80, 0x10CB2); (0x10CC0, 0x10CF2); (0x118A0, 0x118DF); (0x16E40, 0x16E7F); (0x1D400, 0x1D454);
  (0x1D456, 0x1D49C); (0x1D49E, 0x1D49F); (0x1D4A2, 0x1D4A2); (0x1D4A5, 0x1D4A6); (0x1D4A9, 0x1D4AC); (0x1D4AE, 0x1D4B9);
  (0x1D4BB, 0x1D4BB); (0x1D4BD, 0x1D4C3); (0x1D4C5, 0x1D505); (0x1D507, 0x1D50A); (0x1D50D, 0x1D514); (0x1D516, 0x1D51C);
  (0x1D51E, 0x1D539); (0x1D53B, 0x1D53E); (0x1D540, 0x1D544); (0x1D546, 0x1D546); (0x1D54A, 0x1D550); (0x1D552, 0x1D6A5);
  (0x1D6A8, 0x1D6C0); (0x1D6C2, 0x1D6DA); (0x1D6DC, 0x1D6FA); (0x1D6FC, 0x1D714); (0x1D716, 0x1D734); (0x1D736, 0x1D74E);
  (0x1D750, 0x1D76E); (0x1D770, 0x1D788); (0x1D78A, 0x1D7A8); (0x1D7AA, 0x1D7C2); (0x1D7C4, 0x1D7CB); (0x1DF00, 0x1DF09);
  (0x1DF0B, 0x1DF1E); (0x1E900, 0x1E943); (0x1F130, 0x1F149); (0x1F150, 0x1F169); (0x1F170, 0x1F189)
].

Definition case_ignorable_ranges : list (Z * Z) := [
  (0x27, 0x27); (0x2E, 0x2E); (0x3A, 0x3A); (0x5E, 0x5E); (0x60, 0x60); (0xA8, 0xA8);
  (0xAD, 0xAD); (0xAF, 0xAF); (0xB4, 0xB4); (0xB7, 0xB8); (0x2B0, 0x36F); (0x374, 0x375);
  (0x37A, 0x37A); (0x384, 0x385); (0x387, 0x387); (0x483, 0x489); (0x559, 0x559); (0x55F, 0x55F);
  (0x591, 0x5BD); (0x5BF, 0x5BF); (0x5C1, 0x5C2); (0x5C4, 0x5C5); (0x5C7, 0x5C7); (0x5F4, 0x5F4);
  (0x600, 0x605); (0x610, 0x61A); (0x61C, 0x61C); (0x640, 0x640); (0x64B, 0x65F); (0x670, 0x670);
  (0x6D6, 0x6DD); (0x6DF, 0x6E8); (0x6EA, 0x6ED); (0x70F, 0x70F); (0x711, 0x711); (0x730, 0x74A);
  (0x7A6, 0x7B0); (0x7EB, 0x7F5); (0x7FA, 0x7FA); (0x7FD, 0x7FD); (0x816, 0x82D); (0x859, 0x85B);
  (0x888, 0x888); (0x890, 0x891); (0x898, 0x89F); (0x8C9, 0x902); (0x93A, 0x93A); (0x93C, 0x93C);
  (0x941, 0x948); (0x94D, 0x94D); (0x951, 0x957); (0x962, 0x963); (0x971, 0x971); (0x981, 0x981);
  (0x9BC, 0x9BC); (0x9C1, 0x9C4); (0x9CD, 0x9CD); (0x9E2, 0x9E3); (0x9FE, 0x9FE); (0xA01, 0xA02);
  (0xA3C, 0xA3C); (0xA41, 0xA42); (0xA47, 0xA48); (0xA4B, 0xA4D); (0xA51, 0xA51); (0xA70, 0xA71);
  (0xA75, 0xA75); (0xA81, 0xA82); (0xABC, 0xABC); (0xAC1, 0xAC5); (0xAC7, 0xAC8); (0xACD, 0xACD);
  (0xAE2, 0xAE3); (0xAFA, 0xAFF); (0xB01, 0xB01); (0xB3C, 0xB3C); (0xB3F, 0xB3F); (0xB41, 0xB44);
  (0xB4D, 0xB4D); (0xB55, 0xB56); (0xB62, 0xB63); (0xB82, 0xB82); (0xBC0, 0xBC0); (0xBCD, 0xBCD);
  (0xC00, 0xC00); (0xC04, 0xC04); (0xC3C, 0xC3C); (0xC3E, 0xC40); (0xC46, 0xC48); (0xC4A, 0xC4D);
  (0xC55, 0xC56); (0xC62, 0xC63); (0xC81, 0xC81); (0xCBC, 0xCBC); (0xCBF, 0xCBF); (0xCC6, 0xCC6);
  (0xCCC, 0xCCD); (0xCE2, 0xCE3); (0xD00, 0xD01); (0xD3B, 0xD3C); (0xD41, 0xD44); (0xD4D, 0xD4D);
  (0xD62, 0xD63); (0xD81, 0xD81); (0xDCA, 0xDCA); (0xDD2, 0xDD4); (0xDD6, 0xDD6); (0xE31, 0xE31);
  (0xE34, 0xE3A); (0xE46, 0xE4E); (0xEB1, 0xEB1); (0xEB4, 0xEBC); (0xEC6, 0xEC6); (0xEC8, 0xECD);
  (0xF18, 0xF19); (0xF35, 0xF35); (0xF37, 0xF37); (0xF39, 0xF39); (0xF71, 0xF7E); (0xF80, 0xF84);
  (0xF86, 0xF87); (0xF8D, 0xF97); (0xF99, 0xFBC); (0xFC6, 0xFC6); (0x102D, 0x1030); (0x1032, 0x1037);
  (0x1039, 0x103A); (0x103D, 0x103E); (0x1058, 0x1059); (0x105E, 0x1060); (0x1071, 0x1074); (0x1082, 0x1082);
  (0x1085, 0x1086); (0x108D, 0x108D); (0x109D, 0x109D); (0x10FC, 0x10FC); (0x135D, 0x135F); (0x1712, 0x1714);
  (0x1732, 0x1733); (0x1752, 0x1753); (0x1772, 0x1773); (0x17B4, 0x17B5); (0x17B7, 0x17BD); (0x17C6, 0x17C6);
  (0x17C9, 0x17D3); (0x17D7, 0x17D7); (0x17DD, 0x17DD); (0x180B, 0x180F); (0x1843, 0x1843); (0x1885, 0x1886);
  (0x18A9, 0x18A9); (0x1920, 0x1922); (0x1927, 0x1928); (0x1932, 0x1932); (0x1939, 0x193B); (0x1A17, 0x1A18);
  (0x1A1B, 0x1A1B); (0x1A56, 0x1A56); (0x1A58, 0x1A5E); (0x1A60, 0x1A60); (0x1A62, 0x1A62); (0x1A65, 0x1A6C);
  (0x1A73, 0x1A7C); (0x1A7F, 0x1A7F); (0x1AA7, 0x1AA7); (0x1AB0, 0x1ACE); (0x1B00, 0x1B03); (0x1B34, 0x1B34);
  (0x1B36, 0x1B3A); (0x1B3C, 0x1B3C); (0x1B42, 0x1B42); (0x1B6B, 0x1B73); (0x1B80, 0x1B81); (0x1BA2, 0x1BA5);
  (0x1BA8, 0x1BA9); (0x1BAB, 0x1BAD); (0x1BE6, 0x1BE6); (0x1BE8, 0x1BE9); (0x1BED, 0x1BED); (0x1BEF, 0x1BF1);
  (0x1C2C, 0x1C33); (0x1C36, 0x1C37); (0x1C78, 0x1C7D); (0x1CD0, 0x1CD2); (0x1CD4, 0x1CE0); (0x1CE2, 0x1CE8);
  (0x1CED, 0x1CED); (0x1CF4, 0x1CF4); (0x1CF8, 0x1CF9); (0x1D2C, 0x1D6A); (0x1D78, 0x1D78); (0x1D9B, 0x1DFF);
  (0x1FBD, 0x1FBD); (0x1FBF, 0x1FC1); (0x1FCD, 0x1FCF); (0x1FDD, 0x1FDF); (0x1FED, 0x1FEF); (0x1FFD, 0x1FFE);
  (0x200B, 0x200F); (0x2018, 0x2019); (0x2024, 0x2024); (0x2027, 0x2027); (0x202A, 0x202E); (0x2060, 0x2064);
  (0x2066, 0x206F); (0x2071, 0x2071); (0x207F, 0x207F); (0x2090, 0x209C); (0x20D0, 0x20F0); (0x2C7C, 0x2C7D);
  (0x2CEF, 0x2CF1); (0x2D6F, 0x2D6F); (0x2D7F, 0x2D7F); (0x2DE0, 0x2DFF); (0x2E2F, 0x2E2F); (0x3005, 0x3005);
  (0x302A, 0x302D); (0x3031, 0x3035); (0x303B, 0x303B); (0x3099, 0x309E); (0x30FC, 0x30FE); (0xA015, 0xA015);
  (0xA4F8, 0xA4FD); (0xA60C, 0xA60C); (0xA66F, 0xA672); (0xA674, 0xA67D); (0xA67F, 0xA67F); (0xA69C, 0xA69F);
  (0xA6F0, 0xA6F1); (0xA700, 0xA721); (0xA770, 0xA770); (0xA788, 0xA78A); (0xA7F2, 0xA7F4); (0xA7F8, 0xA7F9);
  (0xA802, 0xA802); (0xA806, 0xA806); (0xA80B, 0xA80B); (0xA825, 0xA826); (0xA82C, 0xA82C); (0xA8C4, 0xA8C5);
  (0xA8E0, 0xA8F1); (0xA8FF, 0xA8FF); (0xA926, 0xA92D); (0xA947, 0xA951); (0xA980, 0xA982); (0xA9B3, 0xA9B3);
  (0xA9B6, 0xA9B9); (0xA9BC, 0xA9BD); (0xA9CF, 0xA9CF); (0xA9E5, 0xA9E6); (0xAA29, 0xAA2E); (0xAA31, 0xAA32);
  (0xAA35, 0xAA36); (0xAA43, 0xAA43); (0xAA4C, 0xAA4C); (0xAA70, 0xAA70); (0xAA7C, 0xAA7C); (0xAAB0, 0xAAB0);
  (0xAAB2, 0xAAB4); (0xAAB7, 0xAAB8); (0xAABE, 0xAABF); (0xAAC1, 0xAAC1); (0xAADD, 0xAADD); (0xAAEC, 0xAAED);
  (0xAAF3, 0xAAF4); (0xAAF6, 0xAAF6); (0xAB5B, 0xAB5F); (0xAB69, 0xAB6B); (0xABE5, 0xABE5); (0xABE8, 0xABE8);
  (0xABED, 0xABED); (0xFB1E, 0xFB1E); (0xFBB2, 0xFBC2); (0xFE00, 0xFE0F); (0xFE13, 0xFE13); (0xFE20, 0xFE2F);
  (0xFE52, 0xFE52); (0xFE55, 0xFE55); (0xFEFF, 0xFEFF); (0xFF07, 0xFF07); (0xFF0E, 0xFF0E); (0xFF1A, 0xFF1A);
  (0xFF3E, 0xFF3E); (0xFF40, 0xFF40); (0xFF70, 0xFF70); (0xFF9E, 0xFF9F); (0xFFE3, 0xFFE3); (0xFFF9, 0xFFFB);
  (0x101FD, 0x101FD); (0x102E0, 0x102E0); (0x10376, 0x1037A); (0x10780, 0x10785); (0x10787, 0x107B0); (0x107B2, 0x107BA);
  (0x10A01, 0x10A03); (0x10A05, 0x10A06); (0x10A0C, 0x10A0F); (0x10A38, 0x10A3A); (0x10A3F, 0x10A3F); (0x10AE5, 0x10AE6);
  (0x10D24, 0x10D27); (0x10EAB, 0x10EAC); (0x10F46, 0x10F50); (0x10F82, 0x10F85); (0x11001, 0x11001); (0x11038, 0x11046);
  (0x11070, 0x11070); (0x11073, 0x11074); (0x1107F, 0x11081); (0x110B3, 0x110B6); (0x110B9, 0x110BA); (0x110BD, 0x110BD);
  (0x110C2, 0x110C2); (0x110CD, 0x110CD); (0x11100, 0x11102); (0x11127, 0x1112B); (0x1112D, 0x11134); (0x11173, 0x11173);
  (0x11180, 0x11181); (0x111B6, 0x111BE); (0x111C9, 0x111CC); (0x111CF, 0x111CF); (0x1122F, 0x11231); (0x11234, 0x11234);
  (0x11236, 0x11237); (0x1123E, 0x1123E); (0x112DF, 0x112DF); (0x112E3, 0x112EA); (0x11300, 0x11301); (0x1133B, 0x1133C);
  (0x11340, 0x11340); (0x11366, 0x1136C); (0x11370, 0x11374); (0x11438, 0x1143F); (0x11442, 0x11444); (0x11446, 0x11446);
  (0x1145E, 0x1145E); (0x114B3, 0x114B8); (0x114BA, 0x114BA); (0x114BF, 0x114C0); (0x114C2, 0x114C3); (0x115B2, 0x115B5);
  (0x115BC, 0x115BD); (0x115BF, 0x115C0); (0x115DC, 0x115DD); (0x11633, 0x1163A); (0x1163D, 0x1163D); (0x1163F, 0x11640);
  (0x116AB, 0x116AB); (0x116AD, 0x116AD); (0x116B0, 0x116B5); (0x116B7, 0x116B7); (0x1171D, 0x1171F); (0x11722, 0x11725);
  (0x11727, 0x1172B); (0x1182F, 0x11837); (0x11839, 0x1183A); (0x1193B, 0x1193C); (0x1193E, 0x1193E); (0x11943, 0x11943);
  (0x119D4, 0x119D7); (0x119DA, 0x119DB); (0x119E0, 0x119E0); (0x11A01, 0x11A0A); (0x11A33, 0x11A38); (0x11A3B, 0x11A3E);
  (0x11A47, 0x11A47); (0x11A51, 0x11A56); (0x11A59, 0x11A5B); (0x11A8A, 0x11A96); (0x11A98, 0x11A99); (0x11C30, 0x11C36);
  (0x11C38, 0x11C3D); (0x11C3F, 0x11C3F); (0x11C92, 0x11CA7); (0x11CAA, 0x11CB0); (0x11CB2, 0x11CB3); (0x11CB5, 0x11CB6);
  (0x11D31, 0x11D36); (0x11D3A, 0x11D3A); (0x11D3C, 0x11D3D); (0x11D3F, 0x11D45); (0x11D47, 0x11D47); (0x11D90, 0x11D91);
  (0x11D95, 0x11D95); (0x11D97, 0x11D97); (0x11EF3, 0x11EF4); (0x13430, 0x13438); (0x16AF0, 0x16AF4); (0x16B30, 0x16B36);
  (0x16B40, 0x16B43); (0x16F4F, 0x16F4F); (0x16F8F, 0x16F9F); (0x16FE0, 0x16FE1); (0x16FE3, 0x16FE4); (0x1AFF0, 0x1AFF3);
  (0x1AFF5, 0x1AFFB); (0x1AFFD, 0x1AFFE); (0x1BC9D, 0x1BC9E); (0x1BCA0, 0x1BCA3); (0x1CF00, 0x1CF2D); (0x1CF30, 0x1CF46);
  (0x1D167, 0x1D169); (0x1D173, 0x1D182); (0x1D185, 0x1D18B); (0x1D1AA, 0x1D1AD); (0x1D242, 0x1D244); (0x1DA00, 0x1DA36);
  (0x1DA3B, 0x1DA6C); (0x1DA75, 0x1DA75); (0x1DA84, 0x1DA84); (0x1DA9B, 0x1DA9F); (0x1DAA1, 0x1DAAF); (0x1E000, 0x1E006);
  (0x1E008, 0x1E018); (0x1E01B, 0x1E021); (0x1E023, 0x1E024); (0x1E026, 0x1E02A); (0x1E130, 0x1E13D); (0x1E2AE, 0x1E2AE);
  (0x1E2EC, 0x1E2EF); (0x1E8D0, 0x1E8D6); (0x1E944, 0x1E94B); (0x1F3FB, 0x1F3FF); (0xE0001, 0xE0001); (0xE0020, 0xE007F);
  (0xE0100, 0xE01EF)
].

Definition decimal_ranges : list (Z * Z) := [
  (0x30, 0x39); (0x660, 0x669); (0x6F0, 0x6F9); (0x7C0, 0x7C9); (0x966, 0x96F); (0x9E6, 0x9EF);
  (0xA66, 0xA6F); (0xAE6, 0xAEF); (0xB66, 0xB6F); (0xBE6, 0xBEF); (0xC66, 0xC6F); (0xCE6, 0xCEF);
  (0xD66, 0xD6F); (0xDE6, 0xDEF); (0xE50, 0xE59); (0xED0, 0xED9); (0xF20, 0xF29); (0x1040, 0x1049);
  (0x1090, 0x1099); (0x17E0, 0x17E9); (0x1810, 0x1819); (0x1946, 0x194F); (0x19D0, 0x19D9); (0x1A80, 0x1A89);
  (0x1A90, 0x1A99); (0x1B50, 0x1B59); (0x1BB0, 0x1BB9); (0x1C40, 0x1C49); (0x1C50, 0x1C59); (0xA620, 0xA629);
  (0xA8D0, 0xA8D9); (0xA900, 0xA909); (0xA9D0, 0xA9D9); (0xA9F0, 0xA9F9); (0xAA50, 0xAA59); (0xABF0, 0xABF9);
  (0xFF10, 0xFF19); (0x104A0, 0x104A9); (0x10D30, 0x10D39); (0x11066, 0x1106F); (0x110F0, 0x110F9); (0x11136, 0x1113F);
  (0x111D0, 0x111D9); (0x112F0, 0x112F9); (0x11450, 0x11459); (0x114D0, 0x114D9); (0x11650, 0x11659); (0x116C0, 0x116C9);
  (0x11730, 0x11739); (0x118E0, 0x118E9); (0x11950, 0x11959); (0x11C50, 0x11C59); (0x11D50, 0x11D59); (0x11DA0, 0x11DA9);
  (0x16A60, 0x16A69); (0x16AC0, 0x16AC9); (0x16B50, 0x16B59); (0x1D7CE, 0x1D7FF); (0x1E140, 0x1E149); (0x1E2F0, 0x1E2F9);
  (0x1E950, 0x1E959); (0x1FBF0, 0x1FBF9)
].

(** The non-ASCII code points [Py_UNICODE_ISPRINTABLE] rejects: the
    categories Cc, Cf, Cs, Co, Cn, Zl, Zp and Zs. *)
Definition nonprintable_ranges : list (Z * Z) := [
  (0x80, 0xA0); (0xAD, 0xAD); (0x378, 0x379); (0x380, 0x383); (0x38B, 0x38B); (0x38D, 0x38D);
  (0x3A2, 0x3A2); (0x530, 0x530); (0x557, 0x558); (0x58B, 0x58C); (0x590, 0x590); (0x5C8, 0x5CF);
  (0x5EB, 0x5EE); (0x5F5, 0x605); (0x61C, 0x61C); (0x6DD, 0x6DD); (0x70E, 0x70F); (0x74B, 0x74C);
  (0x7B2, 0x7BF); (0x7FB, 0x7FC); (0x82E, 0x82F); (0x83F, 0x83F); (0x85C, 0x85D); (0x85F, 0x85F);
  (0x86B, 0x86F); (0x88F, 0x897); (0x8E2, 0x8E2); (0x984, 0x984); (0x98D, 0x98E); (0x991, 0x992);
  (0x9A9, 0x9A9); (0x9B1, 0x9B1); (0x9B3, 0x9B5); (0x9BA, 0x9BB); (0x9C5, 0x9C6); (0x9C9, 0x9CA);
  (0x9CF, 0x9D6); (0x9D8, 0x9DB); (0x9DE, 0x9DE); (0x9E4, 0x9E5); (0x9FF, 0xA00); (0xA04, 0xA04);
  (0xA0B, 0xA0E); (0xA11, 0xA12); (0xA29, 0xA29); (0xA31, 0xA31); (0xA34, 0xA34); (0xA37, 0xA37);
  (0xA3A, 0xA3B); (0xA3D, 0xA3D); (0xA43, 0xA46); (0xA49, 0xA4A); (0xA4E, 0xA50); (0xA52, 0xA58);
  (0xA5D, 0xA5D); (0xA5F, 0xA65); (0xA77, 0xA80); (0xA84, 0xA84); (0xA8E, 0xA8E); (0xA92, 0xA92);
  (0xAA9, 0xAA9); (0xAB1, 0xAB1); (0xAB4, 0xAB4); (0xABA, 0xABB); (0xAC6, 0xAC6); (0xACA, 0xACA);
  (0xACE, 0xACF); (0xAD1, 0xADF); (0xAE4, 0xAE5); (0xAF2, 0xAF8); (0xB00, 0xB00); (0xB04, 0xB04);
  (0xB0D, 0xB0E); (0xB11, 0xB12); (0xB29, 0xB29); (0xB31, 0xB31); (0xB34, 0xB34); (0xB3A, 0xB3B);
  (0xB45, 0xB46); (0xB49, 0xB4A); (0xB4E, 0xB54); (0xB58, 0xB5B); (0xB5E, 0xB5E); (0xB64, 0xB65);
  (0xB78, 0xB81); (0xB84, 0xB84); (0xB8B, 0xB8D); (0xB91, 0xB91); (0xB96, 0xB98); (0xB9B, 0xB9B);
  (0xB9D, 0xB9D); (0xBA0, 0xBA2); (0xBA5, 0xBA7); (0xBAB, 0xBAD); (0xBBA, 0xBBD); (0xBC3, 0xBC5);
  (0xBC9, 0xBC9); (0xBCE, 0xBCF); (0xBD1, 0xBD6); (0xBD8, 0xBE5); (0xBFB, 0xBFF); (0xC0D, 0xC0D);
  (0xC11, 0xC11); (0xC29, 0xC29); (0xC3A, 0xC3B); (0xC45, 0xC45); (0xC49, 0xC49); (0xC4E, 0xC54);
  (0xC57, 0xC57); (0xC5B, 0xC5C); (0xC5E, 0xC5F); (0xC64, 0xC65); (0xC70, 0xC76); (0xC8D, 0xC8D);
  (0xC91, 0xC91); (0xCA9, 0xCA9); (0xCB4, 0xCB4); (0xCBA, 0xCBB); (0xCC5, 0xCC5); (0xCC9, 0xCC9);
  (0xCCE, 0xCD4); (0xCD7, 0xCDC); (0xCDF, 0xCDF); (0xCE4, 0xCE5); (0xCF0, 0xCF0); (0xCF3, 0xCFF);
  (0xD0D, 0xD0D); (0xD11, 0xD11); (0xD45, 0xD45); (0xD49, 0xD49); (0xD50, 0xD53); (0xD64, 0xD65);
  (0xD80, 0xD80); (0xD84, 0xD84); (0xD97, 0xD99); (0xDB2, 0xDB2); (0xDBC, 0xDBC); (0xDBE, 0xDBF);
  (0xDC7, 0xDC9); (0xDCB, 0xDCE); (0xDD5, 0xDD5); (0xDD7, 0xDD7); (0xDE0, 0xDE5); (0xDF0, 0xDF1);
  (0xDF5, 0xE00); (0xE3B, 0xE3E); (0xE5C, 0xE80); (0xE83, 0xE83); (0xE85, 0xE85); (0xE8B, 0xE8B);
  (0xEA4, 0xEA4); (0xEA6, 0xEA6); (0xEBE, 0xEBF); (0xEC5, 0xEC5); (0xEC7, 0xEC7); (0xECE, 0xECF);
  (0xEDA, 0xEDB); (0xEE0, 0xEFF); (0xF48, 0xF48); (0xF6D, 0xF70); (0xF98, 0xF98); (0xFBD, 0xFBD);
  (0xFCD, 0xFCD); (0xFDB, 0xFFF); (0x10C6, 0x10C6); (0x10C8, 0x10CC); (0x10CE, 0x10CF); (0x1249, 0x1249);
  (0x124E, 0x124F); (0x1257, 0x1257); (0x1259, 0x1259); (0x125E, 0x125F); (0x1289, 0x1289); (0x128E, 0x128F);
  (0x12B1, 0x12B1); (0x12B6, 0x12B7); (0x12BF, 0x12BF); (0x12C1, 0x12C1); (0x12C6, 0x12C7); (0x12D7, 0x12D7);
  (0x1311, 0x1311); (0x1316, 0x1317); (0x135B, 0x135C); (0x137D, 0x137F); (0x139A, 0x139F); (0x13F6, 0x13F7);
  (0x13FE, 0x13FF); (0x1680, 0x1680); (0x169D, 0x169F); (0x16F9, 0x16FF); (0x1716, 0x171E); (0x1737, 0x173F);
  (0x1754, 0x175F); (0x176D, 0x176D); (0x1771, 0x1771); (0x1774, 0x177F); (0x17DE, 0x17DF); (0x17EA, 0x17EF);
  (0x17FA, 0x17FF); (0x180E, 0x180E); (0x181A, 0x181F); (0x1879, 0x187F); (0x18AB, 0x18AF); (0x18F6, 0x18FF);
  (0x191F, 0x191F); (0x192C, 0x192F); (0x193C, 0x193F); (0x1941, 0x1943); (0x196E, 0x196F); (0x1975, 0x197F);
  (0x19AC, 0x19AF); (0x19CA, 0x19CF); (0x19DB, 0x19DD); (0x1A1C, 0x1A1D); (0x1A5F, 0x1A5F); (0x1A7D, 0x1A7E);
  (0x1A8A, 0x1A8F); (0x1A9A, 0x1A9F); (0x1AAE, 0x1AAF); (0x1ACF, 0x1AFF); (0x1B4D, 0x1B4F); (0x1B7F, 0x1B7F);
  (0x1BF4, 0x1BFB); (0x1C38, 0x1C3A); (0x1C4A, 0x1C4C); (0x1C89, 0x1C8F); (0x1CBB, 0x1CBC); (0x1CC8, 0x1CCF);
  (0x1CFB, 0x1CFF); (0x1F16, 0x1F17); (0x1F1E, 0x1F1F); (0x1F46, 0x1F47); (0x1F4E, 0x1F4F); (0x1F58, 0x1F58);
  (0x1F5A, 0x1F5A); (0x1F5C, 0x1F5C); (0x1F5E, 0x1F5E); (0x1F7E, 0x1F7F); (0x1FB5, 0x1FB5); (0x1FC5, 0x1FC5);
  (0x1FD4, 0x1FD5); (0x1FDC, 0x1FDC); (0x1FF0, 0x1FF1); (0x1FF5, 0x1FF5); (0x1FFF, 0x200F); (0x2028, 0x202F);
  (0x205F, 0x206F); (0x2072, 0x2073); (0x208F, 0x208F); (0x209D, 0x209F); (0x20C1, 0x20CF); (0x20F1, 0x20FF);
  (0x218C, 0x218F); (0x2427, 0x243F); (0x244B, 0x245F); (0x2B74, 0x2B75); (0x2B96, 0x2B96); (0x2CF4, 0x2CF8);
  (0x2D26, 0x2D26); (0x2D28, 0x2D2C); (0x2D2E, 0x2D2F); (0x2D68, 0x2D6E); (0x2D71, 0x2D7E); (0x2D97, 0x2D9F);
  (0x2DA7, 0x2DA7); (0x2DAF, 0x2DAF); (0x2DB7, 0x2DB7); (0x2DBF, 0x2DBF); (0x2DC7, 0x2DC7); (0x2DCF, 0x2DCF);
  (0x2DD7, 0x2DD7); (0x2DDF, 0x2DDF); (0x2E5E, 0x2E7F); (0x2E9A, 0x2E9A); (0x2EF4, 0x2EFF); (0x2FD6, 0x2FEF);
  (0x2FFC, 0x3000); (0x3040, 0x3040); (0x3097, 0x3098); (0x3100, 0x3104); (0x3130, 0x3130); (0x318F, 0x318F);
  (0x31E4, 0x31EF); (0x321F, 0x321F); (0xA48D, 0xA48F); (0xA4C7, 0xA4CF); (0xA62C, 0xA63F); (0xA6F8, 0xA6FF);
  (0xA7CB, 0xA7CF); (0xA7D2, 0xA7D2); (0xA7D4, 0xA7D4); (0xA7DA, 0xA7F1); (0xA82D, 0xA82F); (0xA83A, 0xA83F);
  (0xA878, 0xA87F); (0xA8C6, 0xA8CD); (0xA8DA, 0xA8DF); (0xA954, 0xA95E); (0xA97D, 0xA97F); (0xA9CE, 0xA9CE);
  (0xA9DA, 0xA9DD); (0xA9FF, 0xA9FF); (0xAA37, 0xAA3F); (0xAA4E, 0xAA4F); (0xAA5A, 0xAA5B); (0xAAC3, 0xAADA);
  (0xAAF7, 0xAB00); (0xAB07, 0xAB08); (0xAB0F, 0xAB10); (0xAB17, 0xAB1F); (0xAB27, 0xAB27); (0xAB2F, 0xAB2F);
  (0xAB6C, 0xAB6F); (0xABEE, 0xABEF); (0xABFA, 0xABFF); (0xD7A4, 0xD7AF); (0xD7C7, 0xD7CA); (0xD7FC, 0xF8FF);
  (0xFA6E, 0xFA6F); (0xFADA, 0xFAFF); (0xFB07, 0xFB12); (0xFB18, 0xFB1C); (0xFB37, 0xFB37); (0xFB3D, 0xFB3D);
  (0xFB3F, 0xFB3F); (0xFB42, 0xFB42); (0xFB45, 0xFB45); (0xFBC3, 0xFBD2); (0xFD90, 0xFD91); (0xFDC8, 0xFDCE);
  (0xFDD0, 0xFDEF); (0xFE1A, 0xFE1F); (0xFE53, 0xFE53); (0xFE67, 0xFE67); (0xFE6C, 0xFE6F); (0xFE75, 0xFE75);
  (0xFEFD, 0xFF00); (0xFFBF, 0xFFC1); (0xFFC8, 0xFFC9); (0xFFD0, 0xFFD1); (0xFFD8, 0xFFD9); (0xFFDD, 0xFFDF);
  (0xFFE7, 0xFFE7); (0xFFEF, 0xFFFB); (0xFFFE, 0xFFFF); (0x1000C, 0x1000C); (0x10027, 0x10027); (0x1003B, 0x1003B);
  (0x1003E, 0x1003E); (0x1004E, 0x1004F); (0x1005E, 0x1007F); (0x100FB, 0x100FF); (0x10103, 0x10106); (0x10134, 0x10136);
  (0x1018F, 0x1018F); (0x1019D, 0x1019F); (0x101A1, 0x101CF); (0x101FE, 0x1027F); (0x1029D, 0x1029F); (0x102D1, 0x102DF);
  (0x102FC, 0x102FF); (0x10324, 0x1032C); (0x1034B, 0x1034F); (0x1037B, 0x1037F); (0x1039E, 0x1039E); (0x103C4, 0x103C7);
  (0x103D6, 0x103FF); (0x1049E, 0x1049F); (0x104AA, 0x104AF); (0x104D4, 0x104D7); (0x104FC, 0x104FF); (0x10528, 0x1052F);
  (0x10564, 0x1056E); (0x1057B, 0x1057B); (0x1058B, 0x1058B); (0x10593, 0x10593); (0x10596, 0x10596); (0x105A2, 0x105A2);
  (0x105B2, 0x105B2); (0x105BA, 0x105BA); (0x105BD, 0x105FF); (0x10737, 0x1073F); (0x10756, 0x1075F); (0x10768, 0x1077F);
  (0x10786, 0x10786); (0x107B1, 0x107B1); (0x107BB, 0x107FF); (0x10806, 0x10807); (0x10809, 0x10809); (0x10836, 0x10836);
  (0x10839, 0x1083B); (0x1083D, 0x1083E); (0x10856, 0x10856); (0x1089F, 0x108A6); (0x108B0, 0x108DF); (0x108F3, 0x108F3);
  (0x108F6, 0x108FA); (0x1091C, 0x1091E); (0x1093A, 0x1093E); (0x10940, 0x1097F); (0x109B8, 0x109BB); (0x109D0, 0x109D1);
  (0x10A04, 0x10A04); (0x10A07, 0x10A0B); (0x10A14, 0x10A14); (0x10A18, 0x10A18); (0x10A36, 0x10A37); (0x10A3B, 0x10A3E);
  (0x10A49, 0x10A4F); (0x10A59, 0x10A5F); (0x10AA0, 0x10ABF); (0x10AE7, 0x10AEA); (0x10AF7, 0x10AFF); (0x10B36, 0x10B38);
  (0x10B56, 0x10B57); (0x10B73, 0x10B77); (0x10B92, 0x10B98); (0x10B9D, 0x10BA8); (0x10BB0, 0x10BFF); (0x10C49, 0x10C7F);
  (0x10CB3, 0x10CBF); (0x10CF3, 0x10CF9); (0x10D28, 0x10D2F); (0x10D3A, 0x10E5F); (0x10E7F, 0x10E7F); (0x10EAA, 0x10EAA);
  (0x10EAE, 0x10EAF); (0x10EB2, 0x10EFF); (0x10F28, 0x10F2F); (0x10F5A, 0x10F6F); (0x10F8A, 0x10FAF); (0x10FCC, 0x10FDF);
  (0x10FF7, 0x10FFF); (0x1104E, 0x11051); (0x11076, 0x1107E); (0x110BD, 0x110BD); (0x110C3, 0x110CF); (0x110E9, 0x110EF);
  (0x110FA, 0x110FF); (0x11135, 0x11135); (0x11148, 0x1114F); (0x11177, 0x1117F); (0x111E0, 0x111E0); (0x111F5, 0x111FF);
  (0x11212, 0x11212); (0x1123F, 0x1127F); (0x11287, 0x11287); (0x11289, 0x11289); (0x1128E, 0x1128E); (0x1129E, 0x1129E);
  (0x112AA, 0x112AF); (0x112EB, 0x112EF); (0x112FA, 0x112FF); (0x11304, 0x11304); (0x1130D, 0x1130E); (0x11311, 0x11312);
  (0x11329, 0x11329); (0x11331, 0x11331); (0x11334, 0x11334); (0x1133A, 0x1133A); (0x11345, 0x11346); (0x11349, 0x1134A);
  (0x1134E, 0x1134F); (0x11351, 0x11356); (0x11358, 0x1135C); (0x11364, 0x11365); (0x1136D, 0x1136F); (0x11375, 0x113FF);
  (0x1145C, 0x1145C); (0x11462, 0x1147F); (0x114C8, 0x114CF); (0x114DA, 0x1157F); (0x115B6, 0x115B7); (0x115DE, 0x115FF);
  (0x11645, 0x1164F); (0x1165A, 0x1165F); (0x1166D, 0x1167F); (0x116BA, 0x116BF); (0x116CA, 0x116FF); (0x1171B, 0x1171C);
  (0x1172C, 0x1172F); (0x11747, 0x117FF); (0x1183C, 0x1189F); (0x118F3, 0x118FE); (0x11907, 0x11908); (0x1190A, 0x1190B);
  (0x11914, 0x11914); (0x11917, 0x11917); (0x11936, 0x11936); (0x11939, 0x1193A); (0x11947, 0x1194F); (0x1195A, 0x1199F);
  (0x119A8, 0x119A9); (0x119D8, 0x119D9); (0x119E5, 0x119FF); (0x11A48, 0x11A4F); (0x11AA3, 0x11AAF); (0x11AF9, 0x11BFF);
  (0x11C09, 0x11C09); (0x11C37, 0x11C37); (0x11C46, 0x11C4F); (0x11C6D, 0x11C6F); (0x11C90, 0x11C91); (0x11CA8, 0x11CA8);
  (0x11CB7, 0x11CFF); (0x11D07, 0x11D07); (0x11D0A, 0x11D0A); (0x11D37, 0x11D39); (0x11D3B, 0x11D3B); (0x11D3E, 0x11D3E);
  (0x11D48, 0x11D4F); (0x11D5A, 0x11D5F); (0x11D66, 0x11D66); (0x11D69, 0x11D69); (0x11D8F, 0x11D8F); (0x11D92, 0x11D92);
  (0x11D99, 0x11D9F); (0x11DAA, 0x11EDF); (0x11EF9, 0x11FAF); (0x11FB1, 0x11FBF); (0x11FF2, 0x11FFE); (0x1239A, 0x123FF);
  (0x1246F, 0x1246F); (0x12475, 0x1247F); (0x12544, 0x12F8F); (0x12FF3, 0x12FFF); (0x1342F, 0x143FF); (0x14647, 0x167FF);
  (0x16A39, 0x16A3F); (0x16A5F, 0x16A5F); (0x16A6A, 0x16A6D); (0x16ABF, 0x16ABF); (0x16ACA, 0x16ACF); (0x16AEE, 0x16AEF);
  (0x16AF6, 0x16AFF); (0x16B46, 0x16B4F); (0x16B5A, 0x16B5A); (0x16B62, 0x16B62); (0x16B78, 0x16B7C); (0x16B90, 0x16E3F);
  (0x16E9B, 0x16EFF); (0x16F4B, 0x16F4E); (0x16F88, 0x16F8E); (0x16FA0, 0x16FDF); (0x16FE5, 0x16FEF); (0x16FF2, 0x16FFF);
  (0x187F8, 0x187FF); (0x18CD6, 0x18CFF); (0x18D09, 0x1AFEF); (0x1AFF4, 0x1AFF4); (0x1AFFC, 0x1AFFC); (0x1AFFF, 0x1AFFF);
  (0x1B123, 0x1B14F); (0x1B153, 0x1B163); (0x1B168, 0x1B16F); (0x1B2FC, 0x1BBFF); (0x1BC6B, 0x1BC6F); (0x1BC7D, 0x1BC7F);
  (0x1BC89, 0x1BC8F); (0x1BC9A, 0x1BC9B); (0x1BCA0, 0x1CEFF); (0x1CF2E, 0x1CF2F); (0x1CF47, 0x1CF4F); (0x1CFC4, 0x1CFFF);
  (0x1D0F6, 0x1D0FF); (0x1D127, 0x1D128); (0x1D173, 0x1D17A); (0x1D1EB, 0x1D1FF); (0x1D246, 0x1D2DF); (0x1D2F4, 0x1D2FF);
  (0x1D357, 0x1D35F); (0x1D379, 0x1D3FF); (0x1D455, 0x1D455); (0x1D49D, 0x1D49D); (0x1D4A0, 0x1D4A1); (0x1D4A3, 0x1D4A4);
  (0x1D4A7, 0x1D4A8); (0x1D4AD, 0x1D4AD); (0x1D4BA, 0x1D4BA); (0x1D4BC, 0x1D4BC); (0x1D4C4, 0x1D4C4); (0x1D506, 0x1D506);
  (0x1D50B, 0x1D50C); (0x1D515, 0x1D515); (0x1D51D, 0x1D51D); (0x1D53A, 0x1D53A); (0x1D53F, 0x1D53F); (0x1D545, 0x1D545);
  (0x1D547, 0x1D549); (0x1D551, 0x1D551); (0x1D6A6, 0x1D6A7); (0x1D7CC, 0x1D7CD); (0x1DA8C, 0x1DA9A); (0x1DAA0, 0x1DAA0);
  (0x1DAB0, 0x1DEFF); (0x1DF1F, 0x1DFFF); (0x1E007, 0x1E007); (0x1E019, 0x1E01A); (0x1E022, 0x1E022); (0x1E025, 0x1E025);
  (0x1E02B, 0x1E0FF); (0x1E12D, 0x1E12F); (0x1E13E, 0x1E13F); (0x1E14A, 0x1E14D); (0x1E150, 0x1E28F); (0x1E2AF, 0x1E2BF);
  (0x1E2FA, 0x1E2FE); (0x1E300, 0x1E7DF); (0x1E7E7, 0x1E7E7); (0x1E7EC, 0x1E7EC); (0x1E7EF, 0x1E7EF); (0x1E7FF, 0x1E7FF);
  (0x1E8C5, 0x1E8C6); (0x1E8D7, 0x1E8FF); (0x1E94C, 0x1E94F); (0x1E95A, 0x1E95D); (0x1E960, 0x1EC70); (0x1ECB5, 0x1ED00);
  (0x1ED3E, 0x1EDFF); (0x1EE04, 0x1EE04); (0x1EE20, 0x1EE20); (0x1EE23, 0x1EE23); (0x1EE25, 0x1EE26); (0x1EE28, 0x1EE28);
  (0x1EE33, 0x1EE33); (0x1EE38, 0x1EE38); (0x1EE3A, 0x1EE3A); (0x1EE3C, 0x1EE41); (0x1EE43, 0x1EE46); (0x1EE48, 0x1EE48);
  (0x1EE4A, 0x1EE4A); (0x1EE4C, 0x1EE4C); (0x1EE50, 0x1EE50); (0x1EE53, 0x1EE53); (0x1EE55, 0x1EE56); (0x1EE58, 0x1EE58);
  (0x1EE5A, 0x1EE5A); (0x1EE5C, 0x1EE5C); (0x1EE5E, 0x1EE5E); (0x1EE60, 0x1EE60); (0x1EE63, 0x1EE63); (0x1EE65, 0x1EE66);
  (0x1EE6B, 0x1EE6B); (0x1EE73, 0x1EE73); (0x1EE78, 0x1EE78); (0x1EE7D, 0x1EE7D); (0x1EE7F, 0x1EE7F); (0x1EE8A, 0x1EE8A);
  (0x1EE9C, 0x1EEA0); (0x1EEA4, 0x1EEA4); (0x1EEAA, 0x1EEAA); (0x1EEBC, 0x1EEEF); (0x1EEF2, 0x1EFFF); (0x1F02C, 0x1F02F);
  (0x1F094, 0x1F09F); (0x1F0AF, 0x1F0B0); (0x1F0C0, 0x1F0C0); (0x1F0D0, 0x1F0D0); (0x1F0F6, 0x1F0FF); (0x1F1AE, 0x1F1E5);
  (0x1F203, 0x1F20F); (0x1F23C, 0x1F23F); (0x1F249, 0x1F24F); (0x1F252, 0x1F25F); (0x1F266, 0x1F2FF); (0x1F6D8, 0x1F6DC);
  (0x1F6ED, 0x1F6EF); (0x1F6FD, 0x1F6FF); (0x1F774, 0x1F77F); (0x1F7D9, 0x1F7DF); (0x1F7EC, 0x1F7EF); (0x1F7F1, 0x1F7FF);
  (0x1F80C, 0x1F80F); (0x1F848, 0x1F84F); (0x1F85A, 0x1F85F); (0x1F888, 0x1F88F); (0x1F8AE, 0x1F8AF); (0x1F8B2, 0x1F8FF);
  (0x1FA54, 0x1FA5F); (0x1FA6E, 0x1FA6F); (0x1FA75, 0x1FA77); (0x1FA7D, 0x1FA7F); (0x1FA87, 0x1FA8F); (0x1FAAD, 0x1FAAF);
  (0x1FABB, 0x1FABF); (0x1FAC6, 0x1FACF); (0x1FADA, 0x1FADF); (0x1FAE8, 0x1FAEF); (0x1FAF7, 0x1FAFF); (0x1FB93, 0x1FB93);
  (0x1FBCB, 0x1FBEF); (0x1FBFA, 0x1FFFF); (0x2A6E0, 0x2A6FF); (0x2B739, 0x2B73F); (0x2B81E, 0x2B81F); (0x2CEA2, 0x2CEAF);
  (0x2EBE1, 0x2F7FF); (0x2FA1E, 0x2FFFF); (0x3134B, 0xE00FF); (0xE01F0, 0x10FFFF)
].

(** [Py_UNICODE_ISSPACE]: what [\s] and [str.strip()] treat as whitespace. *)
Definition space_chars : list Z :=
  [0x9; 0xA; 0xB; 0xC; 0xD; 0x1C; 0x1D; 0x1E; 0x1F; 0x20; 0x85; 0xA0; 0x1680;
   0x2000; 0x2001; 0x2002; 0x2003; 0x2004; 0x2005; 0x2006; 0x2007; 0x2008; 0x2009; 0x200A;
   0x2028; 0x2029; 0x202F; 0x205F; 0x3000].

Fixpoint run_delta (rs : list (Z * Z * Z * Z)) (c : Z) : option Z :=
  match rs with
  | [] => None
  | (lo, hi, step, d) :: r =>
      if (lo <=? c) && (c <=? hi) && (Z.modulo (c - lo) step =? 0) then Some d
      else run_delta r c
  end.

Fixpoint special (sp : list (Z * list Z)) (c : Z) : option (list Z) :=
  match sp with
  | [] => None
  | (c', l) :: r => if c =? c' then Some l else special r c
  end.

Definition in_ranges (rs : list (Z * Z)) (c : Z) : bool :=
  existsb (fun r => (fst r <=? c) && (c <=? snd r)) rs.

(** [_PyUnicode_ToLowerFull] *)
Definition lower_full (c : Z) : list Z :=
  match special lower_special c with
  | Some l => l
  | None => match run_delta lower_runs c with Some d => [c + d] | None => [c] end
  end.

(** [_PyUnicode_ToTitleFull] *)
Definition title_full (c : Z) : list Z :=
  match special title_special c with
  | Some l => l
  | None => match run_delta title_runs c with Some d => [c + d] | None => [c] end
  end.

Definition is_cased (c : Z) : bool := in_ranges cased_ranges c.
Definition is_case_ignorable (c : Z) : bool := in_ranges case_ignorable_ranges c.

(** [Py_UNICODE_ISDECIMAL], the class [\d] of a [str] pattern. *)
Definition is_decimal (c : Z) : bool := in_ranges decimal_ranges c.

(** [Py_UNICODE_TODECIMAL] on a decimal digit. *)
Definition decimal_value (c : Z) : Z :=
  match find (fun r => (fst r <=? c) && (c <=? snd r)) decimal_ranges with
  | Some (lo, _) => Z.modulo (c - lo) 10
  | None => 0
  end.

Definition is_space (c : Z) : bool := existsb (Z.eqb c) space_chars.

(** [Py_UNICODE_ISPRINTABLE] for a non-ASCII code point. *)
Definition is_printable (c : Z) : bool := negb (in_ranges nonprintable_ranges c).

Fixpoint skip_case_ignorable (l : list Z) : list Z :=
  match l with
  | c :: r => if is_case_ignorable c then skip_case_ignorable r else l
  | [] => []
  end.

(** [handle_capital_sigma]: U+03A3 lower-cases to the final form U+03C2
    after a cased letter (case-ignorable ones skipped) not followed by one;
    [before] is the text before it, reversed. *)
Definition final_sigma (before after : list Z) : bool :=
  match skip_case_ignorable before with
  | c :: _ =>
      is_cased c &&
      match skip_case_ignorable after with
      | [] => true
      | c' :: _ => negb (is_cased c')
      end
  | [] => false
  end.

(** [lower_ucs4] *)
Definition lower_at (before : list Z) (c : Z) (after : list Z) : list Z :=
  if c =? 0x3A3 then [if final_sigma before after then 0x3C2 else 0x3C3]
  else lower_full c.

Fixpoint lower_aux (before s : list Z) : list Z :=
  match s with
  | [] => []
  | c :: r => lower_at before c r ++ lower_aux (c :: before) r
  end.

(** [str.lower()] *)
Definition lower (s : list Z) : list Z := lower_aux [] s.

(** [do_title]: a character is title-cased after an uncased one and
    lower-cased after a cased one. *)
Fixpoint title_aux (previous_is_cased : bool) (before s : list Z) : list Z :=
  match s with
  | [] => []
  | c :: r =>
      (if previous_is_cased then lower_at before c r else title_full c)
      ++ title_aux (is_cased c) (c :: before) r
  end.

(** [str.title()] *)
Definition title (s : list Z) : list Z := title_aux false [] s.

(** UTF-8, the representation of a [str] as a Rocq [string]. *)
Definition byte (n : Z) : ascii := ascii_of_N (Z.to_N n).

Definition encode_char (c : Z) : list ascii :=
  if c <? 0x80 then [byte c]
  else if c <? 0x800 then
    [byte (0xC0 + Z.shiftr c 6); byte (0x80 + Z.land c 0x3F)]
  else if c <? 0x10000 then
    [byte (0xE0 + Z.shiftr c 12); byte (0x80 + Z.land (Z.shiftr c 6) 0x3F);
     byte (0x80 + Z.land c 0x3F)]
  else
    [byte (0xF0 + Z.shiftr c 18); byte (0x80 + Z.land (Z.shiftr c 12) 0x3F);
     byte (0x80 + Z.land (Z.shiftr c 6) 0x3F); byte (0x80 + Z.land c 0x3F)].

Definition encode (s : list Z) : string := string_of_list_ascii (flat_map encode_char s).

Definition is_cont (b : Z) : bool := (0x80 <=? b) && (b <? 0xC0).

(** Decoding of the UTF-8 bytes of a [str]; a byte that does not start a
    well-formed sequence (which no [str] produces) reads as U+FFFD. *)
Fixpoint decode_bytes (fuel : nat) (bs : list Z) : list Z :=
  match fuel with
  | O => []
  | S f =>
      match bs with
      | [] => []
      | b0 :: r =>
          if b0 <? 0x80 then b0 :: decode_bytes f r
          else match r with
               | b1 :: r1 =>
                   if (0xC0 <=? b0) && (b0 <? 0xE0) && is_cont b1 then
                     (Z.shiftl (b0 - 0xC0) 6 + (b1 - 0x80)) :: decode_bytes f r1
                   else match r1 with
                        | b2 :: r2 =>
                            if (0xE0 <=? b0) && (b0 <? 0xF0) && is_cont b1 && is_cont b2 then
                              (Z.shiftl (b0 - 0xE0) 12 + Z.shiftl (b1 - 0x80) 6 + (b2 - 0x80))
                                :: decode_bytes f r2
                            else match r2 with
                                 | b3 :: r3 =>
                                     if (0xF0 <=? b0) && (b0 <? 0xF8) && is_cont b1
                                        && is_cont b2 && is_cont b3 then
                                       (Z.shiftl (b0 - 0xF0) 18 + Z.shiftl (b1 - 0x80) 12
                                        + Z.shiftl (b2 - 0x80) 6 + (b3 - 0x80)) :: decode_bytes f r3
                                     else 0xFFFD :: decode_bytes f r
                                 | [] => 0xFFFD :: decode_bytes f r
                                 end
                        | [] => 0xFFFD :: decode_bytes f r
                        end
               | [] => [0xFFFD]
               end
      end
  end.

Definition decode (s : string) : list Z :=
  let bs := map (fun a => Z.of_N (N_of_ascii a)) (list_ascii_of_string s) in
  decode_bytes (List.length bs) bs.

End Unicode.


(* ================================================================= *)
(** ** Python floats (IEEE 754 binary64) *)

Module PyFloat.
Open Scope Z_scope.

(** A Python [float]; the arithmetic is [SpecFloat]'s, rounding to nearest
    with ties to even, at [prec = 53] and [emax = 1024]. *)
Definition float := spec_float.
Definition prec : Z := 53.
Definition emax : Z := 1024.

Definition add (x y : float) : float := SFadd prec emax x y.
Definition sub (x y : float) : float := SFsub prec emax x y.

(** [float(n)] for an [int] [n]; [None] is the [OverflowError] ("int too
    large to convert to float") of a value that rounds beyond the largest
    float. *)
Definition of_int (n : Z) : option float :=
  match binary_normalize prec emax n 0 false with
  | S754_infinity _ => None
  | f => Some f
  end.

(** The float nearest to an integer constant (exact for [|n| <= 2^53]),
    as [float - int] converts its right operand. *)
Definition of_small (n : Z) : float := binary_normalize prec emax n 0 false.

(** The float nearest to the positive rational [num / den]. *)
Definition round_pos (num den : Z) : float :=
  let '(q, e, l) := SFdiv_core_binary prec emax num 0 den 0 in
  binary_round_aux prec emax false q e l.

(** The exact value of a finite float. *)
Definition value (f : float) : option Q :=
  match f with
  | S754_zero _ => Some 0%Q
  | S754_finite s m e =>
      let q := if 0 <=? e then inject_Z (Zpos m * 2 ^ e) else (Zpos m # Z.to_pos (2 ^ (- e))) in
      Some (if s then Qopp q else q)
  | _ => None
  end.

(** [n <= f] and [f <= n] between an [int] and a [float]: CPython compares
    the exact values (a NaN compares false). *)
Definition le_int_float (n : Z) (f : float) : bool :=
  match f with
  | S754_nan => false
  | S754_infinity s => negb s
  | _ => match value f with Some q => Qle_bool (inject_Z n) q | None => false end
  end.

Definition le_float_int (f : float) (n : Z) : bool :=
  match f with
  | S754_nan => false
  | S754_infinity s => s
  | _ => match value f with Some q => Qle_bool q (inject_Z n) | None => false end
  end.

(** [min(x, *rest)] and [max(x, *rest)]: the current item is replaced by a
    later one only when [item < current] (resp. [item > current]). *)
Definition min (x : float) (rest : list float) : float :=
  fold_left (fun cur y => if SFltb y cur then y else cur) rest x.
Definition max (x : float) (rest : list float) : float :=
  fold_left (fun cur y => if SFltb cur y then y else cur) rest x.

(** [repr(f)] (also [str(f)] and an f-string field): the shortest digit
    string that reads back as [f] ([_Py_dg_dtoa] mode 0), in positional
    notation when the decimal exponent is in [-4, 16), else with an
    exponent of at least two digits. *)
Definition ndigits (n : Z) : Z := Z.of_nat (String.length (Py.str_of_Z n)).

(** [floor(log10(num / den))] for positive [num] and [den]. *)
Definition floor_log10 (num den : Z) : Z :=
  let j := ndigits num - ndigits den in
  if (if 0 <=? j then 10 ^ j * den <=? num else den <=? num * 10 ^ (- j)) then j else j - 1.

(** Whether [d * 10^k] reads back as [f]. *)
Definition reads_back (f : float) (d k : Z) : bool :=
  SFeqb (if 0 <=? k then round_pos (d * 10 ^ k) 1 else round_pos d (10 ^ (- k))) f.

(** The [n]-digit candidates just below and above [num / den] (the value of
    the positive float [f]); among two that read back the nearer, ties to
    an even last digit; otherwise one digit more. *)
Fixpoint shortest_from (fuel : nat) (n : Z) (f : float) (num den : Z) : Z * Z :=
  let k := floor_log10 num den - n + 1 in
  let a := if 0 <=? k then num else num * 10 ^ (- k) in
  let b := if 0 <=? k then den * 10 ^ k else den in
  let d := a / b in
  let r := a mod b in
  let nearer := if 2 * r <? b then d else if b <? 2 * r then d + 1
                else if Z.even d then d else d + 1 in
  if r =? 0 then (d, k)
  else
    match reads_back f d k, reads_back f (d + 1) k with
    | true, true => (nearer, k)
    | true, false => (d, k)
    | false, true => (d + 1, k)
    | false, false =>
        match fuel with
        | O => (nearer, k)
        | S fuel' => shortest_from fuel' (n + 1) f num den
        end
    end.

Fixpoint strip_zeros (fuel : nat) (d k : Z) : Z * Z :=
  match fuel with
  | O => (d, k)
  | S f => if (d mod 10 =? 0) && (0 <? d) then strip_zeros f (d / 10) (k + 1) else (d, k)
  end.

Fixpoint zeros (n : nat) : string :=
  match n with O => "" | S k => String "0" (zeros k) end.

(** [format_float_short] in mode ['r'] for the digits [d] and value [d * 10^k]. *)
Definition format_short (d k : Z) : string :=
  let ds := Py.str_of_Z d in
  let n := Z.of_nat (String.length ds) in
  let decpt := n + k in
  if (decpt <=? -4) || (16 <? decpt) then
    let e := decpt - 1 in
    (substring 0 1 ds ++ (if Z.ltb 1 n then "." ++ substring 1 (Z.to_nat (n - 1)) ds else "")
     ++ "e" ++ (if Z.ltb e 0 then "-" else "+") ++ (if Z.ltb (Z.abs e) 10 then "0" else "")
     ++ Py.str_of_Z (Z.abs e))%string
  else if decpt <=? 0 then ("0." ++ zeros (Z.to_nat (- decpt)) ++ ds)%string
  else if n <=? decpt then (ds ++ zeros (Z.to_nat (decpt - n)) ++ ".0")%string
  else (substring 0 (Z.to_nat decpt) ds ++ "." ++ substring (Z.to_nat decpt) (Z.to_nat (n - decpt)) ds)%string.

Definition repr (f : float) : string :=
  match f with
  | S754_zero s => if s then "-0.0" else "0.0"
  | S754_infinity s => if s then "-inf" else "inf"
  | S754_nan => "nan"
  | S754_finite s mnt e =>
      let num := if 0 <=? e then Zpos mnt * 2 ^ e else Zpos mnt in
      let den := if 0 <=? e then 1 else 2 ^ (- e) in
      let '(d, k) := shortest_from 16 1 (S754_finite false mnt e) num den in
      let '(d', k') := strip_zeros 20 d k in
      ((if s then "-" else "") ++ format_short d' k')%string
  end.

End PyFloat.


(* ================================================================= *)
(** ** Regular expressions ([re.findall]) *)

(** A backtracking matcher in the style of Python's [re] on a [str] (a list
    of code points): alternatives are tried left to right, stars are greedy
    and stop on an iteration that consumes nothing, and a match is reported
    through the continuation [k] applied to the rest of the input. *)
Module Regex.
Open Scope list_scope.

Inductive re :=
  | REps
  | RChar (p : Z -> bool)
  | RSeq (r1 r2 : re)
  | RAlt (r1 r2 : re)
  | RStar (r : re).

Definition ROpt (r : re) : re := RAlt r REps.          (** [r?] *)
Definition RPlus (r : re) : re := RSeq r (RStar r).    (** [r+] *)

Fixpoint RLit (s : list Z) : re :=
  match s with
  | [] => REps
  | c :: r => RSeq (RChar (Z.eqb c)) (RLit r)
  end.

(** [\d] and [\s] of a [str] pattern. *)
Definition is_digit : Z -> bool := Unicode.is_decimal.
Definition is_space : Z -> bool := Unicode.is_space.

Section Match.
Context {A : Type}.

Fixpoint m (fuel : nat) (r : re) (s : list Z) (k : list Z -> option A) {struct r} : option A :=
  match r with
  | REps => k s
  | RChar p =>
      match s with
      | c :: s' => if p c then k s' else None
      | [] => None
      end
  | RSeq r1 r2 => m fuel r1 s (fun s' => m fuel r2 s' k)
  | RAlt r1 r2 =>
      match m fuel r1 s k with
      | Some x => Some x
      | None => m fuel r2 s k
      end
  | RStar r1 =>
      (fix star (n : nat) (s : list Z) (k : list Z -> option A) : option A :=
         match n with
         | O => k s
         | S n' =>
             match m fuel r1 s
                     (fun s' => if Nat.ltb (List.length s') (List.length s)
                                then star n' s' k else None) with
             | Some x => Some x
             | None => k s
             end
         end) fuel s k
  end.

End Match.

(** [pattern.findall(text)] for a pattern [(group)rest] with one group:
    leftmost matches, scanning resumes at the end of each match. *)
Fixpoint scan (group rest : re) (fuel : nat) (s : list Z) : list (list Z) :=
  match fuel with
  | O => []
  | S f =>
      let F := S (List.length s) in
      match m F group s (fun s1 => m F rest s1 (fun s2 => Some (s1, s2))) with
      | Some (s1, s2) =>
          firstn (List.length s - List.length s1) s :: scan group rest f s2
      | None =>
          match s with
          | [] => []
          | _ :: s' => scan group rest f s'
          end
      end
  end.

Definition findall (group rest : re) (s : list Z) : list (list Z) :=
  scan group rest (S (List.length s)) s.

End Regex.


(* ================================================================= *)
(** ** Domain validation ([src/src/asmf/domain/config.py], [expert.py]) *)

Module Domain.
Import Regex.
Open Scope Z_scope.
Open Scope list_scope.

(** The code points of a [str] literal. *)
Definition u (s : string) : list Z := Unicode.decode s.

(** [str.lower()] on the UTF-8 representation of a [str]. *)
Definition lower (s : string) : string := Unicode.encode (Unicode.lower (Unicode.decode s)).

(** [_TEMP_PATTERN]: a run of [\d] (the group), [\s] repeated, optionally
    [degree] or [degrees] followed by [\s] repeated, then [C], [Celsius] or
    [°C]. *)
Definition TEMP_GROUP : re := RPlus (RChar is_digit).
Definition TEMP_REST : re :=
  RSeq (RStar (RChar is_space))
    (RSeq (ROpt (RSeq (RLit (u "degree")) (RSeq (ROpt (RLit (u "s"))) (RStar (RChar is_space)))))
          (RAlt (RLit (u "C")) (RAlt (RLit (u "Celsius")) (RLit (u "°C"))))).

(** [_PCT_PATTERN]: a run of [\d] (the group), [\s] repeated, then [%] or
    [percent]. *)
Definition PCT_GROUP : re := RPlus (RChar is_digit).
Definition PCT_REST : re :=
  RSeq (RStar (RChar is_space)) (RAlt (RLit (u "%")) (RLit (u "percent"))).

(** [sys.get_int_max_str_digits()], CPython's default limit on the digits
    [int(str)] reads and [str(int)] writes. *)
Definition int_max_str_digits : Z := 4300.

(** [int(match)] for a run of decimal digits; [None] is the [ValueError] of
    a run longer than the limit. *)
Definition int_of_digits (s : list Z) : option Z :=
  if int_max_str_digits <? Z.of_nat (List.length s) then None
  else Some (fold_left (fun acc c => 10 * acc + Unicode.decimal_value c) s 0).

(** [str(n)]; [None] is the [ValueError] of more digits than the limit
    (the sign is not counted). *)
Definition str_int (n : Z) : option string :=
  if int_max_str_digits <? Z.of_nat (String.length (Py.str_of_Z (Z.abs n))) then None
  else Some (Py.str_of_Z n).

Definition int_limit_msg : string :=
  "Exceeds the limit (4300 digits) for integer string conversion; use sys.set_int_max_str_digits() to increase the limit".

(** The configuration as [DomainConfig] exposes it: [domain_name] and
    [get_temperature_ranges()], the dict of validated ranges (distinct
    string keys, in insertion order) with the bounds [float(v[0])] and
    [float(v[1])]. *)
Record DomainConfig := mkConfig {
  domain_name : string;
  temperature_ranges : list (string * (PyFloat.float * PyFloat.float))
}.

Definition range_min (r : string * (PyFloat.float * PyFloat.float)) : PyFloat.float := fst (snd r).
Definition range_max (r : string * (PyFloat.float * PyFloat.float)) : PyFloat.float := snd (snd r).

(** [range_min <= temp <= range_max] *)
Definition in_range (lo hi : PyFloat.float) (t : Z) : bool :=
  PyFloat.le_float_int lo t && PyFloat.le_int_float t hi.

(** [DomainConfig.validate_temperature(temp)] for an [int] temperature. *)
Definition validate_temperature (cfg : DomainConfig) (t : Z) : bool :=
  let ranges := temperature_ranges cfg in
  match ranges with
  | [] => (-50 <=? t) && (t <=? 2000)
  | r0 :: rest =>
      if existsb (fun r => in_range (range_min r) (range_max r) t) ranges then true
      else
        PyFloat.le_float_int
          (PyFloat.sub (PyFloat.min (range_min r0) (map range_min rest)) (PyFloat.of_small 100)) t
        && PyFloat.le_int_float t
             (PyFloat.add (PyFloat.max (range_max r0) (map range_max rest)) (PyFloat.of_small 200))
  end.

Definition deg_C : string := "°C".

(** [_check_temperature_in_range(temp)].  The temperatures come from
    [int()] of at most [int_max_str_digits] digits, so [str(temp)] succeeds. *)
Definition check_temperature_in_range (cfg : DomainConfig) (temp : Z) : option string :=
  if validate_temperature cfg temp then None
  else
    match temperature_ranges cfg with
    | r0 :: rest =>
        Some ("Temperature " ++ Py.str_of_Z temp ++ deg_C ++ " outside typical "
              ++ domain_name cfg ++ " range (~"
              ++ PyFloat.repr (PyFloat.min (range_min r0) (map range_min rest)) ++ "-"
              ++ PyFloat.repr (PyFloat.max (range_max r0) (map range_max rest)) ++ deg_C ++ ")")%string
    | [] => Some ("Temperature " ++ Py.str_of_Z temp ++ deg_C ++ " may be unrealistic")%string
    end.

(** [str.replace("_", " ")] *)
Definition underscores_to_spaces (s : list Z) : list Z :=
  map (fun c => if c =? 0x5F then 0x20 else c) s.

Fixpoint prefix (p s : list Z) : bool :=
  match p, s with
  | [], _ => true
  | c :: p', c' :: s' => (c =? c') && prefix p' s'
  | _ :: _, [] => false
  end.

(** [sub in s] *)
Fixpoint contains (s sub : list Z) : bool :=
  prefix sub s || match s with [] => false | _ :: r => contains r sub end.

(** The loop of [_check_temperature_process_match] over the ranges. *)
Fixpoint process_match_loop (text_lower : list Z) (temp : Z)
    (rs : list (string * (PyFloat.float * PyFloat.float))) : option string :=
  match rs with
  | [] => None
  | (process_type, (min_temp, max_temp)) :: rest =>
      let process_name := underscores_to_spaces (Unicode.decode process_type) in
      let process_title := Unicode.title process_name in
      if contains text_lower process_name then
        if negb (in_range min_temp max_temp temp) then
          Some (Unicode.encode process_title ++ " temperature " ++ Py.str_of_Z temp ++ deg_C
                ++ " outside typical range " ++ PyFloat.repr min_temp ++ "-"
                ++ PyFloat.repr max_temp ++ deg_C)%string
        else process_match_loop text_lower temp rest
      else process_match_loop text_lower temp rest
  end.

(** [_check_temperature_process_match(temp, text)] *)
Definition check_temperature_process_match (cfg : DomainConfig) (temp : Z) (text : list Z)
  : option string :=
  process_match_loop (Unicode.lower text) temp (temperature_ranges cfg).

(** The [{"valid": ..., "reason": ...}] dicts. *)
Record verdict := mkVerdict { valid : bool; reason : string }.

(** The [for temp in temperatures] loop of [validate_temperature_claim]. *)
Fixpoint claim_loop (cfg : DomainConfig) (text : list Z) (ts : list Z) : verdict :=
  match ts with
  | [] => mkVerdict true "Temperature claims are reasonable"
  | temp :: rest =>
      match check_temperature_in_range cfg temp with
      | Some error => mkVerdict false error
      | None =>
          match check_temperature_process_match cfg temp text with
          | Some error => mkVerdict false error
          | None => claim_loop cfg text rest
          end
      end
  end.

(** The [int(match)] values of the matches; a [ValueError] is logged and
    the match skipped. *)
Definition ints_of_matches (ms : list (list Z)) : list Z :=
  flat_map (fun w => match int_of_digits w with Some n => [n] | None => [] end) ms.

(** [_extract_temperatures(text)] *)
Definition extract_temperatures (text : list Z) : list Z :=
  ints_of_matches (findall TEMP_GROUP TEMP_REST text).

(** [validate_temperature_claim(text)] *)
Definition validate_temperature_claim (cfg : DomainConfig) (text : string) : verdict :=
  let t := Unicode.decode text in
  let temperatures := extract_temperatures t in
  match temperatures with
  | [] => mkVerdict true "No specific temperatures claimed"
  | _ => claim_loop cfg t temperatures
  end.

(** The percentages [check_mass_balance] reads. *)
Definition extract_percentages (text : list Z) : list Z :=
  ints_of_matches (findall PCT_GROUP PCT_REST text).

Definition sum (l : list Z) : Z := fold_left Z.add l 0.

(** What [check_mass_balance] returns, or the [ValueError] it raises. *)
Inductive outcome := Returned (v : verdict) | ValueError (msg : string).

(** [check_mass_balance(text)] *)
Definition check_mass_balance (text : string) : outcome :=
  let percentages := extract_percentages (Unicode.decode text) in
  match percentages with
  | [] => Returned (mkVerdict true "No specific yields claimed")
  | _ =>
      if 105 <? sum percentages then
        match str_int (sum percentages) with
        | Some s => Returned (mkVerdict false ("Claimed yields sum to " ++ s ++ "%, exceeding 100%")%string)
        | None => ValueError int_limit_msg
        end
      else Returned (mkVerdict true "Yield claims appear balanced")
  end.

(** The float of a YAML integer bound. *)
Definition fl (n : Z) : PyFloat.float := PyFloat.of_small n.

(** The configuration of [tests/test_domain_expert.py]. *)
Definition test_config : DomainConfig :=
  mkConfig "thermal_processing" [("pyrolysis", (fl 300, fl 600)); ("gasification", (fl 600, fl 900))].

Definition pyrolysis_only : DomainConfig :=
  mkConfig "thermal_processing" [("pyrolysis", (fl 300, fl 600))].

End Domain.


(* ================================================================= *)
(** ** Tracker ([src/src/tracker/tracker.py]) *)

Module Tracker.
Open Scope list_scope.

(** The caller's item dict given to [track]: the dict
    [{"title": in_title, "description": in_description, "link": in_link}]. *)
Record input_item := mkInput {
  in_title : string;
  in_description : string;
  in_link : string
}.

(** A value as [json.load] returns it and [json.dump] writes it; a dict is
    the list of its entries in insertion order, with distinct keys. *)
Inductive jv :=
  | VNull
  | VBool (b : bool)
  | VInt (z : Z)
  | VFloat (f : PyFloat.float)
  | VStr (s : string)
  | VList (l : list jv)
  | VDict (kvs : list (string * jv)).

(** [type(v).__name__] *)
Definition type_name (v : jv) : string :=
  match v with
  | VNull => "NoneType"
  | VBool _ => "bool"
  | VInt _ => "int"
  | VFloat _ => "float"
  | VStr _ => "str"
  | VList _ => "list"
  | VDict _ => "dict"
  end.

(** [d.get(k)] *)
Fixpoint dict_get (kvs : list (string * jv)) (k : string) : option jv :=
  match kvs with
  | [] => None
  | (k', v) :: rest => if String.eqb k' k then Some v else dict_get rest k
  end.

(** [d[k] = v]: an existing key keeps its place, a new key goes last. *)
Fixpoint dict_set (kvs : list (string * jv)) (k : string) (v : jv) : list (string * jv) :=
  match kvs with
  | [] => [(k, v)]
  | (k', v') :: rest =>
      if String.eqb k' k then (k', v) :: rest else (k', v') :: dict_set rest k v
  end.

(** The file at [storage_path]. *)
Inductive file :=
  | FileAbsent                      (** no file yet *)
  | FileText (contents : string)    (** as it was before any [_save] *)
  | FileDump (v : jv)               (** [json.dump(v, f, indent=2, ensure_ascii=False)] *)
  | FilePartial (v : jv) (n : nat). (** the first [n] characters of that dump *)

(** [self.items] (whatever [_load] read from the file) and the file. *)
Record state := mkState {
  items : jv;
  disk : file
}.

Inductive error :=
  | ValueError (msg : string)
  | KeyError (key : string)
  | AttributeError (msg : string)
  | TypeError (msg : string).

(** Method calls on the tracker: state passing with exceptions; an exception
    keeps the state reached when it was raised, as in Python. *)
Inductive outcome (A : Type) := Ok (a : A) | Raise (e : error).
Arguments Ok {A} a.
Arguments Raise {A} e.

Definition M (A : Type) := state -> outcome A * state.

Definition ret {A} (a : A) : M A := fun st => (Ok a, st).
Definition raise {A} (e : error) : M A := fun st => (Raise e, st).
Definition bind {A B} (m : M A) (k : A -> M B) : M B :=
  fun st => match m st with
            | (Ok a, st') => k a st'
            | (Raise e, st') => (Raise e, st')
            end.
Definition get : M state := fun st => (Ok st, st).
Definition put (st : state) : M unit := fun _ => (Ok tt, st).

Notation "x <- m ;; k" := (bind m (fun x => k)) (at level 61, m at next level, right associativity).
Notation "m ;;; k" := (bind m (fun _ => k)) (at level 61, right associativity).

Definition STATUS_NEW := "new".
Definition STATUS_IN_PROGRESS := "in_progress".
Definition STATUS_COMPLETED := "completed".
Definition STATUS_REJECTED := "rejected".
Definition VALID_STATUSES := [STATUS_NEW; STATUS_IN_PROGRESS; STATUS_COMPLETED; STATUS_REJECTED].

Definition is_valid_status (s : string) : bool := existsb (String.eqb s) VALID_STATUSES.

(** How [_save] goes: [open(storage_path, "w")] truncates the file and
    [json.dump] rewrites it; an exception is only logged. *)
Inductive save_outcome :=
  | Saved                 (** the whole dump is written *)
  | OpenFailed            (** [open] raises: the file is left as it was *)
  | DumpFailed (n : nat). (** the dump raises after [n] characters *)

Definition save (o : save_outcome) : M unit :=
  st <- get ;;
  match o with
  | Saved => put (mkState (items st) (FileDump (items st)))
  | OpenFailed => ret tt
  | DumpFailed n => put (mkState (items st) (FilePartial (items st) n))
  end.

(** [_generate_id]: the first 16 hex digits of the MD5 of the link, or of
    ["title|description"] when the link is empty. *)
Definition generate_id (item : input_item) : string :=
  let link := in_link item in
  if negb (String.eqb link "") then substring 0 16 (MD5.hexdigest link)
  else substring 0 16 (MD5.hexdigest (in_title item ++ "|" ++ in_description item)%string).

(** [for item in self.items]: the elements of a list, the keys of a dict,
    the characters of a string; other values are not iterable. *)
Definition iter_items (v : jv) : outcome (list jv) :=
  match v with
  | VList l => Ok l
  | VDict kvs => Ok (map (fun kv => VStr (fst kv)) kvs)
  | VStr s => Ok (map (fun c => VStr (Unicode.encode [c])) (Unicode.decode s))
  | _ => Raise (TypeError ("'" ++ type_name v ++ "' object is not iterable")%string)
  end.

(** [item.get(...)] on a value that is not a dict. *)
Definition no_get (v : jv) : error :=
  AttributeError ("'" ++ type_name v ++ "' object has no attribute 'get'")%string.

(** [item.get("id") == item_id] on a dict. *)
Definition has_id (kvs : list (string * jv)) (item_id : string) : bool :=
  match dict_get kvs "id" with
  | Some (VStr s) => String.eqb s item_id
  | _ => false
  end.

(** The loop of [get_by_id]: the position and the entries of the first dict
    whose ["id"] equals [item_id]. *)
Fixpoint find_item (l : list jv) (item_id : string) (i : nat)
  : outcome (option (nat * list (string * jv))) :=
  match l with
  | [] => Ok None
  | VDict kvs :: rest =>
      if has_id kvs item_id then Ok (Some (i, kvs)) else find_item rest item_id (S i)
  | v :: _ => Raise (no_get v)
  end.

Definition get_by_id (its : jv) (item_id : string)
  : outcome (option (nat * list (string * jv))) :=
  match iter_items its with
  | Ok l => find_item l item_id 0
  | Raise e => Raise e
  end.

(** The dict at position [i] of [self.items] after its in-place update. *)
Definition set_item (st : state) (i : nat) (kvs : list (string * jv)) : state :=
  match items st with
  | VList l => mkState (VList (firstn i l ++ VDict kvs :: skipn (S i) l)) (disk st)
  | _ => st
  end.

(** [{**item, "id": ..., "status": ..., "tracked_at": t1, "updated_at": t2,
    "history": [{"timestamp": t3, ...}]}] *)
Definition tracked_item (item : input_item) (item_id status t1 t2 t3 : string) : jv :=
  VDict [("title", VStr (in_title item)); ("description", VStr (in_description item));
         ("link", VStr (in_link item)); ("id", VStr item_id); ("status", VStr status);
         ("tracked_at", VStr t1); ("updated_at", VStr t2);
         ("history", VList [VDict [("timestamp", VStr t3); ("action", VStr "tracked");
                                   ("status", VStr status)]])].

(** [track(item, status)]; [t1], [t2], [t3] are the three successive values
    of [datetime.now().isoformat()]. *)
Definition track (o : save_outcome) (t1 t2 t3 : string) (item : input_item) (status : string)
  : M (option string) :=
  (if negb (is_valid_status status)
   then raise (ValueError ("Invalid status: " ++ status)%string) else ret tt) ;;;
  let item_id := generate_id item in
  st <- get ;;
  match get_by_id (items st) item_id with
  | Raise e => raise e
  | Ok (Some _) => ret None
  | Ok None =>
      match items st with
      | VList l =>
          put (mkState (VList (l ++ [tracked_item item item_id status t1 t2 t3])) (disk st)) ;;;
          save o ;;;
          ret (Some item_id)
      | v => raise (AttributeError ("'" ++ type_name v ++ "' object has no attribute 'append'")%string)
      end
  end.

(** [history_entry] of [update_status]. *)
Definition history_entry (t2 : string) (old_status : jv) (new_status : string)
    (note : option string) : jv :=
  VDict ([("timestamp", VStr t2); ("action", VStr "status_change");
          ("old_status", old_status); ("new_status", VStr new_status)]
         ++ match note with
            | Some n => if String.eqb n "" then [] else [("note", VStr n)]
            | None => []
            end).

(** [update_status(item_id, new_status, note)]; [t1], [t2] are the two
    successive values of [datetime.now().isoformat()]. *)
Definition update_status (o : save_outcome) (t1 t2 : string) (item_id new_status : string)
    (note : option string) : M unit :=
  (if negb (is_valid_status new_status)
   then raise (ValueError ("Invalid status: " ++ new_status)%string) else ret tt) ;;;
  st <- get ;;
  match get_by_id (items st) item_id with
  | Raise e => raise e
  | Ok None => raise (ValueError ("Item not found: " ++ item_id)%string)
  | Ok (Some (i, kvs)) =>
      match dict_get kvs "status" with
      | None => raise (KeyError "status")
      | Some old_status =>
          let kvs1 := dict_set (dict_set kvs "status" (VStr new_status)) "updated_at" (VStr t1) in
          put (set_item st i kvs1) ;;;
          match dict_get kvs1 "history" with
          | None => raise (KeyError "history")
          | Some (VList h) =>
              put (set_item st i
                     (dict_set kvs1 "history" (VList (h ++ [history_entry t2 old_status new_status note])))) ;;;
              save o
          | Some v =>
              raise (AttributeError ("'" ++ type_name v ++ "' object has no attribute 'append'")%string)
          end
      end
  end.

(** A tracker whose file did not exist: [_load] returned [[]]. *)
Definition empty : state := mkState (VList []) FileAbsent.

Definition example_item : input_item :=
  mkInput "Rust developer" "Remote role" "https://jobs.example/42".

End Tracker.

(* ================================================================= *)
(** ** Webhook server ([src/webhook_server.py]) *)

Module Webhook.
Open Scope list_scope.

Local Set Warnings "-register-all".

(** A decoded JSON value as [request.json] returns it.  [json.loads] reads
    an integer with [int()], so it has at most 4300 digits, and a number
    with a fraction or an exponent (or [NaN], [Infinity]) as a [float]; a
    string is held as UTF-8 (no lone surrogates).  An object keeps its
    members as written, duplicated keys included. *)
Inductive json :=
  | JNull
  | JBool (b : bool)
  | JInt (z : Z)
  | JFloat (f : PyFloat.float)
  | JStr (s : string)
  | JArr (l : list json)
  | JObj (fields : list (string * json)).

(** A Python exception: its class name and [str(e)]. *)
Record exn := mkExn { exn_type : string; exn_msg : string }.

Inductive py (A : Type) := POk (a : A) | PRaise (e : exn).
Arguments POk {A} a.
Arguments PRaise {A} e.

Definition pbind {A B} (m : py A) (k : A -> py B) : py B :=
  match m with POk a => k a | PRaise e => PRaise e end.
Notation "x <-- m ;; k" := (pbind m (fun x => k)) (at level 61, m at next level, right associativity).

Definition type_name (v : json) : string :=
  match v with
  | JNull => "NoneType" | JBool _ => "bool" | JInt _ => "int" | JFloat _ => "float"
  | JStr _ => "str" | JArr _ => "list" | JObj _ => "dict"
  end.

Definition attribute_error (v : json) (attr : string) : exn :=
  mkExn "AttributeError"
    ("'" ++ type_name v ++ "' object has no attribute '" ++ attr ++ "'")%string.

(** [json.loads] keeps the last of duplicated keys. *)
Definition lookup (fields : list (string * json)) (k : string) : option json :=
  fold_left (fun acc kv => if String.eqb (fst kv) k then Some (snd kv) else acc) fields None.

(** [v.get(k, default)] *)
Definition py_get (v : json) (k : string) (default : json) : py json :=
  match v with
  | JObj fields => POk (match lookup fields k with Some x => x | None => default end)
  | _ => PRaise (attribute_error v "get")
  end.

(** [bool(v)] *)
Definition truthy (v : json) : bool :=
  match v with
  | JNull => false
  | JBool b => b
  | JInt z => negb (Z.eqb z 0)
  | JFloat f => match f with S754_zero _ => false | _ => true end
  | JStr s => negb (String.eqb s "")
  | JArr l => negb (Nat.eqb (List.length l) 0)
  | JObj l => negb (Nat.eqb (List.length l) 0)
  end.

Section Repr.
Local Open Scope Z_scope.

Definition hex_char (d : Z) : Z := if d <? 10 then 48 + d else 87 + d.

(** The [n] lower-case hexadecimal digits of [c]. *)
Fixpoint hex_digits (n : nat) (c : Z) : list Z :=
  match n with
  | O => []
  | S k => hex_digits k (Z.shiftr c 4) ++ [hex_char (Z.land c 15)]
  end.

(** One code point of [repr(s)] quoted with [quote]. *)
Definition repr_char (quote c : Z) : list Z :=
  if (c =? quote) || (c =? 92) then [92; c]
  else if c =? 9 then [92; 116]
  else if c =? 10 then [92; 110]
  else if c =? 13 then [92; 114]
  else if (c <? 32) || (c =? 127) then 92 :: 120 :: hex_digits 2 c
  else if c <? 127 then [c]
  else if Unicode.is_printable c then [c]
  else if c <=? 0xff then 92 :: 120 :: hex_digits 2 c
  else if c <=? 0xffff then 92 :: 117 :: hex_digits 4 c
  else 92 :: 85 :: hex_digits 8 c.

(** [repr(s)] of a [str]: single quotes unless [s] holds a single quote
    and no double quote. *)
Definition str_repr (s : string) : string :=
  let cs := Unicode.decode s in
  let quote := if existsb (Z.eqb 39) cs && negb (existsb (Z.eqb 34) cs) then 34 else 39 in
  Unicode.encode (quote :: flat_map (repr_char quote) cs ++ [quote]).

End Repr.

(** [d[k] = v] on the entries of a dict: a present key keeps its place. *)
Fixpoint dict_set_repr (d : list (string * string)) (k v : string) : list (string * string) :=
  match d with
  | [] => [(k, v)]
  | (k', v') :: r => if String.eqb k' k then (k, v) :: r else (k', v') :: dict_set_repr r k v
  end.

(** The entries of the dict [json.loads] builds from an object's members
    (each value given by its [repr]): the first place of a key, its last
    value. *)
Definition dict_entries (members : list (string * string)) : list (string * string) :=
  fold_left (fun d kv => dict_set_repr d (fst kv) (snd kv)) members [].

(** [repr(v)] *)
Fixpoint py_repr (v : json) : string :=
  match v with
  | JNull => "None"
  | JBool true => "True"
  | JBool false => "False"
  | JInt z => Py.str_of_Z z
  | JFloat f => PyFloat.repr f
  | JStr s => str_repr s
  | JArr l => ("[" ++ Py.join ", " (map py_repr l) ++ "]")%string
  | JObj l =>
      ("{" ++ Py.join ", " (map (fun kv => str_repr (fst kv) ++ ": " ++ snd kv)
                                (dict_entries (map (fun kv => (fst kv, py_repr (snd kv))) l)))
       ++ "}")%string
  end.

(** [str(v)] *)
Definition py_str (v : json) : string :=
  match v with JStr s => s | _ => py_repr v end.

(** [s.split(sep)] for a one-character separator. *)
Fixpoint split (sep : ascii) (s : string) : list string :=
  match s with
  | EmptyString => [EmptyString]
  | String c r =>
      if Ascii.eqb c sep then EmptyString :: split sep r
      else match split sep r with
           | w :: ws => String c w :: ws
           | [] => [String c EmptyString]
           end
  end.

Definition is_ascii (s : string) : bool :=
  forallb (fun c => Nat.ltb (nat_of_ascii c) 128) (list_ascii_of_string s).

(** [hmac.compare_digest(a, b)] on two [str]: a [TypeError] when either
    holds a non-ASCII character. *)
Definition compare_digest (a b : string) : py bool :=
  if is_ascii a && is_ascii b then POk (String.eqb a b)
  else PRaise (mkExn "TypeError" "comparing strings with non-ASCII characters is not supported").

(** [verify_webhook_signature(payload_body, signature_header)] under the
    module-level [GITHUB_WEBHOOK_SECRET] ([None] when unset). *)
Definition verify_webhook_signature (secret : option string) (payload_body : string)
    (signature_header : option string) : py bool :=
  match secret with
  | None | Some EmptyString => POk true
  | Some key =>
      match signature_header with
      | None | Some EmptyString => POk false
      | Some header =>
          match split "="%char header with
          | [hash_algorithm; github_signature] =>
              if negb (String.eqb hash_algorithm "sha256") then POk false
              else
                let expected_signature := SHA256.hmac_hexdigest key payload_body in
                ok <-- compare_digest expected_signature github_signature ;;
                POk ok
          | [_] => PRaise (mkExn "ValueError" "not enough values to unpack (expected 2, got 1)")
          | _ => PRaise (mkExn "ValueError" "too many values to unpack (expected 2)")
          end
      end
  end.

(** [is_copilot_authored(pr_data)] *)
Definition is_copilot_authored (pr_data : json) : py bool :=
  user <-- py_get pr_data "user" (JObj []) ;;
  username <-- py_get user "login" (JStr "") ;;
  match username with
  | JStr u =>
      let u' := Domain.lower u in
      if existsb (Py.contains_b u') ["copilot"; "github-actions[bot]"; "dependabot[bot]"]
      then POk true
      else
        body <-- py_get pr_data "body" (JStr "") ;;
        let body' := if truthy body then body else JStr "" in
        match body' with
        | JStr b => POk (Py.contains_b (Domain.lower b) "copilot")
        | _ => PRaise (attribute_error body' "lower")
        end
  | _ => PRaise (attribute_error username "lower")
  end.

(** The HTTP request as Flask exposes it.  [req_json] is [None] when
    [request.json] raises (body not JSON or wrong content type), with the
    message [req_json_error]. *)
Record request := mkRequest {
  req_signature : option string;      (** header [X-Hub-Signature-256] *)
  req_event : option string;          (** header [X-GitHub-Event] *)
  req_data : string;                  (** [request.data]: the body, empty for a form-encoded POST *)
  req_json : option json;
  req_json_error : string
}.

(** The configuration and the outcome of the external effects: the review
    script run ([review_pr_with_ollama], [None] on failure) and the GitHub
    comment posts ([post_pr_comment]). *)
Record env := mkEnv {
  GITHUB_WEBHOOK_SECRET : option string;
  review_result : option string;
  post_ok : bool
}.

(** A JSON reply and its status code, or an exception escaping the view,
    which Flask turns into a 500 page. *)
Inductive response :=
  | Resp (body : list (string * json)) (status : Z)
  | Uncaught (e : exn).

Definition status_of (r : response) : Z :=
  match r with Resp _ st => st | Uncaught _ => 500 end.

(** The body of the [try] block of [webhook_handler]. *)
Definition handle_pull_request (e : env) (req : request) : py response :=
  payload <-- match req_json req with
              | Some p => POk p
              | None => PRaise (mkExn "UnsupportedMediaType" (req_json_error req))
              end ;;
  action <-- py_get payload "action" JNull ;;
  pr_data <-- py_get payload "pull_request" (JObj []) ;;
  repo_data <-- py_get payload "repository" (JObj []) ;;
  repo_full_name <-- py_get repo_data "full_name" JNull ;;
  pr_number <-- py_get pr_data "number" JNull ;;
  is_draft <-- py_get pr_data "draft" (JBool false) ;;
  if negb (existsb (fun a => match action with JStr s => String.eqb s a | _ => false end)
                   ["ready_for_review"; "opened"; "synchronize"]) then
    POk (Resp [("message", JStr ("Action " ++ py_str action ++ " not handled")%string)] 200)
  else if truthy is_draft then
    POk (Resp [("message", JStr "Draft PR - skipping review")] 200)
  else
    _is_copilot <-- is_copilot_authored pr_data ;;
    match review_result e with
    | None | Some EmptyString =>
        POk (Resp [("error", JStr "Review failed")] 500)
    | Some _ =>
        if post_ok e then
          POk (Resp [("message", JStr "Review completed and posted"); ("pr_number", pr_number)] 200)
        else POk (Resp [("error", JStr "Failed to post review comment")] 500)
    end.

(** Everything after the signature check. *)
Definition handle_event (e : env) (req : request) : response :=
  match req_event req with
  | Some "pull_request"%string =>
      match handle_pull_request e req with
      | POk r => r
      | PRaise ex => Resp [("error", JStr (exn_msg ex))] 500
      end
  | _ => Resp [("message", JStr "Event type not handled")] 200
  end.

(** [webhook_handler] *)
Definition webhook_handler (e : env) (req : request) : response :=
  match verify_webhook_signature (GITHUB_WEBHOOK_SECRET e) (req_data req) (req_signature req) with
  | PRaise ex => Uncaught ex
  | POk false => Resp [("error", JStr "Invalid signature")] 403
  | POk true => handle_event e req
  end.

(** A draft pull request event and a ready one. *)
Definition pr_payload (draft : bool) : json :=
  JObj [("action", JStr "opened");
        ("pull_request", JObj [("number", JInt 7); ("draft", JBool draft);
                               ("user", JObj [("login", JStr "octocat")]); ("body", JStr "Fix")]);
        ("repository", JObj [("full_name", JStr "octo/repo")])].

Definition pr_body : string := "{}".

End Webhook.

(** Concrete result items used in the statements below. *)
(* ================================================================= *)
(** ** More of the tracker ([src/src/tracker/tracker.py]) *)

Module TrackerMore.
Import Tracker.
Open Scope list_scope.

(** The comprehension of [delete]: the elements whose ["id"] differs from
    [item_id], in order; [item.get] raises on an element that is not a dict. *)
Fixpoint keep_others (l : list jv) (item_id : string) : outcome (list jv) :=
  match l with
  | [] => Ok []
  | VDict kvs :: rest =>
      match keep_others rest item_id with
      | Ok rest' => Ok (if has_id kvs item_id then rest' else VDict kvs :: rest')
      | Raise e => Raise e
      end
  | v :: _ => Raise (no_get v)
  end.

(** [delete(item_id)] *)
Definition delete (o : save_outcome) (item_id : string) : M unit :=
  st <- get ;;
  match iter_items (items st) with
  | Raise e => raise e
  | Ok l =>
      match keep_others l item_id with
      | Raise e => raise e
      | Ok l' => put (mkState (VList l') (disk st)) ;;; save o
      end
  end.

End TrackerMore.

(* ================================================================= *)
(** ** More of the domain configuration and expert *)

Module DomainMore.
Import Domain.
Open Scope Z_scope.
Open Scope list_scope.

Local Set Warnings "-register-all".

(** A YAML value as [yaml.safe_load] returns it; a mapping keeps its
    (distinct) keys in order and floats are kept exactly as rationals
    (NaN and the infinities are left out). *)
Inductive yaml :=
  | YNull
  | YBool (b : bool)
  | YInt (z : Z)
  | YFloat (q : Q)
  | YStr (s : string)
  | YList (l : list yaml)
  | YMap (m : list (string * yaml)).

Definition lookup_y (m : list (string * yaml)) (k : string) : option yaml :=
  fold_left (fun acc kv => if String.eqb (fst kv) k then Some (snd kv) else acc) m None.

(** [isinstance(x, (int, float))] and the value [float(x)] gives it
    ([bool] is a subclass of [int]; integers below 2^53 convert exactly). *)
Definition as_number (v : yaml) : option Q :=
  match v with
  | YBool b => Some (if b then 1 else 0)%Q
  | YInt z => Some (inject_Z z)
  | YFloat q => Some q
  | _ => None
  end.

(** [isinstance(x, (int, float))] *)
Definition is_number (v : yaml) : bool :=
  match as_number v with Some _ => true | None => false end.

(** The float nearest to a rational (the sign of a zero is not kept). *)
Definition float_of_Q (q : Q) : PyFloat.float :=
  match Qnum q with
  | Z0 => S754_zero false
  | Zpos p => PyFloat.round_pos (Zpos p) (Zpos (Qden q))
  | Zneg p => SFopp (PyFloat.round_pos (Zpos p) (Zpos (Qden q)))
  end.

(** [float(x)] for a number: [None] is the [OverflowError] of an [int]
    beyond the largest float; a YAML float is the float of its value. *)
Definition to_float (v : yaml) : option PyFloat.float :=
  match v with
  | YBool b => Some (PyFloat.of_small (if b then 1 else 0))
  | YInt z => PyFloat.of_int z
  | YFloat q => Some (float_of_Q q)
  | _ => None
  end.

(** [_compute_temperature_ranges] on the [temperature_ranges] mapping;
    [None] is the [OverflowError] of a [float(...)] call. *)
Fixpoint compute_temperature_ranges (ranges : list (string * yaml))
  : option (list (string * (PyFloat.float * PyFloat.float))) :=
  match ranges with
  | [] => Some []
  | (k, v) :: rest =>
      match v with
      | YList [a; b] =>
          if is_number a && is_number b then
            match to_float a, to_float b with
            | Some x, Some y => option_map (cons (k, (x, y))) (compute_temperature_ranges rest)
            | _, _ => None
            end
          else compute_temperature_ranges rest
      | _ => compute_temperature_ranges rest
      end
  end.

(** The float literal [0.1]: its exact binary value. *)
Definition float_0_1 : Q := 3602879701896397 # 36028797018963968.

(** [validate_pressure(pressure_bar)] on [get_operating_conditions()];
    [None] is an exception: [.get] on a value that is not a mapping
    ([AttributeError]) or [<=] between a non-number and the float argument
    ([TypeError]).  The chained comparison [min <= p <= max] does not look
    at [max] when [min <= p] is false. *)
Definition validate_pressure (conditions : yaml) (pressure_bar : Q) : option bool :=
  match conditions with
  | YMap c =>
      let pressure_range := match lookup_y c "pressure" with Some v => v | None => YMap [] end in
      match pressure_range with
      | YMap pr =>
          let min_pressure := match lookup_y pr "min" with Some v => v | None => YFloat float_0_1 end in
          let max_pressure := match lookup_y pr "max" with Some v => v | None => YInt 1000 end in
          match as_number min_pressure with
          | None => None
          | Some lo =>
              if Qle_bool lo pressure_bar then
                match as_number max_pressure with
                | None => None
                | Some hi => Some (Qle_bool pressure_bar hi)
                end
              else Some false
          end
      | _ => None
      end
  | _ => None
  end.

End DomainMore.

(* ================================================================= *)
(** ** Blocklist filtering ([src/src/aggregator/aggregator.py]) *)

Module AggregatorBlock.
Import Aggregator.
Open Scope list_scope.

(** A blocklist entry: [block.get("type")] and [block.get("value", "")]. *)
Record block := mkBlock { block_type : option string; block_value : string }.

(** [_is_blocked(item)]; [company] is
    [item.get("metadata", {}).get("company", "")]. *)
Fixpoint is_blocked (blocked_entities : list block) (it : item) (company : string) : bool :=
  match blocked_entities with
  | [] => false
  | b :: rest =>
      let block_value := Domain.lower (block_value b) in
      let hit :=
        match block_type b with
        | Some "site"%string => Py.contains_b (Domain.lower (link it)) block_value
        | Some "employer"%string => Py.contains_b (Domain.lower company) block_value
        | Some "keyword"%string =>
            Py.contains_b (Domain.lower (title it)) block_value
            || Py.contains_b (Domain.lower (description it)) block_value
        | _ => false
        end in
      if hit then true else is_blocked rest it company
  end.

(** [_filter_blocked(items)], each item with its metadata company. *)
Definition filter_blocked (blocked_entities : list block) (items : list (item * string))
  : list (item * string) :=
  filter (fun ic => negb (is_blocked blocked_entities (fst ic) (snd ic))) items.

End AggregatorBlock.

(* ================================================================= *)
(** ** Listing the local models ([ModelSelector._list_available_models]) *)

Module ModelSelectorMore.
Import Webhook.
Open Scope Z_scope.
Open Scope list_scope.

(** The outcome of [httpx.get(.../api/tags)]: the request raises, or a
    response with its status and its body decoded by [response.json()]
    ([None] when that raises). *)
Inductive tags_response :=
  | RequestFailed
  | HttpResponse (status_code : Z) (body : option json).

(** [[model["name"] for model in models]]; [None] is the [KeyError] or
    [TypeError] of a model that is not a dict holding ["name"]. *)
Fixpoint names (models : list json) : option (list json) :=
  match models with
  | [] => Some []
  | JObj f :: rest =>
      match lookup f "name", names rest with
      | Some n, Some ns => Some (n :: ns)
      | _, _ => None
      end
  | _ :: _ => None
  end.

(** The comprehension over [data.get("models", [])]: iterating anything
    but a list yields strings, keys or nothing, and indexing those with
    ["name"] raises; every exception is caught and gives [[]]. *)
Definition model_names (models : json) : list json :=
  match models with
  | JArr l => match names l with Some ns => ns | None => [] end
  | _ => []
  end.

(** [_list_available_models()] *)
Definition list_available_models (r : tags_response) : list json :=
  match r with
  | HttpResponse code (Some (JObj data)) =>
      if Z.eqb code 200 then
        model_names (match lookup data "models" with Some v => v | None => JArr [] end)
      else []
  | _ => []
  end.

(** [rec.name in available_models] compares a [str] with each listed
    value, so only the [str] values can match. *)
Definition json_strings (l : list json) : list string :=
  flat_map (fun j => match j with JStr s => [s] | _ => [] end) l.

(** [select_model(task_type)] with the availability check, on the listing
    the daemon answered. *)
Definition select_model_checked (vram_gb : Q) (task_type : ModelSelector.TaskType)
    (r : tags_response) : option string :=
  ModelSelector.select_model vram_gb task_type true (json_strings (list_available_models r)).

End ModelSelectorMore.

(* ================================================================= *)
(** ** AI providers ([src/src/asmf/providers/]) *)

Module Providers.
Import ProviderFactory.
Open Scope list_scope.

(** [GeminiProvider()] as the factory builds it: no client when the
    package is missing, when [GEMINI_API_KEY] is unset or empty, or when
    [genai.configure]/[GenerativeModel] raise (caught); the constructor
    itself never raises and [is_available()] is [_client is not None]. *)
Definition gemini_behaviour (genai_installed : bool) (GEMINI_API_KEY : option string)
    (configure_ok : bool) : behaviour :=
  IsAvailable
    (genai_installed
     && match GEMINI_API_KEY with Some k => negb (String.eqb k "") | None => false end
     && configure_ok).

(** The probe [httpx.get(f"{base_url}/api/tags")] of [OllamaProvider()]. *)
Inductive tags_probe := ProbeRaises | ProbeStatus (code : Z).

(** [OllamaProvider()] as the factory builds it: [float(OLLAMA_TIMEOUT)]
    outside the [try] (its [ValueError] message when the variable does not
    parse), then [_available = status_code == 200], [False] when the probe
    raises. *)
Definition ollama_behaviour (timeout_error : option string) (probe : tags_probe) : behaviour :=
  match timeout_error with
  | Some msg => CtorRaises msg
  | None =>
      match probe with
      | ProbeStatus code => IsAvailable (Z.eqb code 200)
      | ProbeRaises => IsAvailable false
      end
  end.

(** The environment the factory runs in. *)
Record provider_env := mkProviderEnv {
  genai_installed : bool;
  GEMINI_API_KEY : option string;
  configure_ok : bool;
  timeout_error : option string;
  probe : tags_probe
}.

Definition env_behaviour (pe : provider_env) (c : provider_class) : behaviour :=
  match c with
  | GeminiProvider => gemini_behaviour (genai_installed pe) (GEMINI_API_KEY pe) (configure_ok pe)
  | OllamaProvider => ollama_behaviour (timeout_error pe) (probe pe)
  end.

Definition nl : string := String (ascii_of_nat 10) EmptyString.

(** [_format_prompt_with_context(prompt, context)]; each context value is
    given as its [str()]. *)
Definition format_prompt_with_context (prompt : string)
    (context : option (list (string * string))) : string :=
  match context with
  | None | Some [] => prompt
  | Some kvs =>
      (Py.join (nl ++ nl) (map (fun kv => fst kv ++ ": " ++ snd kv) kvs) ++ nl ++ nl ++ prompt)%string
  end.

(** [not prompt or not prompt.strip()]: [strip()] removes the characters
    of [str.isspace]. *)
Definition is_blank (prompt : string) : bool :=
  forallb Unicode.is_space (Unicode.decode prompt).

(** [analyze_text(prompt, context)] of [OllamaProvider] ([name = "Ollama"])
    and [GeminiProvider] ([name = "Gemini"]) up to the call to the model:
    the result is the prompt sent to it. *)
Definition analyze_text (name : string) (available : bool) (prompt : string)
    (context : option (list (string * string))) : Webhook.py string :=
  if negb available then
    Webhook.PRaise (Webhook.mkExn "RuntimeError" (name ++ " provider is not available")%string)
  else if is_blank prompt then
    Webhook.PRaise (Webhook.mkExn "ValueError" "Prompt cannot be empty")
  else Webhook.POk (format_prompt_with_context prompt context).

End Providers.

Module AggregatorExamples.
Import Aggregator.

Definition A := mkItem "1" "Rust developer" "Remote role" "" "board".
Definition B := mkItem "2" "Rust developer" "Remote role" "https://jobs.example/42" "feed".
Definition C := mkItem "3" "Go developer" "On site" "https://jobs.example/42" "feed".

End AggregatorExamples.

(* ================================================================= *)
(** * Properties *)

Open Scope list_scope.

Example md5_empty : MD5.hexdigest "" = "d41d8cd98f00b204e9800998ecf8427e".
Proof. vm_compute. reflexivity. Qed.
Example md5_abc : MD5.hexdigest "abc" = "900150983cd24fb0d6963f7d28e17f72".
Proof. vm_compute. reflexivity. Qed.
Example md5_two_blocks :
  MD5.hexdigest "xxxxxxxxxxxxxxxxxxxxxxxxxxxxxxxxxxxxxxxxxxxxxxxxxxxxxxxxxxxxxxxxxxxxxx"
  = "7d56c0f83fd1e320d60ea2f13dfdeedd".
Proof. vm_compute. reflexivity. Qed.
Example sha256_abc :
  SHA256.hexdigest "abc" = "ba7816bf8f01cfea414140de5dae2223b00361a396177a9cb410ff61f20015ad".
Proof. vm_compute. reflexivity. Qed.
Example sha256_two_blocks :
  SHA256.hexdigest "xxxxxxxxxxxxxxxxxxxxxxxxxxxxxxxxxxxxxxxxxxxxxxxxxxxxxxxxxxxxxxxxxxxxxx"
  = "c71bd109227e23434ecf71fd0a344a209136c79ae5a0bda2b5ca442d699a3cd9".
Proof. vm_compute. reflexivity. Qed.
Example hmac_fox :
  SHA256.hmac_hexdigest "key" "The quick brown fox jumps over the lazy dog"
  = "f7bc83f430538424b13298e6aa6fb143ef4d59a14946175997479dbc2d1a3cd8".
Proof. vm_compute. reflexivity. Qed.
Example hmac_long_key :
  SHA256.hmac_hexdigest
    "kkkkkkkkkkkkkkkkkkkkkkkkkkkkkkkkkkkkkkkkkkkkkkkkkkkkkkkkkkkkkkkkkkkkkk" "body"
  = "eea532da443715baf2fcf7b045e3273c9cd90ec4524c7e4471c8116eaa406e54".
Proof. vm_compute. reflexivity. Qed.

(* ----------------------------------------------------------------- *)
(** *** Generic list and string facts *)

Lemma str_app_nil_r (s : string) : (s ++ "")%string = s.
Proof. induction s; simpl; congruence. Qed.

Lemma str_app_assoc (a b c : string) : (a ++ (b ++ c))%string = ((a ++ b) ++ c)%string.
Proof. induction a; simpl; congruence. Qed.

Lemma existsb_eqb_In (x : string) (l : list string) :
  existsb (String.eqb x) l = true <-> In x l.
Proof.
  rewrite existsb_exists. split.
  - intros [y [Hy Heq]]. apply String.eqb_eq in Heq. subst. exact Hy.
  - intros H. exists x. split; [exact H | apply String.eqb_refl].
Qed.

Lemma concat_contains_member (sep line : string) (lines : list string) :
  In line lines -> Py.contains (Py.join sep lines) line.
Proof.
  unfold Py.join, Py.contains. induction lines as [|l ls IH]; simpl; [tauto|].
  intros [<-|Hin].
  - destruct ls as [|l' ls'].
    + exists ""%string, ""%string. simpl. now rewrite str_app_nil_r.
    + exists ""%string, (sep ++ String.concat sep (l' :: ls'))%string. reflexivity.
  - destruct (IH Hin) as [pre [post Heq]].
    destruct ls as [|l' ls']; [destruct Hin|].
    exists (l ++ sep ++ pre)%string, post.
    rewrite Heq. now rewrite !str_app_assoc.
Qed.

Lemma contains_append_l (s t sub : string) :
  Py.contains t sub -> Py.contains (s ++ t) sub.
Proof.
  intros [pre [post ->]]. exists (s ++ pre)%string, post.
  now rewrite !str_app_assoc.
Qed.

Lemma contains_trans (s t u : string) :
  Py.contains s t -> Py.contains t u -> Py.contains s u.
Proof.
  intros [p1 [q1 ->]] [p2 [q2 ->]]. exists (p1 ++ p2)%string, (q2 ++ q1)%string.
  now rewrite !str_app_assoc.
Qed.

Lemma contains_refl (s : string) : Py.contains s s.
Proof. exists ""%string, ""%string. simpl. now rewrite str_app_nil_r. Qed.

(* ----------------------------------------------------------------- *)
(** *** Provider fallback *)

Module ProviderFactoryFacts.
Import ProviderFactory.

Definition nl : string := String (ascii_of_nat 10) EmptyString.

Lemma error_line_in_message (tried : list string) (errors : list (string * string)) (k e : string) :
  (k = "OllamaProvider" \/ k = "GeminiProvider")%string ->
  dict_get errors k = Some e ->
  Py.contains (error_message tried errors) ("Error: " ++ e).
Proof.
  intros Hk Hget.
  apply (contains_trans _ ("  Error: " ++ e)%string).
  - unfold error_message. apply concat_contains_member.
    destruct Hk as [-> | ->]; rewrite Hget; simpl.
    + repeat first [left; reflexivity | right].
    + destruct (dict_get errors "OllamaProvider"); simpl;
        repeat first [left; reflexivity | right].
  - exists "  "%string, ""%string. simpl. now rewrite str_app_nil_r.
Qed.

Lemma tried_line_in_message (tried : list string) (errors : list (string * string)) :
  Py.contains (error_message tried errors) ("Tried: " ++ Py.join ", " tried).
Proof.
  apply (contains_trans _ ("No AI providers available. Tried: " ++ Py.join ", " tried)%string).
  - unfold error_message. apply concat_contains_member. simpl. now left.
  - exists "No AI providers available. "%string, ""%string.
    simpl. now rewrite str_app_nil_r.
Qed.

End ProviderFactoryFacts.

(** C1: [create_provider] tries the classes in order (Gemini then
    Ollama, reversed when [prefer_local]); the first one whose constructor
    succeeds and whose [is_available()] returns [True] is returned; a raising
    constructor, a raising [is_available()] or [False] moves on; when every
    class fails it raises a [RuntimeError] whose message lists the tried
    classes and the failure reason of each. *)
Theorem C1_create_provider_fallback (prefer_local : bool)
    (beh : ProviderFactory.provider_class -> ProviderFactory.behaviour) :
  let cands := ProviderFactory.provider_classes prefer_local in
  cands = (if prefer_local then rev [ProviderFactory.GeminiProvider; ProviderFactory.OllamaProvider]
           else [ProviderFactory.GeminiProvider; ProviderFactory.OllamaProvider]) /\
  (forall pre c post, cands = (pre ++ c :: post)%list ->
     Forall (fun q => ProviderFactory.failure_reason q (beh q) <> None) pre ->
     beh c = ProviderFactory.IsAvailable true ->
     ProviderFactory.create_provider beh prefer_local = ProviderFactory.Provider c) /\
  (Forall (fun q => ProviderFactory.failure_reason q (beh q) <> None) cands ->
     exists msg, ProviderFactory.create_provider beh prefer_local = ProviderFactory.RuntimeError msg /\
       Py.contains msg ("Tried: " ++ Py.join ", " (map ProviderFactory.provider_name cands))%string /\
       (forall q e, In q cands -> ProviderFactory.failure_reason q (beh q) = Some e ->
          Py.contains msg ("Error: " ++ e)%string)).
Proof.
  intros cands. split; [destruct prefer_local; reflexivity|]. split.
  - intros pre c post Hc Hpre Hbeh.
    unfold ProviderFactory.create_provider. fold cands. rewrite Hc.
    clear Hc. generalize (@nil string) (@nil (string * string)).
    induction Hpre as [|q pre' Hq Hpre' IH]; intros tried errors; simpl.
    + now rewrite Hbeh.
    + destruct (beh q) as [e|e|[|]] eqn:Eq; simpl in Hq; try congruence; apply IH.
  - intros Hall.
    assert (Hfail : forall q, In q cands -> ProviderFactory.failure_reason q (beh q) <> None)
      by (apply Forall_forall; exact Hall).
    unfold ProviderFactory.create_provider. fold cands.
    destruct prefer_local; subst cands; simpl in *;
      pose proof (Hfail ProviderFactory.GeminiProvider ltac:(tauto)) as HG;
      pose proof (Hfail ProviderFactory.OllamaProvider ltac:(tauto)) as HO;
      destruct (beh ProviderFactory.GeminiProvider) as [eg|eg|[|]] eqn:EG; simpl in HG;
      try congruence;
      destruct (beh ProviderFactory.OllamaProvider) as [eo|eo|[|]] eqn:EO; simpl in HO;
      try congruence;
      eexists; (split; [reflexivity|]);
      (split; [apply ProviderFactoryFacts.tried_line_in_message|]);
      intros q e Hq He; destruct Hq as [<-|[<-|[]]]; rewrite ?EG, ?EO in He; simpl in He;
      injection He as <-;
      first
        [ apply (ProviderFactoryFacts.error_line_in_message _ _ "OllamaProvider");
          [tauto | reflexivity]
        | apply (ProviderFactoryFacts.error_line_in_message _ _ "GeminiProvider");
          [tauto | reflexivity] ].
Qed.

Lemma C1_witness :
  ProviderFactory.create_provider
    (fun c => match c with
              | ProviderFactory.OllamaProvider => ProviderFactory.CtorRaises "connection refused"
              | ProviderFactory.GeminiProvider => ProviderFactory.IsAvailable true
              end) true = ProviderFactory.Provider ProviderFactory.GeminiProvider /\
  exists msg,
    ProviderFactory.create_provider
      (fun c => match c with
                | ProviderFactory.OllamaProvider => ProviderFactory.IsAvailable false
                | ProviderFactory.GeminiProvider => ProviderFactory.CtorRaises "GEMINI_API_KEY not set"
                end) false = ProviderFactory.RuntimeError msg /\
    Py.contains msg "Error: GEMINI_API_KEY not set".
Proof.
  split.
  - destruct (C1_create_provider_fallback true
      (fun c => match c with
                | ProviderFactory.OllamaProvider => ProviderFactory.CtorRaises "connection refused"
                | ProviderFactory.GeminiProvider => ProviderFactory.IsAvailable true
                end)) as [_ [H _]].
    apply (H [ProviderFactory.OllamaProvider] ProviderFactory.GeminiProvider []);
      [reflexivity | constructor; [discriminate | constructor] | reflexivity].
  - destruct (C1_create_provider_fallback false
      (fun c => match c with
                | ProviderFactory.OllamaProvider => ProviderFactory.IsAvailable false
                | ProviderFactory.GeminiProvider => ProviderFactory.CtorRaises "GEMINI_API_KEY not set"
                end)) as [_ [_ H]].
    destruct H as [msg [Hmsg [_ Herr]]].
    + repeat constructor; discriminate.
    + exists msg. split; [exact Hmsg|].
      apply (Herr ProviderFactory.GeminiProvider); [left; reflexivity | reflexivity].
Defined.

(* ----------------------------------------------------------------- *)
(** *** Deduplication *)

Module AggregatorFacts.
Import Aggregator.
Open Scope list_scope.

(** [l] is obtained from [l'] by deleting elements, order kept. *)
Inductive subseq {A} : list A -> list A -> Prop :=
  | subseq_nil : subseq [] []
  | subseq_keep x l l' : subseq l l' -> subseq (x :: l) (x :: l')
  | subseq_drop x l l' : subseq l l' -> subseq l (x :: l').

Lemma subseq_snoc_keep {A} (l l' : list A) x :
  subseq l l' -> subseq (l ++ [x]) (l' ++ [x]).
Proof.
  induction 1; simpl; constructor; auto. constructor.
Qed.

Lemma subseq_snoc_drop {A} (l l' : list A) x :
  subseq l l' -> subseq l (l' ++ [x]).
Proof.
  induction 1; simpl; constructor; auto. constructor.
Qed.

Lemma ForallOrdPairs_snoc {A} (R : A -> A -> Prop) (l : list A) (a : A) :
  ForallOrdPairs R l -> Forall (fun x => R x a) l -> ForallOrdPairs R (l ++ [a]).
Proof.
  induction 1 as [|x l Hx Hl IH]; intros Hall; simpl.
  - repeat constructor.
  - inversion Hall; subst. constructor.
    + apply Forall_app. split; [exact Hx | repeat constructor; assumption].
    + apply IH. assumption.
Qed.

Lemma set_mem_app (x : string) (a b : list string) :
  set_mem x (a ++ b) = set_mem x a || set_mem x b.
Proof. unfold set_mem. apply existsb_app. Qed.

(** The state of the loop after a prefix is given by the items it kept. *)
Lemma dedup_loop_snoc (l : list item) (it : item) (su sh : list string) :
  dedup_loop (l ++ [it]) su sh =
  let k := dedup_loop l su sh in
  k ++ (if (negb (String.eqb (link it) "") && set_mem (link it) (map link k ++ su))
           || set_mem (hash_content it) (map hash_content k ++ sh)
        then [] else [it]).
Proof.
  revert su sh. induction l as [|x l IH]; intros su sh; simpl.
  - destruct (negb (String.eqb (link it) "") && set_mem (link it) su) eqn:E1; simpl.
    + reflexivity.
    + destruct (set_mem (hash_content it) sh); reflexivity.
  - destruct (negb (String.eqb (link x) "") && set_mem (link x) su) eqn:E1; [apply IH|].
    destruct (set_mem (hash_content x) sh) eqn:E2; [apply IH|].
    rewrite IH. simpl. f_equal. f_equal.
    rewrite !set_mem_app. simpl. unfold set_mem at 2 4. simpl.
    unfold set_mem at 3 4. simpl.
    set (k := dedup_loop l (link x :: su) (hash_content x :: sh)).
    unfold set_mem.
    destruct (existsb (String.eqb (link it)) (map link k));
    destruct (String.eqb (link it) (link x));
    destruct (existsb (String.eqb (link it)) su);
    destruct (existsb (String.eqb (hash_content it)) (map hash_content k));
    destruct (String.eqb (hash_content it) (hash_content x));
    destruct (existsb (String.eqb (hash_content it)) sh); reflexivity.
Qed.

Lemma deduplicate_snoc (l : list item) (it : item) :
  deduplicate (l ++ [it]) =
  deduplicate l ++ (if is_duplicate (deduplicate l) it then [] else [it]).
Proof.
  unfold deduplicate, is_duplicate. rewrite dedup_loop_snoc. simpl.
  now rewrite !app_nil_r.
Qed.

End AggregatorFacts.

(** C2 (counterexample): [B] and [C] carry the same non-empty link, yet the
    later one, [C], survives: [B] was dropped as a content duplicate of [A],
    so its link never entered [seen_urls]. *)
Lemma C2_counterexample :
  let out := Aggregator.deduplicate [AggregatorExamples.A; AggregatorExamples.B; AggregatorExamples.C] in
  out = [AggregatorExamples.A; AggregatorExamples.C] /\
  Aggregator.link AggregatorExamples.B = Aggregator.link AggregatorExamples.C /\
  Aggregator.link AggregatorExamples.B <> ""%string /\
  In AggregatorExamples.C out.
Proof.
  vm_compute. repeat split; try reflexivity; try discriminate. right; left; reflexivity.
Qed.

(** C2 (amended): [_deduplicate] keeps an item exactly when no earlier
    surviving item has the same non-empty [link] and none has the same MD5
    hash of ["title|description"]; so the survivors are a subsequence of the
    input in their original order, and no two survivors share a non-empty
    link, a content hash, or both title and description. *)
Theorem C2_deduplicate_kept_items (l : list Aggregator.item) :
  (forall it, Aggregator.deduplicate (l ++ [it]) =
              Aggregator.deduplicate l ++
              (if Aggregator.is_duplicate (Aggregator.deduplicate l) it then [] else [it])) /\
  AggregatorFacts.subseq (Aggregator.deduplicate l) l /\
  ForallOrdPairs
    (fun x y => (Aggregator.link x = Aggregator.link y -> Aggregator.link x = ""%string) /\
                Aggregator.hash_content x <> Aggregator.hash_content y /\
                (Aggregator.title x, Aggregator.description x) <>
                (Aggregator.title y, Aggregator.description y))
    (Aggregator.deduplicate l).
Proof.
  split; [intros it; apply AggregatorFacts.deduplicate_snoc|].
  induction l as [|it l [IHsub IHpairs]] using rev_ind.
  - split; constructor.
  - rewrite AggregatorFacts.deduplicate_snoc.
    destruct (Aggregator.is_duplicate (Aggregator.deduplicate l) it) eqn:Edup.
    + rewrite app_nil_r. split; [|exact IHpairs].
      now apply AggregatorFacts.subseq_snoc_drop.
    + split; [now apply AggregatorFacts.subseq_snoc_keep|].
      apply AggregatorFacts.ForallOrdPairs_snoc; [exact IHpairs|].
      unfold Aggregator.is_duplicate, Aggregator.set_mem in Edup.
      apply orb_false_iff in Edup as [Elink Ehash].
      apply Forall_forall. intros x Hx.
      assert (Hh : Aggregator.hash_content x <> Aggregator.hash_content it).
      { intros Heq. rewrite <- Heq in Ehash.
        assert (existsb (String.eqb (Aggregator.hash_content x))
                  (map Aggregator.hash_content (Aggregator.deduplicate l)) = true)
          by (apply existsb_eqb_In, in_map, Hx).
        congruence. }
      split; [|split; [exact Hh|]].
      * intros Hl. destruct (String.eqb (Aggregator.link it) "") eqn:Eempty.
        -- apply String.eqb_eq in Eempty. congruence.
        -- simpl in Elink. rewrite <- Hl in Elink.
           assert (existsb (String.eqb (Aggregator.link x))
                     (map Aggregator.link (Aggregator.deduplicate l)) = true)
             by (apply existsb_eqb_In, in_map, Hx).
           congruence.
      * intros Htd. apply Hh. unfold Aggregator.hash_content.
        injection Htd as -> ->. reflexivity.
Qed.

Example temps_1 : Domain.extract_temperatures (Domain.u "from 400°C to 5000 degrees Celsius, 12 C") = [400; 5000; 12]%Z.
Proof. vm_compute. reflexivity. Qed.
Example temps_2 : Domain.extract_temperatures (Domain.u "٨٠٠°C and 12 degrees Celsius") = [800; 12]%Z.
Proof. vm_compute. reflexivity. Qed.
Example pct_1 : Domain.extract_percentages (Domain.u "60% bio-oil, 50 percent syngas, 40 %") = [60; 50; 40]%Z.
Proof. vm_compute. reflexivity. Qed.
Example title_1 : Unicode.encode (Unicode.title (Domain.u "fast pyrolysis ßa")) = "Fast Pyrolysis Ssa".
Proof. vm_compute. reflexivity. Qed.
Example lower_1 : Domain.lower "MÜNCHEN ΟΔΟΣ İx" = "münchen οδος i̇x".
Proof. vm_compute. reflexivity. Qed.
Example v1 : Domain.validate_temperature_claim Domain.test_config "pyrolysis at 850°C"
  = Domain.mkVerdict false "Pyrolysis temperature 850°C outside typical range 300.0-600.0°C".
Proof. vm_compute. reflexivity. Qed.
Example v2 : Domain.validate_temperature_claim Domain.test_config "from 400°C to 5000°C"
  = Domain.mkVerdict false "Temperature 5000°C outside typical thermal_processing range (~300.0-900.0°C)".
Proof. vm_compute. reflexivity. Qed.

(* ----------------------------------------------------------------- *)
(** *** Temperature and yield checks *)

Module DomainFacts.
Import Domain.
Open Scope Z_scope.

(** Some configured range contains [t]: [range_min <= t <= range_max]. *)
Definition in_some_range (cfg : DomainConfig) (t : Z) : Prop :=
  exists p lo hi, In (p, (lo, hi)) (temperature_ranges cfg) /\ in_range lo hi t = true.

(** Every range whose process name (underscores as spaces) occurs in the
    lower-cased text contains [t]. *)
Definition named_ranges_contain (cfg : DomainConfig) (text : string) (t : Z) : Prop :=
  forall p lo hi, In (p, (lo, hi)) (temperature_ranges cfg) ->
    contains (Unicode.lower (Unicode.decode text)) (underscores_to_spaces (Unicode.decode p)) = true ->
    in_range lo hi t = true.

(** [t] is more than 100 below the finite bound [lo], and the float
    subtraction [lo - 100] is exact. *)
Definition far_below (lo : PyFloat.float) (t : Z) : Prop :=
  exists q q', PyFloat.value lo = Some q /\
    PyFloat.value (PyFloat.sub lo (PyFloat.of_small 100)) = Some q' /\
    (q' == q - inject_Z 100)%Q /\ (inject_Z t < q - inject_Z 100)%Q.

(** [t] is more than 200 above the finite bound [hi], and the float
    addition [hi + 200] is exact. *)
Definition far_above (hi : PyFloat.float) (t : Z) : Prop :=
  exists q q', PyFloat.value hi = Some q /\
    PyFloat.value (PyFloat.add hi (PyFloat.of_small 200)) = Some q' /\
    (q' == q + inject_Z 200)%Q /\ (q + inject_Z 200 < inject_Z t)%Q.

Lemma le_float_int_value (f : PyFloat.float) (q : Q) (t : Z) :
  PyFloat.value f = Some q -> PyFloat.le_float_int f t = Qle_bool q (inject_Z t).
Proof.
  intros H. unfold PyFloat.le_float_int.
  destruct f; try discriminate; rewrite H; reflexivity.
Qed.

Lemma le_int_float_value (f : PyFloat.float) (q : Q) (t : Z) :
  PyFloat.value f = Some q -> PyFloat.le_int_float t f = Qle_bool (inject_Z t) q.
Proof.
  intros H. unfold PyFloat.le_int_float.
  destruct f; try discriminate; rewrite H; reflexivity.
Qed.

Lemma Qle_bool_false_lt (x y : Q) : (y < x)%Q -> Qle_bool x y = false.
Proof.
  intros H. apply not_true_iff_false. intros Hb. apply Qle_bool_iff in Hb.
  apply (Qlt_not_le y x); assumption.
Qed.

Lemma fold_pick_in (f : PyFloat.float -> PyFloat.float -> bool) (rest : list PyFloat.float) x :
  In (fold_left (fun cur y => if f cur y then y else cur) rest x) (x :: rest).
Proof.
  revert x. induction rest as [|y rest IH]; intros x; simpl; [now left|].
  destruct (f x y).
  - destruct (IH y) as [H|H]; [right; left; exact H | right; right; exact H].
  - destruct (IH x) as [H|H]; [left; exact H | right; right; exact H].
Qed.

Lemma min_in (x : PyFloat.float) (rest : list PyFloat.float) : In (PyFloat.min x rest) (x :: rest).
Proof. apply (fold_pick_in (fun cur y => SFltb y cur)). Qed.

Lemma max_in (x : PyFloat.float) (rest : list PyFloat.float) : In (PyFloat.max x rest) (x :: rest).
Proof. apply (fold_pick_in (fun cur y => SFltb cur y)). Qed.

Lemma validate_temperature_in_range (cfg : DomainConfig) (t : Z) :
  in_some_range cfg t -> validate_temperature cfg t = true.
Proof.
  intros [p [lo [hi [Hin Hr]]]]. unfold validate_temperature.
  destruct (temperature_ranges cfg) as [|r0 rs] eqn:E; [destruct Hin|].
  replace (existsb _ _) with true; [reflexivity|].
  symmetry. apply existsb_exists. exists (p, (lo, hi)). split; [exact Hin | exact Hr].
Qed.

Lemma validate_temperature_far (cfg : DomainConfig) (t : Z) :
  temperature_ranges cfg <> [] ->
  (Forall (fun r => far_below (range_min r) t) (temperature_ranges cfg) \/
   Forall (fun r => far_above (range_max r) t) (temperature_ranges cfg)) ->
  validate_temperature cfg t = false.
Proof.
  intros Hne Hfar. unfold validate_temperature.
  destruct (temperature_ranges cfg) as [|r0 rs] eqn:E; [congruence|].
  set (ranges := r0 :: rs) in *.
  assert (Hnone : existsb (fun r => in_range (range_min r) (range_max r) t) ranges = false).
  { apply not_true_iff_false. intros Hex. apply existsb_exists in Hex as [r [Hr Hb]].
    unfold in_range in Hb. apply andb_true_iff in Hb as [H1 H2].
    destruct Hfar as [Hf|Hf]; rewrite Forall_forall in Hf; specialize (Hf r Hr);
      destruct Hf as [q [q' [Hq [_ [_ Hlt]]]]].
    - rewrite (le_float_int_value _ q) in H1 by exact Hq.
      rewrite Qle_bool_false_lt in H1; [discriminate|].
      apply Qlt_trans with (q - inject_Z 100)%Q; [exact Hlt|].
      unfold Qminus. rewrite <- (Qplus_0_r q) at 2. apply Qplus_lt_r. reflexivity.
    - rewrite (le_int_float_value _ q) in H2 by exact Hq.
      rewrite Qle_bool_false_lt in H2; [discriminate|].
      apply Qlt_trans with (q + inject_Z 200)%Q; [|exact Hlt].
      rewrite <- (Qplus_0_r q) at 1. apply Qplus_lt_r. reflexivity. }
  rewrite Hnone. apply andb_false_iff.
  destruct Hfar as [Hf|Hf]; rewrite Forall_forall in Hf; [left|right].
  - destruct (in_map_iff range_min ranges (PyFloat.min (range_min r0) (map range_min rs)))
      as [Hm _].
    destruct (Hm (min_in _ _)) as [r [Hr Hin]].
    destruct (Hf r Hin) as [q [q' [_ [Hq' [Heq Hlt]]]]]. rewrite Hr in Hq'.
    rewrite (le_float_int_value _ q') by exact Hq'.
    apply Qle_bool_false_lt. rewrite Heq. exact Hlt.
  - destruct (in_map_iff range_max ranges (PyFloat.max (range_max r0) (map range_max rs)))
      as [Hm _].
    destruct (Hm (max_in _ _)) as [r [Hr Hin]].
    destruct (Hf r Hin) as [q [q' [_ [Hq' [Heq Hlt]]]]]. rewrite Hr in Hq'.
    rewrite (le_int_float_value _ q') by exact Hq'.
    apply Qle_bool_false_lt. rewrite Heq. exact Hlt.
Qed.

Lemma process_match_loop_none (tl : list Z) (t : Z)
    (rs : list (string * (PyFloat.float * PyFloat.float))) :
  (forall p lo hi, In (p, (lo, hi)) rs ->
     contains tl (underscores_to_spaces (Unicode.decode p)) = true -> in_range lo hi t = true) ->
  process_match_loop tl t rs = None.
Proof.
  induction rs as [|[p [lo hi]] rs IH]; intros H; simpl; [reflexivity|].
  destruct (contains tl (underscores_to_spaces (Unicode.decode p))) eqn:Ec.
  - rewrite (H p lo hi (or_introl eq_refl) Ec). simpl.
    apply IH. intros; eapply H; eauto. right; eassumption.
  - apply IH. intros; eapply H; eauto. right; eassumption.
Qed.

Lemma claim_loop_valid (cfg : DomainConfig) (text : string) (ts : list Z) :
  Forall (fun t => in_some_range cfg t /\ named_ranges_contain cfg text t) ts ->
  valid (claim_loop cfg (Unicode.decode text) ts) = true.
Proof.
  induction 1 as [|t ts [Hr Hn] _ IH]; simpl; [reflexivity|].
  unfold check_temperature_in_range. rewrite validate_temperature_in_range by exact Hr.
  unfold check_temperature_process_match. rewrite process_match_loop_none by exact Hn.
  exact IH.
Qed.

Lemma claim_loop_invalid (cfg : DomainConfig) (text : list Z) (ts : list Z) (t : Z) :
  In t ts -> validate_temperature cfg t = false ->
  valid (claim_loop cfg text ts) = false.
Proof.
  induction ts as [|t' ts IH]; intros Hin Hv; [destruct Hin|]. simpl.
  destruct (check_temperature_in_range cfg t') eqn:E1; [reflexivity|].
  destruct (check_temperature_process_match cfg t' text); [reflexivity|].
  destruct Hin as [<-|Hin].
  - unfold check_temperature_in_range in E1. rewrite Hv in E1.
    destruct (temperature_ranges cfg); discriminate.
  - apply IH; assumption.
Qed.

End DomainFacts.

(** C3 (counterexample): three configurations where the claim fails.
    With the ranges of the test suite, pyrolysis [300, 600] and
    gasification [600, 900], the only temperature of
    ["gasification at 500°C"] lies inside the pyrolysis range, yet the claim
    is invalid: the text names gasification, whose range excludes 500.
    With the one range [2^60, 2^61], the temperature 2^60 - 120 is more than
    100 below the minimum, yet valid: [2^60 - 100] rounds to [2^60 - 128].
    With the one range [-5, -1e-20], the temperature 200 is more than 200
    above the maximum, yet valid: [-1e-20 + 200] rounds to [200.0]. *)
Lemma C3_counterexample :
  (Domain.extract_temperatures (Domain.u "gasification at 500°C") = [500%Z] /\
   DomainFacts.in_some_range Domain.test_config 500 /\
   Domain.validate_temperature_claim Domain.test_config "gasification at 500°C"
   = Domain.mkVerdict false "Gasification temperature 500°C outside typical range 600.0-900.0°C") /\
  (let cfg := Domain.mkConfig "thermal_processing"
                [("pyrolysis", (Domain.fl (2 ^ 60), Domain.fl (2 ^ 61)))] in
   Domain.extract_temperatures (Domain.u "1152921504606846856°C") = [(2 ^ 60 - 120)%Z] /\
   PyFloat.value (Domain.fl (2 ^ 60)) = Some (inject_Z (2 ^ 60)) /\
   (2 ^ 60 - 120 < 2 ^ 60 - 100)%Z /\
   Domain.validate_temperature_claim cfg "1152921504606846856°C"
   = Domain.mkVerdict true "Temperature claims are reasonable") /\
  (let hi := SFopp (PyFloat.round_pos 1 (10 ^ 20)) in
   let cfg := Domain.mkConfig "thermal_processing" [("pyrolysis", (Domain.fl (-5), hi))] in
   Domain.extract_temperatures (Domain.u "200°C") = [200%Z] /\
   (exists q, PyFloat.value hi = Some q /\ (q < 0)%Q /\ (q + inject_Z 200 < inject_Z 200)%Q) /\
   Domain.validate_temperature_claim cfg "200°C"
   = Domain.mkVerdict true "Temperature claims are reasonable").
Proof.
  split; [split; [vm_compute; reflexivity|split]|split].
  - exists "pyrolysis"%string, (Domain.fl 300), (Domain.fl 600).
    split; [left; reflexivity | vm_compute; reflexivity].
  - vm_compute. reflexivity.
  - cbv zeta. split; [vm_compute; reflexivity|]. split; [vm_compute; reflexivity|].
    split; [lia | vm_compute; reflexivity].
  - cbv zeta. split; [vm_compute; reflexivity|]. split; [|vm_compute; reflexivity].
    eexists. split; [vm_compute; reflexivity|]. split; vm_compute; reflexivity.
Qed.

(** C3 (amended): for a non-empty set of ranges, [validate_temperature_claim]
    is valid when every extracted temperature lies inside some configured
    range and inside the range of every process named in the lower-cased
    text; it is invalid as soon as one extracted temperature is more than
    100 below every range minimum, each minimum minus 100 being exact in
    floating point, or more than 200 above every range maximum, each maximum
    plus 200 being exact; and with pyrolysis = [300, 600] the text
    ["pyrolysis at 800°C"] is invalid with a reason naming 800°C and the
    300.0-600.0 range. *)
Theorem C3_validate_temperature_claim (cfg : Domain.DomainConfig) (text : string) :
  Domain.temperature_ranges cfg <> [] ->
  (Forall (fun t => DomainFacts.in_some_range cfg t /\ DomainFacts.named_ranges_contain cfg text t)
          (Domain.extract_temperatures (Unicode.decode text)) ->
   Domain.valid (Domain.validate_temperature_claim cfg text) = true) /\
  (forall t, In t (Domain.extract_temperatures (Unicode.decode text)) ->
   (Forall (fun r => DomainFacts.far_below (Domain.range_min r) t) (Domain.temperature_ranges cfg) \/
    Forall (fun r => DomainFacts.far_above (Domain.range_max r) t) (Domain.temperature_ranges cfg)) ->
   Domain.valid (Domain.validate_temperature_claim cfg text) = false) /\
  (let v := Domain.validate_temperature_claim Domain.pyrolysis_only "pyrolysis at 800°C" in
   v = Domain.mkVerdict false "Pyrolysis temperature 800°C outside typical range 300.0-600.0°C" /\
   Py.contains_b (Domain.reason v) "800°C" = true /\
   Py.contains_b (Domain.reason v) "300" = true /\
   Py.contains_b (Domain.reason v) "600" = true).
Proof.
  intros Hne. split; [|split].
  - intros Hall. unfold Domain.validate_temperature_claim.
    destruct (Domain.extract_temperatures (Unicode.decode text)) as [|t ts] eqn:E; [reflexivity|].
    rewrite <- E. apply DomainFacts.claim_loop_valid. rewrite E. exact Hall.
  - intros t Hin Hfar. unfold Domain.validate_temperature_claim.
    destruct (Domain.extract_temperatures (Unicode.decode text)) as [|t0 ts] eqn:E; [destruct Hin|].
    rewrite <- E. rewrite <- E in Hin.
    apply (DomainFacts.claim_loop_invalid _ _ _ t Hin).
    now apply DomainFacts.validate_temperature_far.
  - vm_compute. repeat split; reflexivity.
Qed.

Lemma C3_witness :
  Domain.valid (Domain.validate_temperature_claim Domain.test_config "from 400°C to 500°C") = true /\
  Domain.valid (Domain.validate_temperature_claim Domain.test_config "from 400°C to 5000°C") = false.
Proof.
  destruct (C3_validate_temperature_claim Domain.test_config "from 400°C to 500°C"
              ltac:(discriminate)) as [Hok _].
  destruct (C3_validate_temperature_claim Domain.test_config "from 400°C to 5000°C"
              ltac:(discriminate)) as [_ [Hbad _]].
  split.
  - apply Hok.
    replace (Domain.extract_temperatures (Unicode.decode "from 400°C to 500°C")) with [400; 500]%Z
      by (vm_compute; reflexivity).
    constructor; [|constructor; [|constructor]]; split.
    + exists "pyrolysis"%string, (Domain.fl 300), (Domain.fl 600).
      split; [left; reflexivity | vm_compute; reflexivity].
    + intros p lo hi Hin Hc. simpl in Hin.
      destruct Hin as [Hin|[Hin|[]]]; injection Hin as <- <- <-; vm_compute in Hc; discriminate.
    + exists "pyrolysis"%string, (Domain.fl 300), (Domain.fl 600).
      split; [left; reflexivity | vm_compute; reflexivity].
    + intros p lo hi Hin Hc. simpl in Hin.
      destruct Hin as [Hin|[Hin|[]]]; injection Hin as <- <- <-; vm_compute in Hc; discriminate.
  - apply (Hbad 5000%Z).
    + vm_compute. right; left; reflexivity.
    + right. unfold Domain.test_config. cbn [Domain.temperature_ranges].
      apply Forall_forall. intros r Hr. destruct Hr as [<-|[<-|[]]];
        (eexists; eexists; split; [vm_compute; reflexivity|];
         split; [vm_compute; reflexivity|]; split; vm_compute; reflexivity).
Defined.

(** C4 (counterexample): two percentages of 4300 nines each are read (each
    run is within the digit limit), and their sum has 4301 digits, so
    formatting it in the reason raises [ValueError] instead of returning an
    invalid verdict. *)
Lemma C4_counterexample :
  let nines := String.concat "" (repeat "9" 4300) in
  let text := (nines ++ "% " ++ nines ++ "%")%string in
  Domain.extract_percentages (Unicode.decode text) = [(10 ^ 4300 - 1)%Z; (10 ^ 4300 - 1)%Z] /\
  (105 < Domain.sum [(10 ^ 4300 - 1)%Z; (10 ^ 4300 - 1)%Z])%Z /\
  Domain.check_mass_balance text = Domain.ValueError Domain.int_limit_msg.
Proof.
  cbv zeta. split; [vm_compute; reflexivity|]. split; [vm_compute; reflexivity|].
  vm_compute. reflexivity.
Qed.

(** C4 (amended): with [ps] the percentages read from the text (the runs
    of decimal digits of at most 4300 digits followed by [%] or [percent]),
    [check_mass_balance] is valid when they sum to at most 105; when they sum
    to more than 105 it is invalid with the reason
    ["Claimed yields sum to <sum>%, exceeding 100%"] if the sum has at most
    4300 digits, and raises [ValueError] otherwise; for ["60%, 50%, 40%"]
    the reason contains ["150%"]. *)
Theorem C4_check_mass_balance (text : string) :
  let ps := Domain.extract_percentages (Unicode.decode text) in
  ((Domain.sum ps <= 105)%Z ->
     exists r, Domain.check_mass_balance text = Domain.Returned (Domain.mkVerdict true r)) /\
  ((105 < Domain.sum ps)%Z ->
     (Z.of_nat (String.length (Py.str_of_Z (Domain.sum ps))) <= Domain.int_max_str_digits)%Z ->
     Domain.check_mass_balance text =
     Domain.Returned (Domain.mkVerdict false ("Claimed yields sum to " ++ Py.str_of_Z (Domain.sum ps)
                                              ++ "%, exceeding 100%")%string)) /\
  ((105 < Domain.sum ps)%Z ->
     (Domain.int_max_str_digits < Z.of_nat (String.length (Py.str_of_Z (Domain.sum ps))))%Z ->
     Domain.check_mass_balance text = Domain.ValueError Domain.int_limit_msg) /\
  Domain.check_mass_balance "60%, 50%, 40%"
  = Domain.Returned (Domain.mkVerdict false "Claimed yields sum to 150%, exceeding 100%").
Proof.
  intros ps. split; [|split; [|split]].
  - intros Hle. unfold Domain.check_mass_balance. fold ps.
    destruct ps as [|p rest]; [eexists; reflexivity|].
    replace (105 <? Domain.sum (p :: rest))%Z with false by (symmetry; apply Z.ltb_ge; lia).
    eexists. reflexivity.
  - intros Hgt Hd. unfold Domain.check_mass_balance. fold ps.
    destruct ps as [|p rest]; [unfold Domain.sum in Hgt; simpl in Hgt; lia|].
    replace (105 <? Domain.sum (p :: rest))%Z with true by (symmetry; apply Z.ltb_lt; lia).
    unfold Domain.str_int. rewrite Z.abs_eq by lia.
    replace (Domain.int_max_str_digits <? _)%Z with false by (symmetry; apply Z.ltb_ge; lia).
    reflexivity.
  - intros Hgt Hd. unfold Domain.check_mass_balance. fold ps.
    destruct ps as [|p rest]; [unfold Domain.sum in Hgt; simpl in Hgt; lia|].
    replace (105 <? Domain.sum (p :: rest))%Z with true by (symmetry; apply Z.ltb_lt; lia).
    unfold Domain.str_int. rewrite Z.abs_eq by lia.
    replace (Domain.int_max_str_digits <? _)%Z with true by (symmetry; apply Z.ltb_lt; lia).
    reflexivity.
  - vm_compute. reflexivity.
Qed.

Lemma C4_witness :
  (exists r, Domain.check_mass_balance "55% bio-oil, 35% syngas, 15% biochar"
             = Domain.Returned (Domain.mkVerdict true r)) /\
  Domain.check_mass_balance "60% bio-oil, 50% syngas, 40% biochar"
  = Domain.Returned (Domain.mkVerdict false "Claimed yields sum to 150%, exceeding 100%").
Proof.
  split.
  - destruct (C4_check_mass_balance "55% bio-oil, 35% syngas, 15% biochar") as [Hle _].
    apply Hle. vm_compute. discriminate.
  - destruct (C4_check_mass_balance "60% bio-oil, 50% syngas, 40% biochar") as [_ [Hgt _]].
    apply Hgt; vm_compute; [reflexivity | discriminate].
Defined.

Example gen_id_1 : Tracker.generate_id Tracker.example_item = "8f0db94c268bb7a5".
Proof. vm_compute. reflexivity. Qed.

(* ----------------------------------------------------------------- *)
(** *** Tracker *)

Module TrackerFacts.
Import Tracker.

(** [v] is a dict. *)
Definition is_dict (v : jv) : bool := match v with VDict _ => true | _ => false end.

(** Every element of the list is a dict, as the tracker writes them. *)
Definition all_dicts (l : list jv) : Prop := Forall (fun v => is_dict v = true) l.

(** The list holds a dict whose ["id"] is [i]. *)
Definition holds_id (l : list jv) (i : string) : Prop :=
  exists kvs, In (VDict kvs) l /\ has_id kvs i = true.

(** The file after [_save] of the items [v] over the file [d]. *)
Definition saved_file (o : save_outcome) (v : jv) (d : file) : file :=
  match o with
  | Saved => FileDump v
  | OpenFailed => d
  | DumpFailed n => FilePartial v n
  end.

Lemma save_state (o : save_outcome) (v : jv) (d : file) :
  save o (mkState v d) = (Ok tt, mkState v (saved_file o v d)).
Proof. destruct o; reflexivity. Qed.

Lemma find_item_absent (l : list jv) (i : string) (n : nat) :
  all_dicts l -> ~ holds_id l i -> find_item l i n = Ok None.
Proof.
  intros Hd. revert n. induction Hd as [|v l Hv Hd IH]; intros n Hno; [reflexivity|].
  destruct v; try discriminate. simpl.
  destruct (has_id kvs i) eqn:E.
  - exfalso. apply Hno. exists kvs. split; [left; reflexivity | exact E].
  - apply IH. intros [kvs' [Hin Hh]]. apply Hno. exists kvs'. split; [right; exact Hin | exact Hh].
Qed.


Lemma tracked_item_dict (item : input_item) (item_id status t1 t2 t3 : string) :
  is_dict (tracked_item item item_id status t1 t2 t3) = true.
Proof. reflexivity. Qed.




End TrackerFacts.




(** C10 (counterexample): the tracker loaded the JSON list [[1]]; an
    unknown id given to [update_status] with a valid status raises
    [AttributeError] from [item.get], not [ValueError]. *)
Lemma C10_counterexample :
  let st := Tracker.mkState (Tracker.VList [Tracker.VInt 1]) Tracker.FileAbsent in
  Tracker.update_status Tracker.Saved "t1" "t2" "0000000000000000" "completed" None st
  = (Tracker.Raise (Tracker.AttributeError "'int' object has no attribute 'get'"), st).
Proof. vm_compute. reflexivity. Qed.

(** C10 (amended): an invalid status given to [track] or [update_status]
    raises [ValueError] before any mutation; [update_status] with an id
    that no dict of a list of item dicts holds raises [ValueError]; and
    whenever the lookup of [update_status] does not find the id, whether it
    ends without a match or raises (on an element that is not a dict, or on
    items that are not a list), the exception leaves the items and the file
    unchanged. *)
Theorem C10_errors_leave_state_unchanged (o : Tracker.save_outcome) (t1 t2 t3 : string)
    (st : Tracker.state) :
  (forall item status, Tracker.is_valid_status status = false ->
     Tracker.track o t1 t2 t3 item status st
     = (Tracker.Raise (Tracker.ValueError ("Invalid status: " ++ status)%string), st)) /\
  (forall item_id new_status note, Tracker.is_valid_status new_status = false ->
     Tracker.update_status o t1 t2 item_id new_status note st
     = (Tracker.Raise (Tracker.ValueError ("Invalid status: " ++ new_status)%string), st)) /\
  (forall item_id new_status note l, Tracker.items st = Tracker.VList l ->
     TrackerFacts.all_dicts l -> ~ TrackerFacts.holds_id l item_id ->
     exists msg, Tracker.update_status o t1 t2 item_id new_status note st
                 = (Tracker.Raise (Tracker.ValueError msg), st)) /\
  (forall item_id new_status note,
     (Tracker.get_by_id (Tracker.items st) item_id = Tracker.Ok None \/
      exists e, Tracker.get_by_id (Tracker.items st) item_id = Tracker.Raise e) ->
     exists e, Tracker.update_status o t1 t2 item_id new_status note st = (Tracker.Raise e, st)).
Proof.
  split; [|split; [|split]].
  - intros item status Hinv. unfold Tracker.track, Tracker.bind, Tracker.raise.
    rewrite Hinv. reflexivity.
  - intros item_id new_status note Hinv. unfold Tracker.update_status, Tracker.bind, Tracker.raise.
    rewrite Hinv. reflexivity.
  - intros item_id new_status note l Hl Hd Hno.
    unfold Tracker.update_status, Tracker.bind, Tracker.get, Tracker.ret, Tracker.raise.
    destruct (Tracker.is_valid_status new_status); simpl.
    + unfold Tracker.get_by_id. rewrite Hl. simpl.
      rewrite (TrackerFacts.find_item_absent l _ 0 Hd Hno). eexists. reflexivity.
    + eexists. reflexivity.
  - intros item_id new_status note Hn.
    unfold Tracker.update_status, Tracker.bind, Tracker.get, Tracker.ret, Tracker.raise.
    destruct (Tracker.is_valid_status new_status); simpl; [|eexists; reflexivity].
    destruct Hn as [Hn|[e He]]; [rewrite Hn | rewrite He]; eexists; reflexivity.
Qed.

Lemma C10_witness :
  let st0 := snd (Tracker.track Tracker.Saved "t1" "t2" "t3" Tracker.example_item "new" Tracker.empty) in
  Tracker.track Tracker.Saved "t4" "t5" "t6" Tracker.example_item "archived" st0
  = (Tracker.Raise (Tracker.ValueError "Invalid status: archived"), st0) /\
  Tracker.update_status Tracker.Saved "t4" "t5" "8f0db94c268bb7a5" "pending" None st0
  = (Tracker.Raise (Tracker.ValueError "Invalid status: pending"), st0) /\
  (exists msg, Tracker.update_status Tracker.Saved "t4" "t5" "ffffffffffffffff" "completed" None st0
               = (Tracker.Raise (Tracker.ValueError msg), st0)) /\
  exists e, Tracker.update_status Tracker.Saved "t4" "t5" "ffffffffffffffff" "completed" None
              (Tracker.mkState (Tracker.VList [Tracker.VInt 1]) Tracker.FileAbsent)
            = (Tracker.Raise e, Tracker.mkState (Tracker.VList [Tracker.VInt 1]) Tracker.FileAbsent).
Proof.
  intros st0.
  destruct (C10_errors_leave_state_unchanged Tracker.Saved "t4" "t5" "t6" st0) as [H1 [H2 [H3 _]]].
  split; [apply H1; reflexivity|]. split; [apply H2; reflexivity|]. split.
  - apply (H3 _ _ _ [Tracker.tracked_item Tracker.example_item "8f0db94c268bb7a5" "new" "t1" "t2" "t3"]).
    + vm_compute. reflexivity.
    + constructor; [reflexivity | constructor].
    + intros [kvs [[Hk|[]] Hh]]. unfold Tracker.tracked_item in Hk. injection Hk as <-.
      vm_compute in Hh. discriminate.
  - destruct (C10_errors_leave_state_unchanged Tracker.Saved "t4" "t5" "t6"
                (Tracker.mkState (Tracker.VList [Tracker.VInt 1]) Tracker.FileAbsent))
      as [_ [_ [_ H4]]].
    apply H4. right. eexists. vm_compute. reflexivity.
Defined.

(* ----------------------------------------------------------------- *)
(** *** Webhook *)

Module WebhookFacts.
Import Webhook.
Open Scope Z_scope.

Lemma land_255_range (x : Z) : 0 <= Z.land x 255 < 256.
Proof.
  change 255 with (Z.ones 8). rewrite Z.land_ones by lia.
  apply Z.mod_pos_bound. reflexivity.
Qed.

Lemma land_15_range (x : Z) : 0 <= Z.land x 15 < 16.
Proof.
  change 15 with (Z.ones 4). rewrite Z.land_ones by lia.
  apply Z.mod_pos_bound. reflexivity.
Qed.

Lemma le_bytes_range (n : nat) (x : Z) : Forall (fun b => 0 <= b < 256) (Bytes.le_bytes n x).
Proof.
  revert x. induction n as [|n IH]; intros x; simpl; constructor; [|apply IH].
  apply land_255_range.
Qed.

Lemma sha256_digest_range (m : Bytes.bytes) : Forall (fun b => 0 <= b < 256) (SHA256.digest m).
Proof.
  unfold SHA256.digest. apply Forall_forall. intros b Hb.
  apply in_flat_map in Hb as [w [_ Hw]]. unfold Bytes.be_bytes in Hw.
  apply in_rev in Hw. pose proof (le_bytes_range 4 w) as H.
  rewrite Forall_forall in H. now apply H.
Qed.

Lemma hex_digit_ascii (d : Z) : 0 <= d < 16 -> (nat_of_ascii (Bytes.hex_digit d) < 128)%nat.
Proof.
  intros Hd. unfold Bytes.hex_digit.
  destruct (d <? 10) eqn:E; rewrite nat_ascii_embedding; lia.
Qed.

Lemma hex_is_ascii (bs : Bytes.bytes) :
  Forall (fun b => 0 <= b < 256) bs -> is_ascii (Bytes.hex bs) = true.
Proof.
  unfold is_ascii. induction 1 as [|b bs Hb _ IH]; simpl; [reflexivity|].
  apply andb_true_iff. split.
  - apply Nat.ltb_lt, hex_digit_ascii. split.
    + apply Z.shiftr_nonneg. lia.
    + rewrite Z.shiftr_div_pow2 by lia. apply Z.div_lt_upper_bound; simpl; lia.
  - apply andb_true_iff. split; [|exact IH].
    apply Nat.ltb_lt, hex_digit_ascii, land_15_range.
Qed.

Lemma hmac_hexdigest_ascii (key body : string) : is_ascii (SHA256.hmac_hexdigest key body) = true.
Proof. apply hex_is_ascii, sha256_digest_range. Qed.

(** After the signature check, the handler never answers 403. *)
Lemma handle_event_not_403 (e : env) (req : request) : status_of (handle_event e req) <> 403.
Proof.
  unfold handle_event.
  destruct (req_event req) as [ev|]; [|discriminate].
  destruct (String.eqb ev "pull_request") eqn:Eev;
    [apply String.eqb_eq in Eev; subst ev|].
  2:{ destruct ev as [|c ev]; [discriminate|].
      assert (Hgen : forall r, r = Resp [("message", JStr "Event type not handled")] 200 ->
                     status_of r <> 403) by (intros r ->; discriminate).
      repeat match goal with
             | |- context [match ?x with _ => _ end] => destruct x
             end; try discriminate;
      apply String.eqb_neq in Eev; congruence. }
  destruct (handle_pull_request e req) as [r|ex] eqn:Eh; [|discriminate].
  unfold handle_pull_request, pbind in Eh.
  repeat match type of Eh with
         | context [match ?x with _ => _ end] => destruct x
         end; try discriminate; injection Eh as <-; discriminate.
Qed.

End WebhookFacts.

(** C9: with [GITHUB_WEBHOOK_SECRET] unset (or empty),
    [verify_webhook_signature] returns [True] for every body and every
    header, so [webhook_handler] goes straight to event handling whatever the
    signature, and never answers 403. *)
Theorem C9_unset_secret_skips_verification (e : Webhook.env) (req : Webhook.request) :
  (Webhook.GITHUB_WEBHOOK_SECRET e = None \/ Webhook.GITHUB_WEBHOOK_SECRET e = Some ""%string) ->
  (forall body sig, Webhook.verify_webhook_signature (Webhook.GITHUB_WEBHOOK_SECRET e) body sig
                    = Webhook.POk true) /\
  Webhook.webhook_handler e req = Webhook.handle_event e req /\
  Webhook.status_of (Webhook.webhook_handler e req) <> 403%Z.
Proof.
  intros Hsec.
  assert (Hv : forall body sig, Webhook.verify_webhook_signature (Webhook.GITHUB_WEBHOOK_SECRET e) body sig
                                = Webhook.POk true)
    by (intros body sig; destruct Hsec as [-> | ->]; reflexivity).
  assert (Hh : Webhook.webhook_handler e req = Webhook.handle_event e req)
    by (unfold Webhook.webhook_handler; now rewrite Hv).
  split; [exact Hv|]. split; [exact Hh|].
  rewrite Hh. apply WebhookFacts.handle_event_not_403.
Qed.

Lemma C9_witness :
  Webhook.webhook_handler (Webhook.mkEnv None (Some "LGTM") true)
    (Webhook.mkRequest (Some "sha256=0000") (Some "pull_request") Webhook.pr_body
                       (Some (Webhook.pr_payload false)) "")
  = Webhook.handle_event (Webhook.mkEnv None (Some "LGTM") true)
    (Webhook.mkRequest (Some "sha256=0000") (Some "pull_request") Webhook.pr_body
                       (Some (Webhook.pr_payload false)) "").
Proof.
  apply (C9_unset_secret_skips_verification (Webhook.mkEnv None (Some "LGTM") true)
           (Webhook.mkRequest (Some "sha256=0000") (Some "pull_request") Webhook.pr_body
                              (Some (Webhook.pr_payload false)) "")).
  left. reflexivity.
Defined.

Lemma C6_counterexample :
  Webhook.verify_webhook_signature (Some "s3cret") Webhook.pr_body (Some "sha256=0000")
    = Webhook.POk false /\
  Webhook.webhook_handler (Webhook.mkEnv None (Some "LGTM") true)
    (Webhook.mkRequest (Some "sha256=0000") (Some "pull_request") Webhook.pr_body
                       (Some (Webhook.pr_payload false)) "")
  = Webhook.Resp [("message", Webhook.JStr "Review completed and posted");
                  ("pr_number", Webhook.JInt 7)] 200%Z.
Proof. split; vm_compute; reflexivity. Qed.

(** C6 (amended): with [GITHUB_WEBHOOK_SECRET] set to a non-empty key, a
    POST whose [X-Hub-Signature-256] header is [sha256=h], with [h] ASCII,
    free of [=] and different from the HMAC-SHA256 hex digest of
    [request.data] (the body Flask exposes, empty for a form-encoded POST),
    is answered 403.  Whenever the signature check passes, a
    [pull_request] event whose JSON payload is an object with an action in
    {opened, synchronize, ready_for_review}, an object [pull_request] and a
    [repository] that is an object or absent is answered 200 with
    "Draft PR - skipping review" when the PR is a draft; when it is not a
    draft, the Copilot check does not raise, the review script returns a
    non-empty review and the comment is posted, it is answered 200 with
    "Review completed and posted" and the PR number echoed as
    [pr_number]. *)
Theorem C6_webhook_responses (e : Webhook.env) (req : Webhook.request) :
  (forall key h,
     Webhook.GITHUB_WEBHOOK_SECRET e = Some key -> key <> ""%string ->
     Webhook.req_signature req = Some ("sha256=" ++ h)%string ->
     Webhook.split "="%char h = [h] -> Webhook.is_ascii h = true ->
     h <> SHA256.hmac_hexdigest key (Webhook.req_data req) ->
     Webhook.webhook_handler e req = Webhook.Resp [("error", Webhook.JStr "Invalid signature")] 403%Z)
  /\
  (forall fields a prf draft number,
     Webhook.verify_webhook_signature (Webhook.GITHUB_WEBHOOK_SECRET e) (Webhook.req_data req)
       (Webhook.req_signature req) = Webhook.POk true ->
     Webhook.req_event req = Some "pull_request"%string ->
     Webhook.req_json req = Some (Webhook.JObj fields) ->
     Webhook.lookup fields "action" = Some (Webhook.JStr a) ->
     In a ["opened"; "synchronize"; "ready_for_review"]%string ->
     Webhook.lookup fields "pull_request" = Some (Webhook.JObj prf) ->
     (Webhook.lookup fields "repository" = None \/
      exists repo, Webhook.lookup fields "repository" = Some (Webhook.JObj repo)) ->
     Webhook.py_get (Webhook.JObj prf) "draft" (Webhook.JBool false) = Webhook.POk draft ->
     Webhook.py_get (Webhook.JObj prf) "number" Webhook.JNull = Webhook.POk number ->
     (Webhook.truthy draft = true ->
      Webhook.webhook_handler e req
      = Webhook.Resp [("message", Webhook.JStr "Draft PR - skipping review")] 200%Z) /\
     (forall copilot review,
      Webhook.truthy draft = false ->
      Webhook.is_copilot_authored (Webhook.JObj prf) = Webhook.POk copilot ->
      Webhook.review_result e = Some review -> review <> ""%string -> Webhook.post_ok e = true ->
      Webhook.webhook_handler e req
      = Webhook.Resp [("message", Webhook.JStr "Review completed and posted");
                      ("pr_number", number)] 200%Z)).
Proof.
  split.
  - intros key h Hsec Hkey Hsig Hsplit Hasc Hne.
    unfold Webhook.webhook_handler, Webhook.verify_webhook_signature.
    rewrite Hsec, Hsig.
    destruct key as [|c key]; [congruence|].
    cbn [Webhook.split Ascii.eqb Bool.eqb append]. rewrite Hsplit.
    cbn [String.eqb negb Ascii.eqb Bool.eqb].
    unfold Webhook.compare_digest.
    rewrite WebhookFacts.hmac_hexdigest_ascii, Hasc. cbn [andb Webhook.pbind].
    destruct (String.eqb_spec (SHA256.hmac_hexdigest (String c key) (Webhook.req_data req)) h)
      as [Heq|_]; [congruence|reflexivity].
  - intros fields a prf draft number Hv Hev Hjs Hact Hin Hpr Hrepo Hdraft Hnum.
    cbn [Webhook.py_get] in Hdraft, Hnum.
    injection Hdraft as Hdraft. injection Hnum as Hnum.
    assert (Hh : Webhook.webhook_handler e req =
      match Webhook.handle_pull_request e req with
      | Webhook.POk r => r
      | Webhook.PRaise ex => Webhook.Resp [("error", Webhook.JStr (Webhook.exn_msg ex))] 500%Z
      end)
      by (unfold Webhook.webhook_handler, Webhook.handle_event; rewrite Hv, Hev; reflexivity).
    assert (Hact' : existsb (fun a0 => match Webhook.JStr a with
                                       | Webhook.JStr s => String.eqb s a0 | _ => false end)
                            ["ready_for_review"; "opened"; "synchronize"]%string = true)
      by (destruct Hin as [<-|[<-|[<-|[]]]]; reflexivity).
    assert (Hrest : forall k : Webhook.json -> Webhook.py Webhook.response,
      Webhook.pbind (Webhook.py_get (match Webhook.lookup fields "repository" with
                                     | Some x => x | None => Webhook.JObj [] end)
                                    "full_name" Webhook.JNull) k
      = k (match Webhook.lookup fields "repository" with
           | Some (Webhook.JObj r) =>
               match Webhook.lookup r "full_name" with Some x => x | None => Webhook.JNull end
           | _ => Webhook.JNull end))
      by (intros k; destruct Hrepo as [-> | [repo ->]]; reflexivity).
    rewrite Hh. unfold Webhook.handle_pull_request.
    rewrite Hjs. cbn [Webhook.pbind Webhook.py_get]. rewrite Hact, Hpr.
    cbn [Webhook.pbind]. rewrite Hrest. cbn [Webhook.pbind Webhook.py_get].
    rewrite Hdraft, Hnum, Hact'. cbn [negb].
    split.
    + intros Ht. rewrite Ht. reflexivity.
    + intros copilot review Ht Hc Hr Hne Hpost.
      rewrite Ht, Hc. cbn [Webhook.pbind]. rewrite Hr, Hpost.
      destruct review; [congruence|reflexivity].
Qed.

Lemma C6_witness :
  Webhook.webhook_handler (Webhook.mkEnv (Some "s3cret") (Some "LGTM") true)
    (Webhook.mkRequest (Some "sha256=0000") (Some "pull_request") Webhook.pr_body
                       (Some (Webhook.pr_payload false)) "")
  = Webhook.Resp [("error", Webhook.JStr "Invalid signature")] 403%Z /\
  Webhook.webhook_handler (Webhook.mkEnv (Some "s3cret") (Some "LGTM") true)
    (Webhook.mkRequest (Some ("sha256=" ++ SHA256.hmac_hexdigest "s3cret" Webhook.pr_body)%string)
                       (Some "pull_request") Webhook.pr_body (Some (Webhook.pr_payload false)) "")
  = Webhook.Resp [("message", Webhook.JStr "Review completed and posted");
                  ("pr_number", Webhook.JInt 7)] 200%Z.
Proof.
  destruct (C6_webhook_responses (Webhook.mkEnv (Some "s3cret") (Some "LGTM") true)
              (Webhook.mkRequest (Some "sha256=0000") (Some "pull_request") Webhook.pr_body
                                 (Some (Webhook.pr_payload false)) "")) as [H403 _].
  destruct (C6_webhook_responses (Webhook.mkEnv (Some "s3cret") (Some "LGTM") true)
              (Webhook.mkRequest (Some ("sha256=" ++ SHA256.hmac_hexdigest "s3cret" Webhook.pr_body)%string)
                                 (Some "pull_request") Webhook.pr_body
                                 (Some (Webhook.pr_payload false)) "")) as [_ Hok].
  split.
  - apply (H403 "s3cret" "0000");
      [reflexivity | discriminate | reflexivity | reflexivity | reflexivity |].
    vm_compute. discriminate.
  - refine (proj2 (Hok _ "opened" _ (Webhook.JBool false) (Webhook.JInt 7) _ _ eq_refl
                       eq_refl _ eq_refl _ eq_refl eq_refl) false "LGTM" eq_refl eq_refl
                  eq_refl _ eq_refl).
    + vm_compute. reflexivity.
    + reflexivity.
    + simpl. left. reflexivity.
    + right. eexists. reflexivity.
    + discriminate.
Defined.

(* ----------------------------------------------------------------- *)
(** *** Model selector *)

Module ModelSelectorFacts.
Import ModelSelector.

Lemma table_nonempty (tier : string) (t : TaskType) :
  In tier ["high"; "mid"; "low"]%string ->
  exists by_task r rest,
    dict_get String.eqb RECOMMENDATIONS tier = Some by_task /\
    dict_get TaskType_eqb by_task t = Some (r :: rest).
Proof.
  intros Hin. destruct Hin as [<-|[<-|[<-|[]]]]; destruct t; do 3 eexists; split; reflexivity.
Qed.

Lemma tier_in_table (v : Q) : In (get_vram_tier v) ["high"; "mid"; "low"]%string.
Proof.
  unfold get_vram_tier.
  destruct (Qle_bool 12 v); [left; reflexivity|].
  destruct (Qle_bool 8 v); [right; left; reflexivity | right; right; left; reflexivity].
Qed.

Lemma recommendations_nonempty (v : Q) (t : TaskType) :
  exists r rest, get_recommendations v t = Some (r :: rest).
Proof.
  destruct (table_nonempty (get_vram_tier v) t (tier_in_table v)) as (by_task & r & rest & H1 & H2).
  exists r, rest. unfold get_recommendations. now rewrite H1, H2.
Qed.

Lemma find_first {A} (f : A -> bool) (pre : list A) (x : A) (post : list A) :
  Forall (fun p => f p = false) pre -> f x = true -> find f (pre ++ x :: post) = Some x.
Proof.
  induction 1 as [|p pre Hp _ IH]; intros Hx; simpl.
  - now rewrite Hx.
  - rewrite Hp. now apply IH.
Qed.

Lemma find_none {A} (f : A -> bool) (l : list A) :
  Forall (fun p => f p = false) l -> find f l = None.
Proof. induction 1 as [|p l Hp _ IH]; simpl; [reflexivity|now rewrite Hp]. Qed.

Lemma not_available (avail : list string) (l : list ModelRecommendation) :
  Forall (fun p => ~ In (name p) avail) l ->
  Forall (fun p => existsb (String.eqb (name p)) avail = false) l.
Proof.
  apply Forall_impl. intros p Hp.
  destruct (existsb (String.eqb (name p)) avail) eqn:E; [|reflexivity].
  apply existsb_eqb_In in E. contradiction.
Qed.

End ModelSelectorFacts.

(** C7: the VRAM tier is "high" exactly when [v >= 12], "mid" exactly when
    [8 <= v < 12] and "low" exactly when [v < 8] (VRAM amounts are read as
    rationals, so NaN is out of scope); for each of the three tiers and each
    task type, [RECOMMENDATIONS[tier][task]] exists and is a non-empty
    list. *)
Theorem C7_vram_tier_and_table (v : Q) :
  (ModelSelector.get_vram_tier v = "high"%string <-> (12 <= v)%Q) /\
  (ModelSelector.get_vram_tier v = "mid"%string <-> (8 <= v)%Q /\ (v < 12)%Q) /\
  (ModelSelector.get_vram_tier v = "low"%string <-> (v < 8)%Q) /\
  (forall tier t, In tier ["high"; "mid"; "low"]%string ->
     exists by_task r rest,
       ModelSelector.dict_get String.eqb ModelSelector.RECOMMENDATIONS tier = Some by_task /\
       ModelSelector.dict_get ModelSelector.TaskType_eqb by_task t = Some (r :: rest)).
Proof.
  split; [|split; [|split]].
  - unfold ModelSelector.get_vram_tier.
    destruct (Qle_bool 12 v) eqn:E12.
    + apply Qle_bool_iff in E12. split; [intros _; exact E12|reflexivity].
    + split; [destruct (Qle_bool 8 v); discriminate|].
      intros H. apply Qle_bool_iff in H. congruence.
  - unfold ModelSelector.get_vram_tier.
    destruct (Qle_bool 12 v) eqn:E12, (Qle_bool 8 v) eqn:E8.
    + split; [discriminate|]. intros [_ Hlt].
      apply Qle_bool_iff in E12. exfalso. exact (Qlt_not_le _ _ Hlt E12).
    + split; [discriminate|]. intros [_ Hlt].
      apply Qle_bool_iff in E12. exfalso. exact (Qlt_not_le _ _ Hlt E12).
    + apply Qle_bool_iff in E8. split; [intros _; split; [exact E8|]|reflexivity].
      apply Qnot_le_lt. intros H. apply Qle_bool_iff in H. congruence.
    + split; [discriminate|]. intros [H _]. apply Qle_bool_iff in H. congruence.
  - unfold ModelSelector.get_vram_tier.
    destruct (Qle_bool 12 v) eqn:E12, (Qle_bool 8 v) eqn:E8.
    + split; [discriminate|]. intros Hlt.
      apply Qle_bool_iff in E8. exfalso. exact (Qlt_not_le _ _ Hlt E8).
    + split; [discriminate|]. intros _.
      apply Qle_bool_iff in E12. exfalso.
      assert (H8 : (8 <= v)%Q) by (apply Qle_trans with 12; [unfold Qle; simpl; lia|exact E12]).
      apply Qle_bool_iff in H8. congruence.
    + split; [discriminate|]. intros Hlt.
      apply Qle_bool_iff in E8. exfalso. exact (Qlt_not_le _ _ Hlt E8).
    + split; [intros _|reflexivity].
      apply Qnot_le_lt. intros H. apply Qle_bool_iff in H. congruence.
  - exact ModelSelectorFacts.table_nonempty.
Qed.

Lemma C7_witness :
  ModelSelector.get_vram_tier (10 # 1) = "mid"%string /\
  exists by_task r rest,
    ModelSelector.dict_get String.eqb ModelSelector.RECOMMENDATIONS "low" = Some by_task /\
    ModelSelector.dict_get ModelSelector.TaskType_eqb by_task ModelSelector.GENERAL = Some (r :: rest).
Proof.
  destruct (C7_vram_tier_and_table (10 # 1)) as (_ & Hmid & _ & Htab).
  split.
  - apply Hmid. split; vm_compute; [discriminate|reflexivity].
  - apply Htab. right. right. left. reflexivity.
Defined.

(** C8: for every VRAM amount and task type, [get_recommendations] is a
    non-empty list [r :: rest]; [select_model] without the availability
    check returns [r]'s name whatever the daemon lists; with the check, it
    returns the name of the first recommendation listed by the daemon, and
    [r]'s name when none of the recommended names is listed. *)
Theorem C8_select_model (v : Q) (t : ModelSelector.TaskType) :
  exists r rest,
    ModelSelector.get_recommendations v t = Some (r :: rest) /\
    (forall avail, ModelSelector.select_model v t false avail = Some (ModelSelector.name r)) /\
    (forall avail pre x post,
       r :: rest = (pre ++ x :: post)%list ->
       Forall (fun p => ~ In (ModelSelector.name p) avail) pre ->
       In (ModelSelector.name x) avail ->
       ModelSelector.select_model v t true avail = Some (ModelSelector.name x)) /\
    (forall avail,
       Forall (fun p => ~ In (ModelSelector.name p) avail) (r :: rest) ->
       ModelSelector.select_model v t true avail = Some (ModelSelector.name r)).
Proof.
  destruct (ModelSelectorFacts.recommendations_nonempty v t) as (r & rest & Hrec).
  exists r, rest. split; [exact Hrec|].
  unfold ModelSelector.select_model. rewrite Hrec.
  split; [|split].
  - intros avail. reflexivity.
  - intros avail pre x post Heq Hpre Hx. cbn [negb]. rewrite Heq.
    rewrite ModelSelectorFacts.find_first; [reflexivity| |].
    + now apply ModelSelectorFacts.not_available.
    + now apply existsb_eqb_In.
  - intros avail Hnone. cbn [negb].
    rewrite ModelSelectorFacts.find_none; [reflexivity|].
    now apply ModelSelectorFacts.not_available.
Qed.

Lemma C8_witness :
  ModelSelector.select_model (16 # 1) ModelSelector.CODE_REVIEW true ["qwen2.5-coder:14b"]%string
  = ModelSelector.first_name
      (match ModelSelector.get_recommendations (16 # 1) ModelSelector.CODE_REVIEW with
       | Some (_ :: rest) => rest | _ => [] end).
Proof.
  destruct (C8_select_model (16 # 1) ModelSelector.CODE_REVIEW) as (r & rest & Hrec & _ & Hfirst & _).
  rewrite Hrec.
  destruct rest as [|x post]; [discriminate Hrec|].
  apply (Hfirst ["qwen2.5-coder:14b"]%string [r] x post); [reflexivity| |].
  - injection Hrec as Hr _. subst r.
    constructor; [|constructor]. cbn. intros [Hn|[]]. discriminate Hn.
  - injection Hrec as _ Hx _. subst x. left. reflexivity.
Defined.

(* ================================================================= *)
(** * Further properties of the code *)

(* ----------------------------------------------------------------- *)
(** *** Webhook *)

Module WebhookMoreFacts.
Import Webhook.
Open Scope Z_scope.

Lemma hex_digit_not_eq (d : Z) : 0 <= d < 16 -> Ascii.eqb (Bytes.hex_digit d) "="%char = false.
Proof.
  intros Hd. apply Ascii.eqb_neq. intros Heq.
  apply (f_equal nat_of_ascii) in Heq. unfold Bytes.hex_digit in Heq.
  destruct (d <? 10) eqn:E.
  - apply Z.ltb_lt in E. rewrite nat_ascii_embedding in Heq by lia.
    change (nat_of_ascii "=") with 61%nat in Heq.
    apply (f_equal Z.of_nat) in Heq. rewrite Z2Nat.id in Heq by lia. lia.
  - apply Z.ltb_ge in E. rewrite nat_ascii_embedding in Heq by lia.
    change (nat_of_ascii "=") with 61%nat in Heq.
    apply (f_equal Z.of_nat) in Heq. rewrite Z2Nat.id in Heq by lia. lia.
Qed.

Lemma split_hex (bs : Bytes.bytes) :
  Forall (fun b => 0 <= b < 256) bs -> split "="%char (Bytes.hex bs) = [Bytes.hex bs].
Proof.
  induction 1 as [|b bs Hb _ IH]; [reflexivity|]. simpl.
  rewrite !hex_digit_not_eq, IH; [reflexivity| |].
  - apply WebhookFacts.land_15_range.
  - split; [apply Z.shiftr_nonneg; lia|].
    rewrite Z.shiftr_div_pow2 by lia. apply Z.div_lt_upper_bound; simpl; lia.
Qed.

Lemma split_hmac (key body : string) :
  split "="%char (SHA256.hmac_hexdigest key body) = [SHA256.hmac_hexdigest key body].
Proof. apply split_hex, WebhookFacts.sha256_digest_range. Qed.

(** The reads of [action], [pull_request], [repository], [full_name],
    [number] and [draft] on a payload object. *)
Ltac payload_gets Hjs Hpr Hrepo :=
  unfold handle_pull_request; rewrite Hjs; cbn [pbind py_get];
  destruct Hpr as [Hpr | [?prf Hpr]]; rewrite Hpr;
  destruct Hrepo as [Hrepo | [?repo Hrepo]]; rewrite Hrepo;
  cbn [pbind py_get lookup fold_left].

End WebhookMoreFacts.

(** A header [sha256=<hex>] carrying the HMAC-SHA256 hex digest of the body
    under the configured (non-empty) secret always passes the check. *)
Theorem X1_verify_correct_signature (key body : string) :
  key <> ""%string ->
  Webhook.verify_webhook_signature (Some key) body
    (Some ("sha256=" ++ SHA256.hmac_hexdigest key body)%string) = Webhook.POk true.
Proof.
  intros Hkey. destruct key as [|c key]; [congruence|].
  unfold Webhook.verify_webhook_signature.
  cbn [Webhook.split Ascii.eqb Bool.eqb append]. rewrite WebhookMoreFacts.split_hmac.
  cbn [String.eqb negb Ascii.eqb Bool.eqb].
  unfold Webhook.compare_digest. rewrite WebhookFacts.hmac_hexdigest_ascii.
  cbn [andb Webhook.pbind]. now rewrite String.eqb_refl.
Qed.

Lemma X1_witness :
  Webhook.verify_webhook_signature (Some "s3cret") Webhook.pr_body
    (Some ("sha256=" ++ SHA256.hmac_hexdigest "s3cret" Webhook.pr_body)%string) = Webhook.POk true.
Proof. apply X1_verify_correct_signature. discriminate. Defined.

(** With a non-empty secret, a missing or empty signature header and a
    header naming another algorithm than [sha256] are answered 403; a
    non-empty header that does not split on [=] into exactly two parts
    raises [ValueError] in the unpacking, which escapes the view (a 500
    error page, not 403). *)
Theorem X2_signature_header_errors (e : Webhook.env) (req : Webhook.request) (key : string) :
  Webhook.GITHUB_WEBHOOK_SECRET e = Some key -> key <> ""%string ->
  ((Webhook.req_signature req = None \/ Webhook.req_signature req = Some ""%string) ->
   Webhook.webhook_handler e req = Webhook.Resp [("error", Webhook.JStr "Invalid signature")] 403) /\
  (forall header alg sig,
     Webhook.req_signature req = Some header -> Webhook.split "="%char header = [alg; sig] ->
     alg <> "sha256"%string ->
     Webhook.webhook_handler e req = Webhook.Resp [("error", Webhook.JStr "Invalid signature")] 403) /\
  (forall header,
     Webhook.req_signature req = Some header -> header <> ""%string ->
     List.length (Webhook.split "="%char header) <> 2%nat ->
     exists msg, Webhook.webhook_handler e req = Webhook.Uncaught (Webhook.mkExn "ValueError" msg)).
Proof.
  intros Hsec Hkey. destruct key as [|c key]; [congruence|].
  unfold Webhook.webhook_handler, Webhook.verify_webhook_signature. rewrite Hsec.
  split; [|split].
  - intros [H | H]; rewrite H; reflexivity.
  - intros header alg sig Hh Hsplit Halg. rewrite Hh.
    destruct header as [|h0 header]; [discriminate Hsplit|].
    rewrite Hsplit. apply String.eqb_neq in Halg. now rewrite Halg.
  - intros header Hh Hne Hlen. rewrite Hh.
    destruct header as [|h0 header]; [congruence|].
    destruct (Webhook.split "="%char (String h0 header)) as [|p1 [|p2 [|p3 ps]]] eqn:Es.
    + simpl in Es. destruct (Ascii.eqb h0 "="%char);
        [discriminate|destruct (Webhook.split "=" header); discriminate].
    + eexists. reflexivity.
    + simpl in Hlen. congruence.
    + eexists. reflexivity.
Qed.

Lemma X2_witness :
  Webhook.webhook_handler (Webhook.mkEnv (Some "s3cret") (Some "LGTM") true)
    (Webhook.mkRequest (Some "sha1=abcd") (Some "pull_request") Webhook.pr_body
                       (Some (Webhook.pr_payload false)) "")
  = Webhook.Resp [("error", Webhook.JStr "Invalid signature")] 403%Z /\
  exists msg,
    Webhook.webhook_handler (Webhook.mkEnv (Some "s3cret") (Some "LGTM") true)
      (Webhook.mkRequest (Some "abcd") (Some "pull_request") Webhook.pr_body
                         (Some (Webhook.pr_payload false)) "")
    = Webhook.Uncaught (Webhook.mkExn "ValueError" msg).
Proof.
  split.
  - destruct (X2_signature_header_errors (Webhook.mkEnv (Some "s3cret") (Some "LGTM") true)
                (Webhook.mkRequest (Some "sha1=abcd") (Some "pull_request") Webhook.pr_body
                                   (Some (Webhook.pr_payload false)) "") "s3cret"
                eq_refl ltac:(discriminate)) as [_ [H _]].
    apply (H "sha1=abcd" "sha1" "abcd"); [reflexivity | reflexivity | discriminate].
  - destruct (X2_signature_header_errors (Webhook.mkEnv (Some "s3cret") (Some "LGTM") true)
                (Webhook.mkRequest (Some "abcd") (Some "pull_request") Webhook.pr_body
                                   (Some (Webhook.pr_payload false)) "") "s3cret"
                eq_refl ltac:(discriminate)) as [_ [_ H]].
    apply (H "abcd"); [reflexivity | discriminate | discriminate].
Defined.

Module WebhookMoreFacts2.
Import Webhook.
Open Scope Z_scope.

(** A [pull_request] event with a handled action, read up to the draft flag. *)
Lemma pr_event_reduces (e : env) (req : request) fields a prf :
  verify_webhook_signature (GITHUB_WEBHOOK_SECRET e) (req_data req) (req_signature req) = POk true ->
  req_event req = Some "pull_request"%string ->
  req_json req = Some (JObj fields) ->
  lookup fields "action" = Some (JStr a) ->
  In a ["opened"; "synchronize"; "ready_for_review"]%string ->
  lookup fields "pull_request" = Some (JObj prf) ->
  (lookup fields "repository" = None \/ exists repo, lookup fields "repository" = Some (JObj repo)) ->
  webhook_handler e req =
  if truthy (match lookup prf "draft" with Some x => x | None => JBool false end)
  then Resp [("message", JStr "Draft PR - skipping review")] 200
  else match is_copilot_authored (JObj prf) with
       | PRaise ex => Resp [("error", JStr (exn_msg ex))] 500
       | POk _ =>
           match review_result e with
           | None | Some EmptyString => Resp [("error", JStr "Review failed")] 500
           | Some _ =>
               if post_ok e then
                 Resp [("message", JStr "Review completed and posted");
                       ("pr_number", match lookup prf "number" with Some x => x | None => JNull end)] 200
               else Resp [("error", JStr "Failed to post review comment")] 500
           end
       end.
Proof.
  intros Hv Hev Hjs Hact Hin Hpr Hrepo.
  unfold webhook_handler, handle_event. rewrite Hv, Hev.
  unfold handle_pull_request. rewrite Hjs. cbn [pbind py_get]. rewrite Hact, Hpr.
  assert (Hact' : existsb (fun a0 => match JStr a with JStr s => String.eqb s a0 | _ => false end)
                          ["ready_for_review"; "opened"; "synchronize"]%string = true)
    by (destruct Hin as [<-|[<-|[<-|[]]]]; reflexivity).
  destruct Hrepo as [Hrepo | [repo Hrepo]]; rewrite Hrepo; cbn [pbind py_get];
    rewrite Hact'; cbn [negb];
    (destruct (truthy _); [reflexivity|]);
    (destruct (is_copilot_authored (JObj prf)); cbn [pbind]; [|reflexivity]);
    (destruct (review_result e) as [[|]|]; try reflexivity);
    destruct (post_ok e); reflexivity.
Qed.

End WebhookMoreFacts2.

(** Errors in reading the payload are caught by the handler and answered
    500 with the exception message: a body that is not JSON (or not sent as
    JSON), a payload that is not an object, a [repository] value present but
    not an object, or (with [repository] an object or absent) a
    [pull_request] value present but not an object, for instance [null]. *)
Theorem X4_payload_errors_500 (e : Webhook.env) (req : Webhook.request) :
  Webhook.verify_webhook_signature (Webhook.GITHUB_WEBHOOK_SECRET e) (Webhook.req_data req)
    (Webhook.req_signature req) = Webhook.POk true ->
  Webhook.req_event req = Some "pull_request"%string ->
  (Webhook.req_json req = None ->
   Webhook.webhook_handler e req
   = Webhook.Resp [("error", Webhook.JStr (Webhook.req_json_error req))] 500) /\
  (forall v, Webhook.req_json req = Some v -> (forall f, v <> Webhook.JObj f) ->
   Webhook.webhook_handler e req
   = Webhook.Resp [("error", Webhook.JStr (Webhook.exn_msg (Webhook.attribute_error v "get")))] 500) /\
  (forall fields v, Webhook.req_json req = Some (Webhook.JObj fields) ->
   Webhook.lookup fields "repository" = Some v -> (forall f, v <> Webhook.JObj f) ->
   Webhook.webhook_handler e req
   = Webhook.Resp [("error", Webhook.JStr (Webhook.exn_msg (Webhook.attribute_error v "get")))] 500) /\
  (forall fields v, Webhook.req_json req = Some (Webhook.JObj fields) ->
   (Webhook.lookup fields "repository" = None \/
    exists repo, Webhook.lookup fields "repository" = Some (Webhook.JObj repo)) ->
   Webhook.lookup fields "pull_request" = Some v -> (forall f, v <> Webhook.JObj f) ->
   Webhook.webhook_handler e req
   = Webhook.Resp [("error", Webhook.JStr (Webhook.exn_msg (Webhook.attribute_error v "get")))] 500).
Proof.
  intros Hv Hev.
  unfold Webhook.webhook_handler, Webhook.handle_event. rewrite Hv, Hev.
  unfold Webhook.handle_pull_request.
  split; [|split; [|split]].
  - intros Hjs. rewrite Hjs. reflexivity.
  - intros v Hjs Hnot. rewrite Hjs.
    destruct v; try reflexivity. exfalso. eapply Hnot; reflexivity.
  - intros fields v Hjs Hrepo Hnot. rewrite Hjs. cbn [Webhook.pbind Webhook.py_get].
    rewrite Hrepo.
    destruct (Webhook.lookup fields "pull_request") as [p|];
      (destruct v; [reflexivity..| exfalso; eapply Hnot; reflexivity]).
  - intros fields v Hjs Hrepo Hpr Hnot. rewrite Hjs. cbn [Webhook.pbind Webhook.py_get].
    rewrite Hpr.
    destruct Hrepo as [Hrepo | [repo Hrepo]]; rewrite Hrepo; cbn [Webhook.pbind Webhook.py_get];
      (destruct v; [reflexivity..| exfalso; eapply Hnot; reflexivity]).
Qed.

Lemma X4_witness :
  Webhook.webhook_handler (Webhook.mkEnv None (Some "LGTM") true)
    (Webhook.mkRequest None (Some "pull_request") Webhook.pr_body
       (Some (Webhook.JObj [("action", Webhook.JStr "opened"); ("pull_request", Webhook.JNull)])) "")
  = Webhook.Resp [("error", Webhook.JStr "'NoneType' object has no attribute 'get'")] 500%Z.
Proof.
  destruct (X4_payload_errors_500 (Webhook.mkEnv None (Some "LGTM") true)
    (Webhook.mkRequest None (Some "pull_request") Webhook.pr_body
       (Some (Webhook.JObj [("action", Webhook.JStr "opened"); ("pull_request", Webhook.JNull)])) "")
    eq_refl eq_refl) as [_ [_ [_ H]]].
  apply (H _ Webhook.JNull eq_refl (or_introl eq_refl) eq_refl). discriminate.
Defined.

(** For a handled, non-draft pull request the handler answers 500 when the
    Copilot-author check raises (with its message), when the review script
    gives no review or an empty one ("Review failed"), and when the review
    comment cannot be posted ("Failed to post review comment"). *)
Theorem X5_review_failures_500 (e : Webhook.env) (req : Webhook.request) fields a prf :
  Webhook.verify_webhook_signature (Webhook.GITHUB_WEBHOOK_SECRET e) (Webhook.req_data req)
    (Webhook.req_signature req) = Webhook.POk true ->
  Webhook.req_event req = Some "pull_request"%string ->
  Webhook.req_json req = Some (Webhook.JObj fields) ->
  Webhook.lookup fields "action" = Some (Webhook.JStr a) ->
  In a ["opened"; "synchronize"; "ready_for_review"]%string ->
  Webhook.lookup fields "pull_request" = Some (Webhook.JObj prf) ->
  (Webhook.lookup fields "repository" = None \/
   exists repo, Webhook.lookup fields "repository" = Some (Webhook.JObj repo)) ->
  Webhook.truthy (match Webhook.lookup prf "draft" with Some x => x | None => Webhook.JBool false end)
    = false ->
  (forall ex, Webhook.is_copilot_authored (Webhook.JObj prf) = Webhook.PRaise ex ->
   Webhook.webhook_handler e req = Webhook.Resp [("error", Webhook.JStr (Webhook.exn_msg ex))] 500) /\
  (forall c, Webhook.is_copilot_authored (Webhook.JObj prf) = Webhook.POk c ->
   (Webhook.review_result e = None \/ Webhook.review_result e = Some ""%string) ->
   Webhook.webhook_handler e req = Webhook.Resp [("error", Webhook.JStr "Review failed")] 500) /\
  (forall c r, Webhook.is_copilot_authored (Webhook.JObj prf) = Webhook.POk c ->
   Webhook.review_result e = Some r -> r <> ""%string -> Webhook.post_ok e = false ->
   Webhook.webhook_handler e req
   = Webhook.Resp [("error", Webhook.JStr "Failed to post review comment")] 500).
Proof.
  intros Hv Hev Hjs Hact Hin Hpr Hrepo Hdraft.
  rewrite (WebhookMoreFacts2.pr_event_reduces e req fields a prf Hv Hev Hjs Hact Hin Hpr Hrepo), Hdraft.
  split; [|split].
  - intros ex Hc. now rewrite Hc.
  - intros c Hc Hr. rewrite Hc. destruct Hr as [-> | ->]; reflexivity.
  - intros c r Hc Hr Hne Hp. rewrite Hc, Hr, Hp. destruct r; [congruence|reflexivity].
Qed.

Lemma X5_witness :
  Webhook.webhook_handler (Webhook.mkEnv None (Some "LGTM") false)
    (Webhook.mkRequest None (Some "pull_request") Webhook.pr_body (Some (Webhook.pr_payload false)) "")
  = Webhook.Resp [("error", Webhook.JStr "Failed to post review comment")] 500%Z.
Proof.
  destruct (X5_review_failures_500 (Webhook.mkEnv None (Some "LGTM") false)
    (Webhook.mkRequest None (Some "pull_request") Webhook.pr_body (Some (Webhook.pr_payload false)) "")
    _ "opened" _ eq_refl eq_refl eq_refl eq_refl (or_introl eq_refl) eq_refl
    (or_intror (ex_intro _ _ eq_refl)) eq_refl) as [_ [_ H]].
  apply (H false "LGTM"); [reflexivity | reflexivity | discriminate | reflexivity].
Defined.

(** [is_copilot_authored] on a pull-request object whose [user] (default
    [{}]) has a string [login] (default ""): it is true as soon as the
    lowercased login contains "copilot", "github-actions[bot]" or
    "dependabot[bot]", without reading the body; otherwise it is whether the
    lowercased body (a string, or "" when missing or falsy) contains
    "copilot".  A [login] that is not a string, e.g. [null], raises
    [AttributeError]. *)
Theorem X6_is_copilot_authored (prf : list (string * Webhook.json)) (user : Webhook.json) :
  Webhook.py_get (Webhook.JObj prf) "user" (Webhook.JObj []) = Webhook.POk user ->
  (forall login,
     Webhook.py_get user "login" (Webhook.JStr "") = Webhook.POk (Webhook.JStr login) ->
     let body := match Webhook.lookup prf "body" with Some x => x | None => Webhook.JStr "" end in
     (existsb (Py.contains_b (Domain.lower login))
              ["copilot"; "github-actions[bot]"; "dependabot[bot]"]%string = true ->
      Webhook.is_copilot_authored (Webhook.JObj prf) = Webhook.POk true) /\
     (existsb (Py.contains_b (Domain.lower login))
              ["copilot"; "github-actions[bot]"; "dependabot[bot]"]%string = false ->
      forall b, (body = Webhook.JStr b \/ (Webhook.truthy body = false /\ b = ""%string)) ->
      Webhook.is_copilot_authored (Webhook.JObj prf)
      = Webhook.POk (Py.contains_b (Domain.lower b) "copilot"))) /\
  (forall v, Webhook.py_get user "login" (Webhook.JStr "") = Webhook.POk v ->
   (forall s, v <> Webhook.JStr s) ->
   Webhook.is_copilot_authored (Webhook.JObj prf) = Webhook.PRaise (Webhook.attribute_error v "lower")).
Proof.
  intros Hu. unfold Webhook.is_copilot_authored. rewrite Hu. cbn [Webhook.pbind].
  split.
  - intros login Hl. rewrite Hl. cbn [Webhook.pbind]. split.
    + intros Hp. now rewrite Hp.
    + intros Hp b Hb. rewrite Hp. cbn [Webhook.pbind Webhook.py_get].
      destruct Hb as [Hb | [Hf ->]].
      * rewrite Hb. cbn [Webhook.truthy].
        destruct b; reflexivity.
      * rewrite Hf. reflexivity.
  - intros v Hl Hnot. rewrite Hl.
    destruct v; try reflexivity. exfalso; eapply Hnot; reflexivity.
Qed.

Lemma X6_witness :
  Webhook.is_copilot_authored
    (Webhook.JObj [("user", Webhook.JObj [("login", Webhook.JStr "octocat")]);
                   ("body", Webhook.JStr "Drafted with GitHub Copilot")]) = Webhook.POk true.
Proof.
  destruct (X6_is_copilot_authored
    [("user", Webhook.JObj [("login", Webhook.JStr "octocat")]);
     ("body", Webhook.JStr "Drafted with GitHub Copilot")]
    (Webhook.JObj [("login", Webhook.JStr "octocat")]) eq_refl) as [H _].
  destruct (H "octocat" eq_refl) as [_ H2].
  apply (H2 eq_refl "Drafted with GitHub Copilot" (or_introl eq_refl)).
Defined.

(* ----------------------------------------------------------------- *)
(** *** Tracker *)

Module TrackerMoreFacts.
Import Tracker TrackerMore TrackerFacts.
Open Scope Z_scope.

(** The elements [delete] keeps. *)
Definition others (l : list jv) (i : string) : list jv :=
  filter (fun v => match v with VDict kvs => negb (has_id kvs i) | _ => true end) l.

Lemma keep_others_dicts (l : list jv) (i : string) :
  all_dicts l -> keep_others l i = Ok (others l i).
Proof.
  induction 1 as [|v l Hv Hl IH]; [reflexivity|].
  destruct v; try discriminate. simpl. rewrite IH.
  destruct (has_id kvs i); reflexivity.
Qed.

Lemma keep_others_non_dict (l : list jv) (i : string) (v : jv) :
  In v l -> is_dict v = false -> exists e, keep_others l i = Raise e.
Proof.
  induction l as [|w l IH]; intros Hin Hv; [destruct Hin|].
  destruct Hin as [->|Hin].
  - destruct v; try discriminate; eexists; reflexivity.
  - destruct w; try (eexists; reflexivity).
    simpl. destruct (IH Hin Hv) as [e He]. rewrite He. eexists. reflexivity.
Qed.

Lemma others_all_dicts (l : list jv) (i : string) : all_dicts l -> all_dicts (others l i).
Proof.
  unfold all_dicts. intros H. apply Forall_forall. intros v Hv. apply filter_In in Hv as [Hv _].
  rewrite Forall_forall in H. auto.
Qed.

Lemma in_others (l : list jv) (i : string) (kvs : list (string * jv)) :
  In (VDict kvs) (others l i) <-> In (VDict kvs) l /\ has_id kvs i = false.
Proof.
  unfold others. rewrite filter_In. destruct (has_id kvs i); simpl; intuition discriminate.
Qed.

Lemma others_absent (l : list jv) (i : string) : ~ holds_id (others l i) i.
Proof. intros [kvs [Hin Hh]]. apply in_others in Hin as [_ H]. congruence. Qed.

Lemma others_unchanged (l : list jv) (i : string) :
  all_dicts l -> ~ holds_id l i -> others l i = l.
Proof.
  intros Hd. induction Hd as [|v l Hv Hd IH]; intros Hno; [reflexivity|].
  destruct v; try discriminate. simpl.
  destruct (has_id kvs i) eqn:E.
  - exfalso. apply Hno. exists kvs. split; [left; reflexivity | exact E].
  - simpl. f_equal. apply IH. intros [k [Hin Hh]]. apply Hno. exists k. split; [right|]; assumption.
Qed.

Lemma find_item_position (l : list jv) (i : string) (n k : nat) (kvs : list (string * jv)) :
  find_item l i n = Ok (Some (k, kvs)) ->
  (n <= k)%nat /\ nth_error l (k - n) = Some (VDict kvs) /\ has_id kvs i = true.
Proof.
  revert n. induction l as [|v l IH]; intros n H; [discriminate|].
  destruct v; try discriminate. simpl in H.
  destruct (has_id kvs0 i) eqn:E.
  - injection H as <- <-. rewrite Nat.sub_diag. simpl. auto.
  - destruct (IH (S n) H) as [Hle [Hnth Hh]]. split; [lia|]. split; [|exact Hh].
    replace (k - n)%nat with (S (k - S n)) by lia. exact Hnth.
Qed.

Lemma dict_get_set_other (kvs : list (string * jv)) (k k' : string) (v : jv) :
  k <> k' -> dict_get (dict_set kvs k v) k' = dict_get kvs k'.
Proof.
  intros Hk. induction kvs as [|[k0 v0] kvs IH]; simpl.
  - apply String.eqb_neq in Hk. rewrite Hk. reflexivity.
  - destruct (String.eqb_spec k0 k) as [->|Hne]; simpl.
    + apply String.eqb_neq in Hk. rewrite Hk. reflexivity.
    + rewrite IH. reflexivity.
Qed.

(** [l] with its element at position [i] replaced by [x]. *)
Definition replace_at (l : list jv) (i : nat) (x : jv) : list jv :=
  firstn i l ++ x :: skipn (S i) l.

Lemma replace_at_length (l : list jv) (i : nat) (x : jv) :
  (i < List.length l)%nat -> List.length (replace_at l i x) = List.length l.
Proof.
  intros H. unfold replace_at. rewrite length_app, length_firstn. cbn [List.length]. rewrite length_skipn. lia.
Qed.

Lemma replace_at_nth (l : list jv) (i j : nat) (x : jv) :
  (i < List.length l)%nat ->
  nth_error (replace_at l i x) j = if Nat.eqb j i then Some x else nth_error l j.
Proof.
  unfold replace_at. revert i j. induction l as [|y l IH]; intros i j H; simpl in H; [lia|].
  destruct i as [|i]; destruct j as [|j]; simpl; try reflexivity.
  apply IH. lia.
Qed.

Lemma hex_length bs : String.length (Bytes.hex bs) = (2 * List.length bs)%nat.
Proof. induction bs as [|b bs IH]; simpl; [reflexivity|]. rewrite IH. lia. Qed.

Lemma le_bytes_length n x : List.length (Bytes.le_bytes n x) = n.
Proof. revert x. induction n as [|n IH]; intros x; simpl; [reflexivity|]. now rewrite IH. Qed.

Lemma md5_digest_length m : List.length (MD5.digest m) = 16%nat.
Proof.
  unfold MD5.digest. destruct (fold_left _ _ _) as [[[a b] c] d].
  rewrite !length_app, !le_bytes_length. reflexivity.
Qed.

Lemma md5_digest_range m : Forall (fun b => 0 <= b < 256) (MD5.digest m).
Proof.
  unfold MD5.digest. destruct (fold_left _ _ _) as [[[a b] c] d].
  rewrite !Forall_app. repeat split; apply WebhookFacts.le_bytes_range.
Qed.

(** The sixteen lowercase hexadecimal digits. *)
Definition is_hex_char (c : ascii) : bool :=
  existsb (Ascii.eqb c) (list_ascii_of_string "0123456789abcdef").

Lemma hex_digit_is_hex d : 0 <= d < 16 -> is_hex_char (Bytes.hex_digit d) = true.
Proof.
  intros Hd. assert (exists n : nat, (n < 16)%nat /\ d = Z.of_nat n) as [n [Hn ->]]
    by (exists (Z.to_nat d); split; lia).
  do 16 (destruct n as [|n]; [reflexivity|]). lia.
Qed.

Lemma hex_chars_hex bs :
  Forall (fun b => 0 <= b < 256) bs -> forallb is_hex_char (list_ascii_of_string (Bytes.hex bs)) = true.
Proof.
  induction 1 as [|b bs Hb _ IH]; [reflexivity|]. simpl.
  rewrite !hex_digit_is_hex, IH; [reflexivity| |].
  - apply WebhookFacts.land_15_range.
  - split; [apply Z.shiftr_nonneg; lia|].
    rewrite Z.shiftr_div_pow2 by lia. apply Z.div_lt_upper_bound; simpl; lia.
Qed.

Lemma substring_prefix_chars (P : ascii -> bool) n s :
  forallb P (list_ascii_of_string s) = true ->
  forallb P (list_ascii_of_string (substring 0 n s)) = true.
Proof.
  revert n. induction s as [|c s IH]; intros n; simpl; [destruct n; reflexivity|].
  destruct n as [|n]; simpl; [reflexivity|].
  intros H. apply andb_true_iff in H as [Hc Hs]. rewrite Hc. simpl. auto.
Qed.

Lemma substring_prefix_length n s :
  (n <= String.length s)%nat -> String.length (substring 0 n s) = n.
Proof.
  revert n. induction s as [|c s IH]; intros n; simpl; [destruct n; simpl; lia|].
  destruct n as [|n]; simpl; [reflexivity|]. intros H. rewrite IH; lia.
Qed.

Lemma md5_prefix_16 s :
  String.length (substring 0 16 (MD5.hexdigest s)) = 16%nat /\
  forallb is_hex_char (list_ascii_of_string (substring 0 16 (MD5.hexdigest s))) = true.
Proof.
  unfold MD5.hexdigest. split.
  - apply substring_prefix_length. rewrite hex_length, md5_digest_length. lia.
  - apply substring_prefix_chars, hex_chars_hex, md5_digest_range.
Qed.

End TrackerMoreFacts.

(** [track] of an item whose id no element of the list holds, with a valid
    status, appends one dict at the end of the list (the caller's title,
    description and link, then its id, its status, [tracked_at],
    [updated_at] and a one-entry history, from three successive clock
    readings) and returns its id; the file then holds the whole dump, is
    left as it was when [open] fails, and holds a prefix of the dump when
    [json.dump] fails, without raising.  When the loaded items are not a
    list but an empty dict or string, the append raises [AttributeError]
    and nothing changes. *)
Theorem X7_track_appends_record (o : Tracker.save_outcome) (t1 t2 t3 : string)
    (d : Tracker.file) (item : Tracker.input_item) (s : string) :
  Tracker.is_valid_status s = true ->
  (forall l, Tracker.get_by_id (Tracker.VList l) (Tracker.generate_id item) = Tracker.Ok None ->
   let l' := l ++ [Tracker.tracked_item item (Tracker.generate_id item) s t1 t2 t3] in
   Tracker.track o t1 t2 t3 item s (Tracker.mkState (Tracker.VList l) d) =
   (Tracker.Ok (Some (Tracker.generate_id item)),
    Tracker.mkState (Tracker.VList l') (TrackerFacts.saved_file o (Tracker.VList l') d))) /\
  (forall v, (forall l, v <> Tracker.VList l) ->
   Tracker.get_by_id v (Tracker.generate_id item) = Tracker.Ok None ->
   Tracker.track o t1 t2 t3 item s (Tracker.mkState v d) =
   (Tracker.Raise (Tracker.AttributeError
                     ("'" ++ Tracker.type_name v ++ "' object has no attribute 'append'")%string),
    Tracker.mkState v d)).
Proof.
  intros Hs. split.
  - intros l Hnone l'.
    unfold Tracker.track, Tracker.bind, Tracker.get, Tracker.ret, Tracker.put.
    rewrite Hs. cbn [negb Tracker.items]. rewrite Hnone. rewrite TrackerFacts.save_state. reflexivity.
  - intros v Hv Hnone.
    unfold Tracker.track, Tracker.bind, Tracker.get, Tracker.ret, Tracker.raise.
    rewrite Hs. cbn [negb Tracker.items]. rewrite Hnone.
    destruct v; try reflexivity. exfalso. eapply Hv. reflexivity.
Qed.

Lemma X7_witness :
  Tracker.track Tracker.OpenFailed "t1" "t2" "t3" Tracker.example_item "new" Tracker.empty =
  (Tracker.Ok (Some (Tracker.generate_id Tracker.example_item)),
   Tracker.mkState
     (Tracker.VList [Tracker.tracked_item Tracker.example_item
                       (Tracker.generate_id Tracker.example_item) "new" "t1" "t2" "t3"])
     Tracker.FileAbsent) /\
  Tracker.track Tracker.Saved "t1" "t2" "t3" Tracker.example_item "new"
    (Tracker.mkState (Tracker.VDict []) Tracker.FileAbsent) =
  (Tracker.Raise (Tracker.AttributeError "'dict' object has no attribute 'append'"),
   Tracker.mkState (Tracker.VDict []) Tracker.FileAbsent).
Proof.
  split.
  - destruct (X7_track_appends_record Tracker.OpenFailed "t1" "t2" "t3" Tracker.FileAbsent
                Tracker.example_item "new" eq_refl) as [H _].
    apply (H []). vm_compute. reflexivity.
  - destruct (X7_track_appends_record Tracker.Saved "t1" "t2" "t3" Tracker.FileAbsent
                Tracker.example_item "new" eq_refl) as [_ H].
    apply H; [intros l; discriminate | vm_compute; reflexivity].
Defined.

(** [update_status] of an id that the lookup finds in the list, at
    position [i] (the first dict with that id), with a valid status: when
    the dict has a ["status"] and a list ["history"], the dict at [i]
    becomes the old one with the new status, [updated_at] set to the first
    clock reading and one status-change entry (timestamp from the second
    reading, old and new status, the note when non-empty) appended to its
    history; the other elements and the length are kept, and the file
    follows the save.  Without ["status"] it raises [KeyError] and changes
    nothing; without ["history"], or with a history that is not a list, it
    raises after the status and [updated_at] were already changed. *)
Theorem X8_update_status_updates_one (o : Tracker.save_outcome) (t1 t2 : string)
    (l : list Tracker.jv) (d : Tracker.file) (item_id new_status : string)
    (note : option string) (i : nat) (kvs : list (string * Tracker.jv)) :
  Tracker.is_valid_status new_status = true ->
  Tracker.get_by_id (Tracker.VList l) item_id = Tracker.Ok (Some (i, kvs)) ->
  let kvs1 := Tracker.dict_set (Tracker.dict_set kvs "status" (Tracker.VStr new_status))
                "updated_at" (Tracker.VStr t1) in
  let run := Tracker.update_status o t1 t2 item_id new_status note
               (Tracker.mkState (Tracker.VList l) d) in
  (forall old h, Tracker.dict_get kvs "status" = Some old ->
     Tracker.dict_get kvs "history" = Some (Tracker.VList h) ->
     let l' := TrackerMoreFacts.replace_at l i
                 (Tracker.VDict (Tracker.dict_set kvs1 "history"
                   (Tracker.VList (h ++ [Tracker.history_entry t2 old new_status note])))) in
     run = (Tracker.Ok tt, Tracker.mkState (Tracker.VList l')
                              (TrackerFacts.saved_file o (Tracker.VList l') d)) /\
     List.length l' = List.length l /\
     (forall j, j <> i -> nth_error l' j = nth_error l j)) /\
  (Tracker.dict_get kvs "status" = None ->
     run = (Tracker.Raise (Tracker.KeyError "status"), Tracker.mkState (Tracker.VList l) d)) /\
  (forall old, Tracker.dict_get kvs "status" = Some old ->
     Tracker.dict_get kvs "history" = None ->
     run = (Tracker.Raise (Tracker.KeyError "history"),
            Tracker.mkState (Tracker.VList (TrackerMoreFacts.replace_at l i (Tracker.VDict kvs1))) d)) /\
  (forall old v, Tracker.dict_get kvs "status" = Some old ->
     Tracker.dict_get kvs "history" = Some v -> (forall h, v <> Tracker.VList h) ->
     run = (Tracker.Raise (Tracker.AttributeError
                             ("'" ++ Tracker.type_name v ++ "' object has no attribute 'append'")%string),
            Tracker.mkState (Tracker.VList (TrackerMoreFacts.replace_at l i (Tracker.VDict kvs1))) d)).
Proof.
  intros Hs Hget kvs1 run.
  destruct (TrackerMoreFacts.find_item_position l item_id 0 i kvs Hget) as [_ [Hnth _]].
  rewrite Nat.sub_0_r in Hnth.
  assert (Hi : (i < List.length l)%nat) by (apply nth_error_Some; congruence).
  assert (Hh1 : Tracker.dict_get kvs1 "history" = Tracker.dict_get kvs "history").
  { unfold kvs1. rewrite !TrackerMoreFacts.dict_get_set_other by discriminate. reflexivity. }
  unfold run, Tracker.update_status, Tracker.bind, Tracker.get, Tracker.ret, Tracker.put,
    Tracker.raise.
  rewrite Hs. cbn [negb Tracker.items]. rewrite Hget. fold kvs1.
  split; [|split; [|split]].
  - intros old h Hst Hhist. cbv zeta. rewrite Hst, Hh1, Hhist.
    split; [|split].
    + unfold Tracker.set_item. cbn [Tracker.items Tracker.disk].
      rewrite TrackerFacts.save_state. reflexivity.
    + apply TrackerMoreFacts.replace_at_length. exact Hi.
    + intros j Hj. rewrite TrackerMoreFacts.replace_at_nth by exact Hi.
      apply Nat.eqb_neq in Hj. rewrite Hj. reflexivity.
  - intros Hst. rewrite Hst. reflexivity.
  - intros old Hst Hhist. rewrite Hst, Hh1, Hhist. reflexivity.
  - intros old v Hst Hhist Hv. rewrite Hst, Hh1, Hhist.
    destruct v; try reflexivity. exfalso. eapply Hv. reflexivity.
Qed.

Lemma X8_witness :
  Tracker.update_status Tracker.Saved "t4" "t5" "abc" "completed" (Some "")
    (Tracker.mkState (Tracker.VList [Tracker.VDict [("id", Tracker.VStr "abc");
                                                     ("status", Tracker.VStr "new");
                                                     ("history", Tracker.VList [])]])
                     Tracker.FileAbsent)
  = (Tracker.Ok tt,
     Tracker.mkState
       (Tracker.VList [Tracker.VDict [("id", Tracker.VStr "abc"); ("status", Tracker.VStr "completed");
                                      ("history", Tracker.VList [Tracker.history_entry "t5"
                                                   (Tracker.VStr "new") "completed" (Some "")]);
                                      ("updated_at", Tracker.VStr "t4")]])
       (Tracker.FileDump
          (Tracker.VList [Tracker.VDict [("id", Tracker.VStr "abc"); ("status", Tracker.VStr "completed");
                                         ("history", Tracker.VList [Tracker.history_entry "t5"
                                                      (Tracker.VStr "new") "completed" (Some "")]);
                                         ("updated_at", Tracker.VStr "t4")]]))).
Proof.
  destruct (X8_update_status_updates_one Tracker.Saved "t4" "t5"
              [Tracker.VDict [("id", Tracker.VStr "abc"); ("status", Tracker.VStr "new");
                              ("history", Tracker.VList [])]]
              Tracker.FileAbsent "abc" "completed" (Some "") 0
              [("id", Tracker.VStr "abc"); ("status", Tracker.VStr "new");
               ("history", Tracker.VList [])] eq_refl eq_refl) as [H _].
  destruct (H (Tracker.VStr "new") [] eq_refl eq_refl) as [Hrun _].
  rewrite Hrun. reflexivity.
Defined.

(** [delete] on a list of item dicts removes every dict with the given id
    and keeps the others in order (an id no dict holds keeps the list as it
    is), then saves; afterwards no dict holds the id, a dict is kept exactly
    when it was there without that id, and tracking an item with that id
    again returns its id.  An element that is not a dict makes [delete]
    raise [AttributeError] with nothing changed. *)
Theorem X9_delete_removes_id (o : Tracker.save_outcome) (l : list Tracker.jv) (d : Tracker.file)
    (item_id : string) :
  (TrackerFacts.all_dicts l ->
   let l' := TrackerMoreFacts.others l item_id in
   TrackerMore.delete o item_id (Tracker.mkState (Tracker.VList l) d) =
     (Tracker.Ok tt, Tracker.mkState (Tracker.VList l') (TrackerFacts.saved_file o (Tracker.VList l') d)) /\
   (~ TrackerFacts.holds_id l item_id -> l' = l) /\
   ~ TrackerFacts.holds_id l' item_id /\
   (forall kvs, In (Tracker.VDict kvs) l' <-> In (Tracker.VDict kvs) l /\ Tracker.has_id kvs item_id = false) /\
   (forall o' t1 t2 t3 item s,
      Tracker.generate_id item = item_id -> Tracker.is_valid_status s = true ->
      fst (Tracker.track o' t1 t2 t3 item s
             (snd (TrackerMore.delete o item_id (Tracker.mkState (Tracker.VList l) d))))
      = Tracker.Ok (Some item_id))) /\
  (forall v, In v l -> TrackerFacts.is_dict v = false ->
   exists e, TrackerMore.delete o item_id (Tracker.mkState (Tracker.VList l) d)
             = (Tracker.Raise e, Tracker.mkState (Tracker.VList l) d)).
Proof.
  split.
  - intros Hd l'.
    assert (Hdel : TrackerMore.delete o item_id (Tracker.mkState (Tracker.VList l) d) =
      (Tracker.Ok tt, Tracker.mkState (Tracker.VList l') (TrackerFacts.saved_file o (Tracker.VList l') d))).
    { unfold TrackerMore.delete, Tracker.bind, Tracker.get, Tracker.put. cbn [Tracker.items Tracker.iter_items].
      rewrite TrackerMoreFacts.keep_others_dicts by exact Hd.
      apply TrackerFacts.save_state. }
    split; [exact Hdel|]. split; [apply TrackerMoreFacts.others_unchanged; exact Hd|].
    split; [apply TrackerMoreFacts.others_absent|].
    split; [intros kvs; apply TrackerMoreFacts.in_others|].
    intros o' t1 t2 t3 item s Hid Hs. rewrite Hdel. cbn [snd].
    unfold Tracker.track, Tracker.bind, Tracker.get, Tracker.ret, Tracker.put.
    rewrite Hs. cbn [negb Tracker.items]. rewrite Hid. unfold Tracker.get_by_id.
    cbn [Tracker.iter_items].
    rewrite (TrackerFacts.find_item_absent l' item_id 0).
    + rewrite TrackerFacts.save_state. reflexivity.
    + apply TrackerMoreFacts.others_all_dicts. exact Hd.
    + apply TrackerMoreFacts.others_absent.
  - intros v Hin Hv.
    destruct (TrackerMoreFacts.keep_others_non_dict l item_id v Hin Hv) as [e He].
    exists e. unfold TrackerMore.delete, Tracker.bind, Tracker.get, Tracker.raise.
    cbn [Tracker.items Tracker.iter_items]. rewrite He. reflexivity.
Qed.

Lemma X9_witness :
  fst (Tracker.track Tracker.Saved "t4" "t5" "t6" Tracker.example_item "completed"
         (snd (TrackerMore.delete Tracker.Saved (Tracker.generate_id Tracker.example_item)
                 (Tracker.mkState (Tracker.VList [Tracker.tracked_item Tracker.example_item
                    (Tracker.generate_id Tracker.example_item) "new" "t1" "t2" "t3"]) Tracker.FileAbsent))))
  = Tracker.Ok (Some (Tracker.generate_id Tracker.example_item)) /\
  exists e, TrackerMore.delete Tracker.Saved "abc"
              (Tracker.mkState (Tracker.VList [Tracker.VStr "x"]) Tracker.FileAbsent)
            = (Tracker.Raise e, Tracker.mkState (Tracker.VList [Tracker.VStr "x"]) Tracker.FileAbsent).
Proof.
  split.
  - destruct (X9_delete_removes_id Tracker.Saved
                [Tracker.tracked_item Tracker.example_item
                   (Tracker.generate_id Tracker.example_item) "new" "t1" "t2" "t3"]
                Tracker.FileAbsent (Tracker.generate_id Tracker.example_item)) as [H _].
    destruct H as [_ [_ [_ [_ H]]]]; [constructor; [reflexivity | constructor]|].
    apply H; reflexivity.
  - destruct (X9_delete_removes_id Tracker.Saved [Tracker.VStr "x"] Tracker.FileAbsent "abc")
      as [_ H].
    apply (H (Tracker.VStr "x")); [left; reflexivity | reflexivity].
Defined.

(** The id [_generate_id] gives is 16 lowercase hexadecimal digits; two
    items with the same non-empty link get the same id whatever their title
    and description. *)
Theorem X12_generate_id_format (item item' : Tracker.input_item) :
  String.length (Tracker.generate_id item) = 16%nat /\
  forallb TrackerMoreFacts.is_hex_char (list_ascii_of_string (Tracker.generate_id item)) = true /\
  (Tracker.in_link item' = Tracker.in_link item -> Tracker.in_link item <> ""%string ->
   Tracker.generate_id item' = Tracker.generate_id item).
Proof.
  unfold Tracker.generate_id.
  split; [|split].
  - destruct (negb _); apply TrackerMoreFacts.md5_prefix_16.
  - destruct (negb _); apply TrackerMoreFacts.md5_prefix_16.
  - intros Hl Hne. rewrite Hl. apply String.eqb_neq in Hne. now rewrite Hne.
Qed.

Lemma X12_witness :
  Tracker.generate_id (Tracker.mkInput "Another title" "" "https://jobs.example/42")
  = Tracker.generate_id Tracker.example_item.
Proof.
  destruct (X12_generate_id_format Tracker.example_item
              (Tracker.mkInput "Another title" "" "https://jobs.example/42")) as [_ [_ H]].
  apply H; [reflexivity | discriminate].
Defined.

(* ----------------------------------------------------------------- *)
(** *** Domain *)

Module DomainMoreFacts.
Import Regex Domain DomainMore.
Open Scope Z_scope.

Lemma decimal_value_range (c : Z) : 0 <= Unicode.decimal_value c < 10.
Proof.
  unfold Unicode.decimal_value.
  destruct (find _ _) as [[lo hi]|]; [apply Z.mod_pos_bound; lia | lia].
Qed.

Lemma int_of_digits_nonneg (w : list Z) (n : Z) : int_of_digits w = Some n -> 0 <= n.
Proof.
  unfold int_of_digits. destruct (int_max_str_digits <? _); [discriminate|].
  intros [= <-].
  assert (G : forall acc, 0 <= acc ->
            0 <= fold_left (fun acc c => 10 * acc + Unicode.decimal_value c) w acc).
  { induction w as [|c w IH]; intros acc Hacc; cbn [fold_left]; [exact Hacc|].
    apply IH. pose proof (decimal_value_range c). lia. }
  apply G. lia.
Qed.

Lemma ints_of_matches_nonneg (ms : list (list Z)) : Forall (fun n => 0 <= n) (ints_of_matches ms).
Proof.
  apply Forall_forall. intros n Hn. unfold ints_of_matches in Hn.
  apply in_flat_map in Hn as [w [_ Hw]].
  destruct (int_of_digits w) eqn:E; [|destruct Hw].
  destruct Hw as [<-|[]]. exact (int_of_digits_nonneg w z E).
Qed.

Lemma scan_no_digit (rest : re) (fuel : nat) (s : list Z) :
  forallb (fun c => negb (is_digit c)) s = true ->
  scan (RPlus (RChar is_digit)) rest fuel s = [].
Proof.
  revert s. induction fuel as [|f IH]; intros s Hs; [reflexivity|].
  destruct s as [|c s'].
  - reflexivity.
  - simpl in Hs. apply andb_true_iff in Hs as [Hc Hs].
    apply negb_true_iff in Hc. cbn [scan]. cbn [m RPlus]. rewrite Hc. exact (IH _ Hs).
Qed.

(** The entry [_compute_temperature_ranges] adds for one key. *)
Definition entry (kv : string * yaml) : list (string * (PyFloat.float * PyFloat.float)) :=
  match snd kv with
  | YList [a; b] =>
      if is_number a && is_number b then
        match to_float a, to_float b with
        | Some x, Some y => [(fst kv, (x, y))]
        | _, _ => []
        end
      else []
  | _ => []
  end.

(** The [float(...)] of one key's value raises [OverflowError]. *)
Definition overflows (kv : string * yaml) : Prop :=
  exists a b, snd kv = YList [a; b] /\ is_number a = true /\ is_number b = true /\
              (to_float a = None \/ to_float b = None).

Lemma compute_ranges_cases (ranges : list (string * yaml)) :
  (compute_temperature_ranges ranges = Some (flat_map entry ranges) /\
   Forall (fun kv => ~ overflows kv) ranges) \/
  (compute_temperature_ranges ranges = None /\ Exists overflows ranges).
Proof.
  induction ranges as [|[k v] rest IH]; [left; split; [reflexivity | constructor]|].
  assert (Hskip : compute_temperature_ranges ((k, v) :: rest) = compute_temperature_ranges rest ->
                  entry (k, v) = [] -> ~ overflows (k, v) ->
                  (compute_temperature_ranges ((k, v) :: rest) = Some (flat_map entry ((k, v) :: rest)) /\
                   Forall (fun kv => ~ overflows kv) ((k, v) :: rest)) \/
                  (compute_temperature_ranges ((k, v) :: rest) = None /\ Exists overflows ((k, v) :: rest))).
  { intros Hc He Ho. rewrite Hc. simpl. rewrite He. simpl.
    destruct IH as [[H1 H2]|[H1 H2]]; [left|right]; split; auto. }
  destruct v as [|b0|z0|q0|s0|l|m0];
    try (apply Hskip; [reflexivity | reflexivity | intros (a & b & Hv & _); discriminate]).
  destruct l as [|a [|b [|c l]]];
    try (apply Hskip; [reflexivity | reflexivity | intros (a' & b' & Hv & _); discriminate]).
  destruct (is_number a) eqn:Ea; destruct (is_number b) eqn:Eb;
    try (apply Hskip; [simpl; rewrite Ea, Eb; reflexivity | unfold entry; simpl; rewrite Ea, Eb; reflexivity
                      | intros (a' & b' & Hv & Ha & Hb & _); injection Hv as <- <-; congruence]).
  destruct (to_float a) as [x|] eqn:Fa; destruct (to_float b) as [y|] eqn:Fb.
  - destruct IH as [[H1 H2]|[H1 H2]].
    + left. split.
      * simpl. rewrite Ea, Eb, Fa, Fb, H1. unfold entry. simpl. rewrite Ea, Eb, Fa, Fb. reflexivity.
      * constructor; [|exact H2].
        intros (a' & b' & Hv & _ & _ & Ho). injection Hv as <- <-. destruct Ho; congruence.
    + right. split; [simpl; rewrite Ea, Eb, Fa, Fb, H1; reflexivity | right; exact H2].
  - right. split; [simpl; rewrite Ea, Eb, Fa, Fb; reflexivity|].
    left. exists a, b. auto.
  - right. split; [simpl; rewrite Ea, Eb, Fa; reflexivity|].
    left. exists a, b. auto.
  - right. split; [simpl; rewrite Ea, Eb, Fa; reflexivity|].
    left. exists a, b. auto.
Qed.

Lemma in_flat_map_entry (ranges : list (string * yaml)) k x y :
  In (k, (x, y)) (flat_map entry ranges) <->
  exists a b, In (k, YList [a; b]) ranges /\ is_number a = true /\ is_number b = true /\
              to_float a = Some x /\ to_float b = Some y.
Proof.
  rewrite in_flat_map. split.
  - intros ([k0 v] & Hin & He). unfold entry in He. simpl in He.
    destruct v as [|b0|z0|q0|s0|l|m0]; try contradiction.
    destruct l as [|a [|b [|c l]]]; try contradiction.
    destruct (is_number a) eqn:Ea, (is_number b) eqn:Eb; simpl in He; try contradiction.
    destruct (to_float a) eqn:Fa, (to_float b) eqn:Fb; simpl in He; try contradiction.
    destruct He as [He|[]]. injection He as <- <- <-. exists a, b. auto.
  - intros (a & b & Hin & Ha & Hb & Fa & Fb). exists (k, YList [a; b]). split; [exact Hin|].
    unfold entry. simpl. rewrite Ha, Hb, Fa, Fb. left. reflexivity.
Qed.

End DomainMoreFacts.

(** Every temperature and every percentage the patterns extract is a
    non-negative integer: the sign before the digits is never read, so
    "-20°C" is read as 20.  A text without a decimal digit (a character
    [\d] matches: [str.isdecimal], ASCII or not) has none:
    [validate_temperature_claim] answers "No specific temperatures claimed"
    and [check_mass_balance] returns "No specific yields claimed", both
    valid. *)
Theorem X13_extraction_nonnegative (text : string) :
  Forall (fun t => (0 <= t)%Z) (Domain.extract_temperatures (Unicode.decode text)) /\
  Forall (fun p => (0 <= p)%Z) (Domain.extract_percentages (Unicode.decode text)) /\
  (forallb (fun c => negb (Regex.is_digit c)) (Unicode.decode text) = true ->
   forall cfg,
   Domain.validate_temperature_claim cfg text
   = Domain.mkVerdict true "No specific temperatures claimed" /\
   Domain.check_mass_balance text
   = Domain.Returned (Domain.mkVerdict true "No specific yields claimed")).
Proof.
  split; [apply DomainMoreFacts.ints_of_matches_nonneg|].
  split; [apply DomainMoreFacts.ints_of_matches_nonneg|].
  intros H cfg.
  unfold Domain.validate_temperature_claim, Domain.check_mass_balance,
    Domain.extract_temperatures, Domain.extract_percentages, Regex.findall,
    Domain.TEMP_GROUP, Domain.PCT_GROUP.
  cbv zeta.
  rewrite !DomainMoreFacts.scan_no_digit by exact H. split; reflexivity.
Qed.

Lemma X13_witness :
  Domain.validate_temperature_claim Domain.test_config "Pyrolysis runs hot."
  = Domain.mkVerdict true "No specific temperatures claimed" /\
  Domain.check_mass_balance "Pyrolysis runs hot."
  = Domain.Returned (Domain.mkVerdict true "No specific yields claimed").
Proof.
  destruct (X13_extraction_nonnegative "Pyrolysis runs hot.") as [_ [_ H]].
  apply H. vm_compute. reflexivity.
Defined.

(** With no temperature ranges configured, [validate_temperature_claim] is
    valid when every extracted temperature is at most 2000 (the lower bound
    -50 is never reached by an extracted value); otherwise the first one
    above 2000 makes it invalid with "Temperature <t>°C may be
    unrealistic". *)
Theorem X14_no_ranges_claim (cfg : Domain.DomainConfig) (text : string) :
  Domain.temperature_ranges cfg = [] ->
  (Forall (fun t => (t <= 2000)%Z) (Domain.extract_temperatures (Unicode.decode text)) ->
   Domain.valid (Domain.validate_temperature_claim cfg text) = true) /\
  (forall pre t post,
   Domain.extract_temperatures (Unicode.decode text) = pre ++ t :: post ->
   Forall (fun t => (t <= 2000)%Z) pre -> (2000 < t)%Z ->
   Domain.validate_temperature_claim cfg text
   = Domain.mkVerdict false ("Temperature " ++ Py.str_of_Z t ++ Domain.deg_C ++ " may be unrealistic")%string).
Proof.
  intros Hr.
  pose proof (DomainMoreFacts.ints_of_matches_nonneg
                (Regex.findall Domain.TEMP_GROUP Domain.TEMP_REST (Unicode.decode text))) as Hnn.
  fold (Domain.extract_temperatures (Unicode.decode text)) in Hnn.
  unfold Domain.validate_temperature_claim. cbv zeta.
  assert (Hstep : forall t, (0 <= t)%Z ->
            Domain.check_temperature_in_range cfg t =
            if (t <=? 2000)%Z then None
            else Some ("Temperature " ++ Py.str_of_Z t ++ Domain.deg_C ++ " may be unrealistic")%string).
  { intros t Ht. unfold Domain.check_temperature_in_range, Domain.validate_temperature.
    rewrite Hr. replace (-50 <=? t)%Z with true by (symmetry; apply Z.leb_le; lia).
    destruct (t <=? 2000)%Z; reflexivity. }
  assert (Hpm : forall t, Domain.check_temperature_process_match cfg t (Unicode.decode text) = None)
    by (intros t; unfold Domain.check_temperature_process_match; rewrite Hr; reflexivity).
  split.
  - intros Hall. destruct (Domain.extract_temperatures (Unicode.decode text)) as [|t0 ts]; [reflexivity|].
    clear - Hall Hnn Hstep Hpm. induction ts as [|t ts IH] in t0, Hall, Hnn |- *;
      inversion Hall as [|? ? Ht0 Hts]; inversion Hnn as [|? ? Hn0 Hns]; subst; simpl;
      rewrite Hstep by exact Hn0; replace (t0 <=? 2000)%Z with true by (symmetry; apply Z.leb_le; lia);
      rewrite Hpm; [reflexivity|].
    apply IH; assumption.
  - intros pre t post He Hpre Ht. rewrite He. rewrite He in Hnn. clear He.
    destruct pre as [|t0 pre].
    + simpl. inversion Hnn as [|? ? Hn0 _]; subst.
      rewrite Hstep by exact Hn0.
      replace (t <=? 2000)%Z with false by (symmetry; apply Z.leb_gt; lia). reflexivity.
    + cbn [app]. clear - Hpre Hnn Hstep Hpm Ht.
      induction pre as [|t1 pre IH] in t0, Hpre, Hnn |- *;
        inversion Hpre as [|? ? Ht0 Hts]; inversion Hnn as [|? ? Hn0 Hns]; subst; simpl;
        rewrite Hstep by exact Hn0; replace (t0 <=? 2000)%Z with true by (symmetry; apply Z.leb_le; lia);
        rewrite Hpm.
      * inversion Hns as [|? ? Hn1 _]; subst. rewrite Hstep by exact Hn1.
        replace (t <=? 2000)%Z with false by (symmetry; apply Z.leb_gt; lia). reflexivity.
      * apply IH; assumption.
Qed.

Lemma X14_witness :
  Domain.validate_temperature_claim (Domain.mkConfig "thermal_processing" [])
    "Runs at 500 C, peaks at 2500 C"
  = Domain.mkVerdict false ("Temperature 2500" ++ Domain.deg_C ++ " may be unrealistic")%string.
Proof.
  destruct (X14_no_ranges_claim (Domain.mkConfig "thermal_processing" [])
              "Runs at 500 C, peaks at 2500 C" eq_refl) as [_ H].
  apply (H [500%Z] 2500%Z []); [vm_compute; reflexivity | repeat constructor; lia | lia].
Defined.


(** [validate_pressure(p)] on an [operating_conditions] mapping: without a
    [pressure] entry it accepts exactly 0.1 <= p <= 1000 (0.1 as the
    float); a numeric minimum above [p] rejects [p] without looking at the
    maximum (which may then be anything, even a string); a numeric minimum
    above a numeric maximum rejects every pressure; a [pressure] entry that
    is not a mapping (e.g. [null]) raises. *)
Theorem X17_validate_pressure (c : list (string * DomainMore.yaml)) (p : Q) :
  (DomainMore.lookup_y c "pressure" = None ->
   DomainMore.validate_pressure (DomainMore.YMap c) p
   = Some (Qle_bool DomainMore.float_0_1 p && Qle_bool p 1000)) /\
  (forall pr vlo lo,
   DomainMore.lookup_y c "pressure" = Some (DomainMore.YMap pr) ->
   DomainMore.lookup_y pr "min" = Some vlo -> DomainMore.as_number vlo = Some lo ->
   (p < lo)%Q ->
   DomainMore.validate_pressure (DomainMore.YMap c) p = Some false) /\
  (forall pr vlo lo vhi hi,
   DomainMore.lookup_y c "pressure" = Some (DomainMore.YMap pr) ->
   DomainMore.lookup_y pr "min" = Some vlo -> DomainMore.as_number vlo = Some lo ->
   DomainMore.lookup_y pr "max" = Some vhi -> DomainMore.as_number vhi = Some hi ->
   (hi < lo)%Q ->
   DomainMore.validate_pressure (DomainMore.YMap c) p = Some false) /\
  (forall v, DomainMore.lookup_y c "pressure" = Some v -> (forall pr, v <> DomainMore.YMap pr) ->
   DomainMore.validate_pressure (DomainMore.YMap c) p = None).
Proof.
  unfold DomainMore.validate_pressure. split; [|split; [|split]].
  - intros H. rewrite H. cbn [DomainMore.lookup_y fold_left DomainMore.as_number].
    destruct (Qle_bool DomainMore.float_0_1 p); reflexivity.
  - intros pr vlo lo Hp Hmin Hlo Hlt. rewrite Hp, Hmin, Hlo.
    destruct (Qle_bool lo p) eqn:E; [|reflexivity].
    apply Qle_bool_iff in E. exfalso. apply (Qlt_not_le p lo); assumption.
  - intros pr vlo lo vhi hi Hp Hmin Hlo Hmax Hhi Hlt. rewrite Hp, Hmin, Hlo, Hmax, Hhi.
    destruct (Qle_bool lo p) eqn:E; [|reflexivity].
    destruct (Qle_bool p hi) eqn:E2; [|reflexivity].
    apply Qle_bool_iff in E, E2. exfalso. apply (Qlt_not_le hi lo); [assumption|].
    apply (Qle_trans _ p); assumption.
  - intros v Hp Hnot. rewrite Hp.
    destruct v; try reflexivity. exfalso. eapply Hnot. reflexivity.
Qed.

Lemma X17_witness :
  DomainMore.validate_pressure
    (DomainMore.YMap [("pressure", DomainMore.YMap [("min", DomainMore.YInt 5);
                                                   ("max", DomainMore.YStr "high")])]) 1
  = Some false.
Proof.
  destruct (X17_validate_pressure
              [("pressure", DomainMore.YMap [("min", DomainMore.YInt 5);
                                             ("max", DomainMore.YStr "high")])] 1) as [_ [H _]].
  apply (H [("min", DomainMore.YInt 5); ("max", DomainMore.YStr "high")] (DomainMore.YInt 5) 5);
    [reflexivity | reflexivity | reflexivity |].
  unfold Qlt. simpl. lia.
Defined.

(** [_compute_temperature_ranges] raises ([OverflowError]) exactly when
    some entry whose value is a two-element list of numbers has a bound
    that [float()] cannot convert (an [int] too large for a float);
    otherwise it keeps exactly those entries, each as the pair
    [(float(a), float(b))] of its bounds (a boolean counting as 0 or 1),
    and drops every other entry. *)
Theorem X18_compute_temperature_ranges (ranges : list (string * DomainMore.yaml)) :
  (DomainMore.compute_temperature_ranges ranges = None <->
   exists k a b, In (k, DomainMore.YList [a; b]) ranges /\
                 DomainMore.is_number a = true /\ DomainMore.is_number b = true /\
                 (DomainMore.to_float a = None \/ DomainMore.to_float b = None)) /\
  (forall rs, DomainMore.compute_temperature_ranges ranges = Some rs ->
   forall k x y,
   In (k, (x, y)) rs <->
   exists a b, In (k, DomainMore.YList [a; b]) ranges /\
               DomainMore.is_number a = true /\ DomainMore.is_number b = true /\
               DomainMore.to_float a = Some x /\ DomainMore.to_float b = Some y).
Proof.
  destruct (DomainMoreFacts.compute_ranges_cases ranges) as [[Hc Hf]|[Hc Hx]].
  - rewrite Hc. split.
    + split; [discriminate|]. intros (k & a & b & Hin & Ha & Hb & Ho).
      rewrite Forall_forall in Hf. exfalso. apply (Hf _ Hin). exists a, b. auto.
    + intros rs [= <-] k x y. apply DomainMoreFacts.in_flat_map_entry.
  - rewrite Hc. split.
    + split; [intros _|reflexivity].
      apply Exists_exists in Hx as ([k v] & Hin & a & b & Hv & Ha & Hb & Ho).
      simpl in Hv. subst v. exists k, a, b. auto.
    + intros rs Hrs. discriminate.
Qed.

Lemma X18_witness :
  (DomainMore.compute_temperature_ranges
     [("pyrolysis", DomainMore.YList [DomainMore.YBool false; DomainMore.YInt 600]);
      ("bad", DomainMore.YList [DomainMore.YStr "low"; DomainMore.YInt 600]);
      ("huge", DomainMore.YList [DomainMore.YInt 0; DomainMore.YInt (10 ^ 400)])] = None) /\
  In ("pyrolysis"%string, (PyFloat.of_small 0, PyFloat.of_small 600))
    [("pyrolysis"%string, (PyFloat.of_small 0, PyFloat.of_small 600))].
Proof.
  destruct (X18_compute_temperature_ranges
     [("pyrolysis", DomainMore.YList [DomainMore.YBool false; DomainMore.YInt 600]);
      ("bad", DomainMore.YList [DomainMore.YStr "low"; DomainMore.YInt 600]);
      ("huge", DomainMore.YList [DomainMore.YInt 0; DomainMore.YInt (10 ^ 400)])]) as [H1 _].
  destruct (X18_compute_temperature_ranges
     [("pyrolysis", DomainMore.YList [DomainMore.YBool false; DomainMore.YInt 600]);
      ("bad", DomainMore.YList [DomainMore.YStr "low"; DomainMore.YInt 600])]) as [_ H2].
  split.
  - apply H1. exists "huge"%string, (DomainMore.YInt 0), (DomainMore.YInt (10 ^ 400)).
    split; [right; right; left; reflexivity|].
    split; [reflexivity|]. split; [reflexivity|]. right. vm_compute. reflexivity.
  - apply (H2 [("pyrolysis"%string, (PyFloat.of_small 0, PyFloat.of_small 600))]);
      [vm_compute; reflexivity|].
    exists (DomainMore.YBool false), (DomainMore.YInt 600).
    split; [left; reflexivity|]. split; [reflexivity|]. split; [reflexivity|].
    split; vm_compute; reflexivity.
Defined.

(* ----------------------------------------------------------------- *)
(** *** Blocklist *)

Module AggregatorBlockFacts.
Import Aggregator AggregatorBlock.

Lemma is_blocked_app bl1 bl2 it company :
  is_blocked (bl1 ++ bl2) it company = is_blocked bl1 it company || is_blocked bl2 it company.
Proof.
  induction bl1 as [|b bl1 IH]; simpl; [reflexivity|].
  match goal with |- (if ?h then _ else _) = _ => destruct h end; [reflexivity|exact IH].
Qed.


End AggregatorBlockFacts.

(** Filtering with two blocklists one after the other is filtering with
    their concatenation; an empty blocklist keeps every item, filtering is
    idempotent, and the items kept are exactly the unblocked ones, in their
    original order. *)
Theorem X19_filter_blocked_compose (bl1 bl2 : list AggregatorBlock.block)
    (items : list (Aggregator.item * string)) :
  AggregatorBlock.filter_blocked (bl1 ++ bl2) items
  = AggregatorBlock.filter_blocked bl2 (AggregatorBlock.filter_blocked bl1 items) /\
  AggregatorBlock.filter_blocked [] items = items /\
  AggregatorBlock.filter_blocked bl1 (AggregatorBlock.filter_blocked bl1 items)
  = AggregatorBlock.filter_blocked bl1 items /\
  (forall ic, In ic (AggregatorBlock.filter_blocked bl1 items) <->
              In ic items /\ AggregatorBlock.is_blocked bl1 (fst ic) (snd ic) = false).
Proof.
  unfold AggregatorBlock.filter_blocked. split; [|split; [|split]].
  - induction items as [|ic items IH]; simpl; [reflexivity|].
    rewrite AggregatorBlockFacts.is_blocked_app.
    destruct (AggregatorBlock.is_blocked bl1 _ _); simpl; [exact IH|].
    destruct (AggregatorBlock.is_blocked bl2 _ _); simpl; [exact IH|]. f_equal. exact IH.
  - induction items as [|ic items IH]; simpl; [reflexivity|]. f_equal. exact IH.
  - induction items as [|ic items IH]; simpl; [reflexivity|].
    destruct (AggregatorBlock.is_blocked bl1 _ _) eqn:E; simpl; [exact IH|].
    rewrite E. simpl. f_equal. exact IH.
  - intros ic. rewrite filter_In. rewrite negb_true_iff. reflexivity.
Qed.


Lemma X19_witness :
  In (AggregatorExamples.B, "Acme"%string)
     (AggregatorBlock.filter_blocked [AggregatorBlock.mkBlock (Some "employer") "Initech"]
        [(AggregatorExamples.B, "Acme"%string); (AggregatorExamples.C, "Initech"%string)]) /\
  AggregatorBlock.is_blocked [AggregatorBlock.mkBlock (Some "employer") "Initech"]
    AggregatorExamples.B "Acme" = false.
Proof.
  destruct (X19_filter_blocked_compose [AggregatorBlock.mkBlock (Some "employer") "Initech"] []
              [(AggregatorExamples.B, "Acme"%string); (AggregatorExamples.C, "Initech"%string)])
    as [_ [_ [_ H]]].
  split; [apply H; split; [left; reflexivity | vm_compute; reflexivity] | vm_compute; reflexivity].
Defined.


(* ----------------------------------------------------------------- *)
(** *** Local model listing *)

Module ModelSelectorMoreFacts.
Import Webhook ModelSelectorMore.

(** The name of a listed model, [null] for an entry without one. *)
Definition model_name (j : json) : json :=
  match j with
  | JObj f => match lookup f "name" with Some n => n | None => JNull end
  | _ => JNull
  end.

Definition well_formed (j : json) : Prop := exists f n, j = JObj f /\ lookup f "name" = Some n.

Lemma names_ok (ms : list json) : Forall well_formed ms -> names ms = Some (map model_name ms).
Proof.
  induction 1 as [|j ms (f & n & -> & Hn) _ IH]; [reflexivity|].
  simpl. rewrite Hn, IH. reflexivity.
Qed.

Lemma names_bad (ms : list json) j :
  In j ms -> ~ well_formed j -> names ms = None.
Proof.
  induction ms as [|j' ms IH]; simpl; [tauto|]. intros [->|Hin] Hbad.
  - destruct j; try reflexivity.
    destruct (lookup fields "name") eqn:E; [|reflexivity].
    exfalso. apply Hbad. exists fields, j. auto.
  - rewrite (IH Hin Hbad). destruct j'; try reflexivity.
    destruct (lookup fields "name"); reflexivity.
Qed.

End ModelSelectorMoreFacts.

(** [_list_available_models()] returns a non-empty list only for a 200
    answer whose JSON object has a [models] list; then, when every entry is
    an object with a [name], it is the list of those names in order, and a
    single entry without a [name] (or not an object) makes the whole result
    empty. *)
Theorem X21_list_available_models (r : ModelSelectorMore.tags_response) :
  (ModelSelectorMore.list_available_models r <> [] ->
   exists data ms, r = ModelSelectorMore.HttpResponse 200 (Some (Webhook.JObj data)) /\
                   Webhook.lookup data "models" = Some (Webhook.JArr ms) /\
                   ModelSelectorMore.names ms = Some (ModelSelectorMore.list_available_models r)) /\
  (forall data ms,
   r = ModelSelectorMore.HttpResponse 200 (Some (Webhook.JObj data)) ->
   Webhook.lookup data "models" = Some (Webhook.JArr ms) ->
   (Forall ModelSelectorMoreFacts.well_formed ms ->
    ModelSelectorMore.list_available_models r = map ModelSelectorMoreFacts.model_name ms) /\
   (forall j, In j ms -> ~ ModelSelectorMoreFacts.well_formed j ->
    ModelSelectorMore.list_available_models r = [])).
Proof.
  split.
  - intros Hne. destruct r as [|code [body|]]; [contradiction|..|contradiction].
    destruct body as [| | | | | |data]; try contradiction.
    unfold ModelSelectorMore.list_available_models in *.
    destruct (Z.eqb_spec code 200) as [->|]; [|contradiction].
    unfold ModelSelectorMore.model_names in *.
    destruct (Webhook.lookup data "models") as [[| | | | |ms|]|] eqn:Em; try contradiction.
    destruct (ModelSelectorMore.names ms) as [l|] eqn:E; [|contradiction].
    exists data, ms. auto.
  - intros data ms -> Hm. unfold ModelSelectorMore.list_available_models. cbn [Z.eqb].
    rewrite Hm. unfold ModelSelectorMore.model_names. split.
    + intros Hall. now rewrite ModelSelectorMoreFacts.names_ok.
    + intros j Hin Hbad. now rewrite (ModelSelectorMoreFacts.names_bad ms j Hin Hbad).
Qed.

Lemma X21_witness :
  ModelSelectorMore.list_available_models
    (ModelSelectorMore.HttpResponse 200
       (Some (Webhook.JObj [("models", Webhook.JArr [Webhook.JObj [("name", Webhook.JStr "llama3.2:3b")];
                                                     Webhook.JObj [("size", Webhook.JInt 5)]])])))
  = [].
Proof.
  destruct (X21_list_available_models
    (ModelSelectorMore.HttpResponse 200
       (Some (Webhook.JObj [("models", Webhook.JArr [Webhook.JObj [("name", Webhook.JStr "llama3.2:3b")];
                                                     Webhook.JObj [("size", Webhook.JInt 5)]])])))) as [_ H].
  destruct (H _ _ eq_refl eq_refl) as [_ H2].
  apply (H2 (Webhook.JObj [("size", Webhook.JInt 5)])); [right; left; reflexivity|].
  intros (f & n & Hf & Hn). injection Hf as <-. discriminate.
Defined.

(** With the availability check, [select_model] on a listing that yields no
    model name as a string (the request failed, the daemon answered another
    status, the body is not a JSON object, or any entry lacks a [name])
    returns the top recommendation, as without the check. *)
Theorem X22_select_model_listing_failure (v : Q) (t : ModelSelector.TaskType)
    (r : ModelSelectorMore.tags_response) :
  ModelSelectorMore.json_strings (ModelSelectorMore.list_available_models r) = [] ->
  ModelSelectorMore.select_model_checked v t r = ModelSelector.select_model v t false [] /\
  exists rec rest, ModelSelector.get_recommendations v t = Some (rec :: rest) /\
                   ModelSelectorMore.select_model_checked v t r = Some (ModelSelector.name rec).
Proof.
  intros Hs. unfold ModelSelectorMore.select_model_checked. rewrite Hs.
  destruct (ModelSelectorFacts.recommendations_nonempty v t) as (rec & rest & Hrec).
  assert (H : ModelSelector.select_model v t true [] = Some (ModelSelector.name rec)).
  { unfold ModelSelector.select_model. rewrite Hrec. cbn [negb].
    rewrite ModelSelectorFacts.find_none; [reflexivity|].
    apply Forall_forall. intros p _. reflexivity. }
  split.
  - rewrite H. unfold ModelSelector.select_model. rewrite Hrec. reflexivity.
  - exists rec, rest. auto.
Qed.

Lemma X22_witness :
  ModelSelectorMore.select_model_checked 16 ModelSelector.CODE_REVIEW ModelSelectorMore.RequestFailed
  = ModelSelector.select_model 16 ModelSelector.CODE_REVIEW false [].
Proof.
  apply (X22_select_model_listing_failure 16 ModelSelector.CODE_REVIEW ModelSelectorMore.RequestFailed).
  reflexivity.
Defined.

(* ----------------------------------------------------------------- *)
(** *** Providers *)

Module ProvidersFacts.

Lemma contains_append_r (s t sub : string) :
  Py.contains s sub -> Py.contains (s ++ t) sub.
Proof.
  intros [pre [post ->]]. exists pre, (post ++ t)%string.
  rewrite <- !str_app_assoc. reflexivity.
Qed.

End ProvidersFacts.

(** [create_provider] in a given environment: Gemini is usable when the
    package is installed, [GEMINI_API_KEY] is set and non-empty and the
    client is configured; Ollama when [OLLAMA_TIMEOUT] parses and the
    [/api/tags] probe answers 200.  The factory returns the first usable one
    in its order (Gemini first unless [prefer_local]); otherwise it raises
    with Gemini's reason always "GeminiProvider instantiated but not
    available" (its constructor never raises) and Ollama's reason the
    [float()] error of a bad timeout, or "OllamaProvider instantiated but
    not available". *)
Theorem X23_create_provider_in_env (pe : Providers.provider_env) :
  let g := Providers.genai_installed pe
           && match Providers.GEMINI_API_KEY pe with Some k => negb (String.eqb k "") | None => false end
           && Providers.configure_ok pe in
  let o := match Providers.timeout_error pe with
           | Some _ => false
           | None => match Providers.probe pe with
                     | Providers.ProbeStatus code => Z.eqb code 200
                     | Providers.ProbeRaises => false
                     end
           end in
  let oerr := match Providers.timeout_error pe with
              | Some msg => msg
              | None => "OllamaProvider instantiated but not available"%string
              end in
  ProviderFactory.create_provider (Providers.env_behaviour pe) false =
    (if g then ProviderFactory.Provider ProviderFactory.GeminiProvider
     else if o then ProviderFactory.Provider ProviderFactory.OllamaProvider
     else ProviderFactory.RuntimeError
            (ProviderFactory.error_message ["GeminiProvider"; "OllamaProvider"]
               [("GeminiProvider", "GeminiProvider instantiated but not available");
                ("OllamaProvider", oerr)])%string) /\
  ProviderFactory.create_provider (Providers.env_behaviour pe) true =
    (if o then ProviderFactory.Provider ProviderFactory.OllamaProvider
     else if g then ProviderFactory.Provider ProviderFactory.GeminiProvider
     else ProviderFactory.RuntimeError
            (ProviderFactory.error_message ["OllamaProvider"; "GeminiProvider"]
               [("OllamaProvider", oerr);
                ("GeminiProvider", "GeminiProvider instantiated but not available")])%string).
Proof.
  destruct pe as [gi key cfg terr pr].
  unfold ProviderFactory.create_provider, Providers.env_behaviour, Providers.ollama_behaviour,
    Providers.gemini_behaviour. cbn.
  destruct (gi && match key with Some k => negb (String.eqb k "") | None => false end && cfg);
    destruct terr as [msg|]; try destruct pr as [|code]; try destruct (Z.eqb code 200);
    split; reflexivity.
Qed.

(** [analyze_text] of the providers checks availability first: an
    unavailable provider raises "<name> provider is not available" even for
    an empty prompt.  An available one raises "Prompt cannot be empty" for a
    prompt that is empty or only whitespace; for any other prompt the
    text sent to the model ends with the prompt verbatim, is the prompt
    itself when the context is missing or empty, and contains a line
    "k: v" for every context entry. *)
Theorem X24_analyze_text (name : string) (available : bool) (prompt : string)
    (context : option (list (string * string))) :
  (available = false ->
   Providers.analyze_text name available prompt context
   = Webhook.PRaise (Webhook.mkExn "RuntimeError" (name ++ " provider is not available")%string)) /\
  (available = true -> Providers.is_blank prompt = true ->
   Providers.analyze_text name available prompt context
   = Webhook.PRaise (Webhook.mkExn "ValueError" "Prompt cannot be empty")) /\
  (available = true -> Providers.is_blank prompt = false ->
   exists full,
     Providers.analyze_text name available prompt context = Webhook.POk full /\
     (exists pre, full = (pre ++ prompt)%string) /\
     ((context = None \/ context = Some []) -> full = prompt) /\
     (forall kvs k v, context = Some kvs -> In (k, v) kvs -> Py.contains full (k ++ ": " ++ v)%string)).
Proof.
  unfold Providers.analyze_text. split; [|split].
  - intros ->. reflexivity.
  - intros -> Hb. rewrite Hb. reflexivity.
  - intros -> Hb. rewrite Hb. cbn [negb].
    eexists. split; [reflexivity|].
    unfold Providers.format_prompt_with_context. split; [|split].
    + destruct context as [[|kv kvs]|].
      * exists ""%string. reflexivity.
      * eexists. rewrite !str_app_assoc. reflexivity.
      * exists ""%string. reflexivity.
    + intros [-> | ->]; reflexivity.
    + intros kvs k v -> Hin. destruct kvs as [|kv kvs]; [destruct Hin|].
      apply ProvidersFacts.contains_append_r.
      apply concat_contains_member.
      apply (in_map (fun kv => fst kv ++ ": " ++ snd kv)%string) in Hin. exact Hin.
Qed.

Lemma X23_witness :
  ProviderFactory.create_provider
    (Providers.env_behaviour (Providers.mkProviderEnv true (Some "") true (Some "could not convert string to float: 'abc'") (Providers.ProbeStatus 200)))
    false
  = ProviderFactory.RuntimeError
      (ProviderFactory.error_message ["GeminiProvider"; "OllamaProvider"]
         [("GeminiProvider", "GeminiProvider instantiated but not available");
          ("OllamaProvider", "could not convert string to float: 'abc'")])%string.
Proof.
  apply (X23_create_provider_in_env
    (Providers.mkProviderEnv true (Some "") true (Some "could not convert string to float: 'abc'") (Providers.ProbeStatus 200))).
Defined.

Lemma X24_witness :
  Providers.analyze_text "Ollama" true "   " None
  = Webhook.PRaise (Webhook.mkExn "ValueError" "Prompt cannot be empty") /\
  exists full,
    Providers.analyze_text "Ollama" true "Summarise" (Some [("domain", "pyrolysis")]) = Webhook.POk full /\
    (exists pre, full = (pre ++ "Summarise")%string) /\
    ((Some [("domain", "pyrolysis")] = None \/ Some [("domain"%string, "pyrolysis"%string)] = Some []) ->
     full = "Summarise"%string) /\
    (forall kvs k v, Some [("domain"%string, "pyrolysis"%string)] = Some kvs -> In (k, v) kvs ->
     Py.contains full (k ++ ": " ++ v)%string).
Proof.
  split.
  - destruct (X24_analyze_text "Ollama" true "   " None) as [_ [H _]].
    apply H; reflexivity.
  - destruct (X24_analyze_text "Ollama" true "Summarise" (Some [("domain", "pyrolysis")])) as [_ [_ H]].
    apply H; reflexivity.
Defined.
